(** * Sistema de Turnos Médicos: the browser client, embedded in Rocq

    The repository's JavaScript front end (the application script in its two
    revisions, the schedule/blocks module and the API client) is embedded
    shallowly:

    - JavaScript values keep their shape: strings are [string], numbers
      that are ids or minutes are [Z], a number that may be [NaN] is an
      [option Z], [null]/[undefined] object references are [option];
    - the JSON object used as a date-indexed map is a [gmap string _];
    - global mutable state ([appState], [calendarioState], ...), the DOM
      inputs, the HTTP requests sent and the toasts shown live in a [World]
      that every handler threads through a small state-and-exception monad;
    - what the browser and the network answer (the server's replies, the
      [confirm] dialog, [Math.random], the clock) are inputs of the model;
    - of what the handlers paint, the model keeps the parts the properties
      below are about: the action buttons of the listed appointments, the
      cells of the weekly calendar, the controls of the pagination bar, the
      weekly grid of availability rows and the list of blocks.  Other
      painting (CSS classes, captions, inline styles) is left out, and the
      elements a handler writes to are taken to exist.

    The Python back end is not part of these sources; the booking engine of
    the specification is modelled separately in [Module Engine]. *)

From Stdlib Require Import ZArith String Ascii Bool List Lia QArith Qround.
From stdpp Require Import gmap strings list pretty sorting.

Local Open Scope string_scope.
Local Open Scope Z_scope.
Local Open Scope list_scope.

(* ===================================================================== *)
(** ** JavaScript primitives used by the client *)
(* ===================================================================== *)

Module JS.

(** [!s] for a string: only the empty string is falsy. *)
Definition truthy_str (s : string) : bool :=
  match s with
  | EmptyString => false
  | String _ _ => true
  end.

(** [!x] for a number: [0] and [NaN] are falsy. *)
Definition truthy_num (n : option Z) : bool :=
  match n with
  | Some z => negb (z =? 0)%Z
  | None => false
  end.

(** [a or b] on a possibly missing string: [a] when it is truthy. *)
Definition or_str (a : option string) (b : string) : string :=
  match a with
  | Some s => if truthy_str s then s else b
  | None => b
  end.

(** [a >= b] on strings: comparison of code units, left to right. *)
Definition str_ge (a b : string) : bool :=
  match String.compare a b with
  | Lt => false
  | _ => true
  end.

(** [a >= b] on numbers that may be [NaN]: any comparison with [NaN] is
    false. *)
Definition num_ge (a b : option Z) : bool :=
  match a, b with
  | Some x, Some y => (y <=? x)%Z
  | _, _ => false
  end.

(** [s.substring(i, j)] for [i <= j]. *)
Definition substring (i j : nat) (s : string) : string :=
  String.substring i (j - i) s.

Fixpoint repeat_char (c : ascii) (n : nat) : string :=
  match n with
  | O => EmptyString
  | S n' => String c (repeat_char c n')
  end.

(** [s.padStart(n, c)] with a one-character filler. *)
Definition padStart (n : nat) (c : ascii) (s : string) : string :=
  repeat_char c (n - String.length s) +:+ s.

(** [`${n}`] for an integer. *)
Definition num_to_string (n : Z) : string := pretty n.

(** White space removed by [trim]: space, tab, line feed, vertical tab,
    form feed and carriage return. *)
Definition es_blanco (c : ascii) : bool :=
  let n := nat_of_ascii c in
  Nat.eqb n 32 || (Nat.leb 9 n && Nat.leb n 13).

Fixpoint trimStart (s : string) : string :=
  match s with
  | EmptyString => EmptyString
  | String c r => if es_blanco c then trimStart r else s
  end.

Fixpoint trimEnd (s : string) : string :=
  match s with
  | EmptyString => EmptyString
  | String c r =>
      match trimEnd r with
      | EmptyString => if es_blanco c then EmptyString else String c EmptyString
      | r' => String c r'
      end
  end.

(** [s.trim()]. *)
Definition trim (s : string) : string := trimEnd (trimStart s).

(** The [value] of an [<input type="time">] set to the given minute of the
    day: ["HH:MM"]. *)
Definition valor_time (minutos : Z) : string :=
  padStart 2 "0" (num_to_string (minutos / 60)) +:+ ":"
  +:+ padStart 2 "0" (num_to_string (minutos mod 60)).

(** On every pair of minutes of the day, [>=] on the two time values agrees
    with [>=] on the minutes: checked by running through all the pairs. *)
Definition orden_horas_ok : bool :=
  let valores := map (λ t, (t, valor_time t)) (seqZ 0 1440) in
  forallb (λ a, forallb (λ b, Bool.eqb (str_ge a.2 b.2) (b.1 <=? a.1)%Z) valores) valores.

(** [a > b] and [a <= b] on numbers that may be [NaN]. *)
Definition num_gt (a b : option Z) : bool :=
  match a, b with
  | Some x, Some y => (y <? x)%Z
  | _, _ => false
  end.

Definition num_le (a b : option Z) : bool :=
  match a, b with
  | Some x, Some y => (x <=? y)%Z
  | _, _ => false
  end.

End JS.

(* ===================================================================== *)
(** ** Records exchanged with the back end *)
(* ===================================================================== *)

Record Paciente := mkPaciente {
  pac_id : Z;
  pac_nombre : string;
  pac_apellido : string;
  pac_dni : string
}.

Record Especialidad := mkEspecialidad {
  esp_id : Z;
  esp_nombre : string
}.

Record Medico := mkMedico {
  med_id : Z;
  med_nombre : string;
  med_apellido : string;
  med_matricula : string
}.

Record EstadoTurno := mkEstado {
  codigo : string;
  descripcion : string
}.

Record Turno := mkTurno {
  turno_id : Z;
  fecha_hora : string;
  duracion_minutos : Z;
  estado : EstadoTurno;
  motivo : option string;
  paciente_nombre : option string
}.

(** One entry of the availability calendar, [calendario[fecha]]. *)
Record DiaInfo := mkDiaInfo {
  bloqueado : bool;
  motivo_bloqueo : option string;
  horarios : option (list string)
}.

(** Body of [POST /turnos/]. *)
Record TurnoData := mkTurnoData {
  td_id_paciente : Z;
  td_id_medico : Z;
  td_id_especialidad : Z;
  td_fecha_hora : option string;
  td_duracion_minutos : Z;
  td_motivo : option string
}.

(** [formData] of the availability form: the two numbers come from
    [parseInt], so each may be [NaN] ([None]). *)
Record DisponibilidadData := mkDisponibilidadData {
  dia_semana : option Z;
  hora_desde : string;
  hora_hasta : string;
  duracion_slot : option Z
}.

(** [formData] of the block form. *)
Record BloqueoData := mkBloqueoData {
  inicio : string;
  fin : string;
  bloqueo_motivo : string
}.

Record Bloqueo := mkBloqueo {
  bloqueo_id : Z;
  bloqueo_inicio : string;
  bloqueo_fin : string
}.

Record Disponibilidad := mkDisponibilidad {
  disp_id : Z;
  disp_data : DisponibilidadData
}.

(* ===================================================================== *)
(** ** The API client *)
(* ===================================================================== *)

Module Api.

Inductive Metodo := GET | POST | PUT | PATCH | DELETE.

Inductive Body :=
| BodyTurno (d : TurnoData)
| BodyDisponibilidad (d : DisponibilidadData)
| BodyBloqueo (d : BloqueoData).

(** One call of [APIClient.request(endpoint, options)]. *)
Record Request := mkRequest {
  metodo : Metodo;
  endpoint : string;
  body : option Body
}.

(** What a successful call resolves to. *)
Inductive Data :=
| DNada
| DPaciente (p : Paciente)
| DTurnos (l : list Turno)
| DPagina (turnos : list Turno) (total_pages : Z)
| DCalendario (c : gmap string DiaInfo)
| DDisponibilidades (l : list Disponibilidad)
| DBloqueos (l : list Bloqueo).

(** [response.ok] with its payload, or the error [request] throws. *)
Inductive Response :=
| RespOk (d : Data)
| RespError (detail : string).

Definition metodo_eqb (a b : Metodo) : bool :=
  match a, b with
  | GET, GET | POST, POST | PUT, PUT | PATCH, PATCH | DELETE, DELETE => true
  | _, _ => false
  end.

Definition id_str (n : Z) : string := JS.num_to_string n.

(** [`${x}`] for an id that may be [null]. *)
Definition id_opt_str (n : option Z) : string :=
  match n with
  | Some z => id_str z
  | None => "null"
  end.

Definition bool_str (b : bool) : string := if b then "true" else "false".

(** The request each client method builds. *)
Definition getPacienteByDNI (dni : string) : Request :=
  mkRequest GET ("/pacientes/dni/" +:+ dni) None.

Definition getTurnosPaciente (pacienteId : Z) (soloFuturos : bool) : Request :=
  mkRequest GET
    ("/turnos/paciente/" +:+ id_str pacienteId +:+ "?solo_futuros=" +:+ bool_str soloFuturos)
    None.

Definition getTurnosByMedico (medicoId : Z) : Request :=
  mkRequest GET ("/turnos/medico/" +:+ id_str medicoId) None.

Definition getCalendarioDisponibilidad (medicoId dias duracion : Z) : Request :=
  mkRequest GET
    ("/turnos/calendario/" +:+ id_str medicoId
       +:+ "?dias=" +:+ id_str dias +:+ "&duracion=" +:+ id_str duracion)
    None.

Definition createTurno (turnoData : TurnoData) : Request :=
  mkRequest POST "/turnos/" (Some (BodyTurno turnoData)).

Definition confirmarTurno (turnoId : Z) : Request :=
  mkRequest POST ("/turnos/" +:+ id_str turnoId +:+ "/confirmar") None.

Definition cancelarTurno (turnoId : Z) : Request :=
  mkRequest POST ("/turnos/" +:+ id_str turnoId +:+ "/cancelar") None.

Definition deleteTurno (turnoId : Z) : Request :=
  mkRequest DELETE ("/turnos/" +:+ id_str turnoId) None.

Definition getDisponibilidades (medicoId : option Z) : Request :=
  mkRequest GET ("/medicos/" +:+ id_opt_str medicoId +:+ "/disponibilidades") None.

Definition createDisponibilidad (medicoId : option Z) (d : DisponibilidadData) : Request :=
  mkRequest POST ("/medicos/" +:+ id_opt_str medicoId +:+ "/disponibilidades")
    (Some (BodyDisponibilidad d)).

Definition updateDisponibilidad (medicoId disponibilidadId : option Z)
    (d : DisponibilidadData) : Request :=
  mkRequest PUT
    ("/medicos/" +:+ id_opt_str medicoId +:+ "/disponibilidades/"
       +:+ id_opt_str disponibilidadId)
    (Some (BodyDisponibilidad d)).

Definition getBloqueos (medicoId : option Z) : Request :=
  mkRequest GET ("/medicos/" +:+ id_opt_str medicoId +:+ "/bloqueos") None.

Definition createBloqueo (medicoId : option Z) (d : BloqueoData) : Request :=
  mkRequest POST ("/medicos/" +:+ id_opt_str medicoId +:+ "/bloqueos")
    (Some (BodyBloqueo d)).

Definition updateBloqueo (medicoId bloqueoId : option Z) (d : BloqueoData) : Request :=
  mkRequest PUT
    ("/medicos/" +:+ id_opt_str medicoId +:+ "/bloqueos/" +:+ id_opt_str bloqueoId)
    (Some (BodyBloqueo d)).

Definition getMedicos : Request := mkRequest GET "/medicos?skip=0&limit=100" None.

Definition getEspecialidades : Request := mkRequest GET "/especialidades/" None.

Definition getPacientes : Request := mkRequest GET "/pacientes?skip=0&limit=100" None.

Definition getTurnosLimit (limit : Z) : Request :=
  mkRequest GET ("/turnos?limit=" +:+ id_str limit) None.

Definition getMedicosByEspecialidad (especialidadId : Z) : Request :=
  mkRequest GET ("/medicos/especialidad/" +:+ id_str especialidadId) None.

(** [api.request('/turnos/mis-turnos/listar?' + params)]. *)
Definition listarMisTurnos (page pageSize : Z) (dni : option string) : Request :=
  mkRequest GET
    ("/turnos/mis-turnos/listar?page=" +:+ id_str page
       +:+ "&page_size=" +:+ id_str pageSize
       +:+ match dni with
           | Some d => if JS.truthy_str d then "&dni=" +:+ d else ""
           | None => ""
           end)
    None.

Definition deleteDisponibilidad (medicoId : option Z) (disponibilidadId : Z) : Request :=
  mkRequest DELETE
    ("/medicos/" +:+ id_opt_str medicoId +:+ "/disponibilidades/"
       +:+ id_str disponibilidadId)
    None.

End Api.

(* ===================================================================== *)
(** ** Global state of the page *)
(* ===================================================================== *)

(** [appState] of the application script. *)
Record AppState := mkAppState {
  pacienteSeleccionado : option Paciente;
  especialidadSeleccionada : option Especialidad;
  medicoSeleccionado : option Medico;
  horarioSeleccionado : option string;
  currentStep : Z
}.

(** [calendarioState]. *)
Record CalendarioState := mkCalendarioState {
  semanaActual : Z;
  horariosTodos : gmap string DiaInfo;
  turnosOcupados : list Turno
}.

(** [misTurnosState]. *)
Record MisTurnosState := mkMisTurnosState {
  currentPage : Z;
  pageSize : Z;
  totalPages : Z;
  currentDNI : option string
}.

(** [horariosState] of the schedule module. *)
Record HorariosState := mkHorariosState {
  hs_medicoSeleccionado : option Z;
  disponibilidades : list Disponibilidad;
  bloqueos : list Bloqueo;
  modoEdicion : bool;
  itemEditando : option Z
}.

(** Result of running a piece of JavaScript: a value, or a thrown error. *)
Inductive Res (A : Type) :=
| Val (a : A)
| Exc (msg : string).
Arguments Val {A} a.
Arguments Exc {A} msg.

(* ===================================================================== *)
(** ** The weekly calendar (step 4 of the booking wizard) *)
(* ===================================================================== *)

(** What the calendar code asks of the browser's [Date].  A [Date] at local
    midnight is represented by its local day number (days since 1 January
    1970), so that [setDate(getDate() + n)] is the addition of [n].
    - [isoFecha d] is [d.toISOString().split('T')[0]];
    - [fechaUTC s] is [new Date(s).toISOString().split('T')[0]], which
      throws a RangeError ([None]) when [s] is not a date;
    - [horaLocal s] is [new Date(s).getHours()];
    - [Date_parse s] is the time value of [new Date(s)], [None] for an
      invalid date (whose time value is [NaN]);
    - [formatDateTime] is the locale formatting of the same name. *)
Record Navegador := mkNavegador {
  isoFecha : Z → string;
  fechaUTC : string → option string;
  horaLocal : string → Z;
  Date_parse : string → option Z;
  formatDateTime : option string → string
}.

Module Calendario.

Record TurnoInfo := mkTurnoInfo {
  ti_fecha_hora : string;
  ti_paciente : string
}.

(** One [div.cal-celda].  [onclick] is the click listener of an available
    cell: the value it stores in [appState.horarioSeleccionado]. *)
Record Celda := mkCelda {
  clases : list string;
  title : option string;
  cursor : option string;
  contenido : option TurnoInfo;
  dataset_horario : option string;
  onclick : option string
}.

(** Children of [#calendario-semanal], in the order they are appended.  A
    cell is recorded with the date and hour of its grid position. *)
Inductive Nodo :=
| HeaderCorner
| HeaderDia (nombre : string) (dia : Z) (esHoy : bool)
| HoraLabel (texto : string)
| NCelda (fecha hora : string) (c : Celda).

(** [d.getDay()], Sunday being 0: day 0 was a Thursday. *)
Definition getDay (d : Z) : Z := (d + 4) mod 7.

(** The seven days shown: the Monday-to-Sunday week that contains
    today plus [semanaActual] weeks. *)
Definition diasSemana (hoy semana : Z) : list Z :=
  let inicioSemana := hoy + semana * 7 in
  let diaSemana := getDay inicioSemana in
  let diferencia := if (diaSemana =? 0)%Z then -6 else 1 - diaSemana in
  let inicioSemana := inicioSemana + diferencia in
  map (λ i, inicioSemana + i) (seqZ 0 7).

(** ["08"], ..., ["19"]. *)
Definition horasDelDia : list string :=
  map (λ hora, JS.padStart 2 "0" (JS.num_to_string hora)) (seqZ 8 12).

Definition nombresDias : list string :=
  ["Lun"; "Mar"; "Mié"; "Jue"; "Vie"; "Sáb"; "Dom"].

Definition colores : list string := [""; "amarillo"; "verde"; "rosa"].

(** [l[i]] for an integer index: [undefined] outside the array. *)
Definition indice {A} (l : list A) (i : Z) : option A :=
  if (i <? 0)%Z then None else l !! Z.to_nat i.

Definition buscarHorarioDisponible (st : CalendarioState) (fecha hora : string)
    : option string :=
  match horariosTodos st !! fecha with
  | None => None
  | Some diaInfo =>
      if bloqueado diaInfo then None
      else
        let horarios := default [] (horarios diaInfo) in
        List.find (λ h, String.eqb (JS.substring 11 13 h) hora) horarios
  end.

(** [turnos.find(...)] of [buscarTurnoOcupado]: the first appointment on
    that date and hour; the callback throws on an unparsable timestamp. *)
Fixpoint find_turno (nav : Navegador) (turnos : list Turno) (fecha hora : string)
    : Res (option Turno) :=
  match turnos with
  | [] => Val None
  | turno :: resto =>
      match fechaUTC nav (fecha_hora turno) with
      | None => Exc "RangeError"
      | Some fechaTurnoStr =>
          let horaTurnoStr :=
            JS.padStart 2 "0" (JS.num_to_string (horaLocal nav (fecha_hora turno))) in
          if String.eqb fechaTurnoStr fecha && String.eqb horaTurnoStr hora
          then Val (Some turno)
          else find_turno nav resto fecha hora
      end
  end.

Definition buscarTurnoOcupado (nav : Navegador) (st : CalendarioState)
    (fecha hora : string) : Res (option Turno) :=
  find_turno nav (turnosOcupados st) fecha hora.

Definition celda_bloqueada (diaInfo : option DiaInfo) : Celda :=
  mkCelda ["cal-celda"; "bloqueado"]
    (Some (JS.or_str (diaInfo ≫= motivo_bloqueo) "Médico no disponible"))
    (Some "not-allowed") None None None.

Definition celda_ocupada (color : string) (turno : Turno) : Celda :=
  mkCelda ["cal-celda"; "ocupado"; color] None None
    (Some (mkTurnoInfo (fecha_hora turno) (JS.or_str (paciente_nombre turno) "N/A")))
    None None.

Definition celda_disponible (horario : string) : Celda :=
  mkCelda ["cal-celda"; "disponible"] None None None (Some horario) (Some horario).

Definition celda_no_disponible : Celda :=
  mkCelda ["cal-celda"; "no-disponible"] None (Some "not-allowed") None None None.

(** Body of the inner [forEach]: the cell for one day and hour.  [azar k]
    is the result of the [k]-th call of [Math.random()]; the second
    component counts the calls made.  [classList.add] throws a
    SyntaxError when one of its tokens is the empty string, which is the
    first entry of [colores]. *)
Definition crear_celda (nav : Navegador) (azar : nat → Q) (st : CalendarioState)
    (fechaStr hora : string) (k : nat) : Res Celda * nat :=
  let horarioDisponible := buscarHorarioDisponible st fechaStr hora in
  let diaInfo := horariosTodos st !! fechaStr in
  let diaBloqueado :=
    match diaInfo with
    | Some i => bloqueado i
    | None => false
    end in
  match buscarTurnoOcupado nav st fechaStr hora with
  | Exc e => (Exc e, k)
  | Val turnoOcupado =>
      if diaBloqueado then (Val (celda_bloqueada diaInfo), k)
      else
        match turnoOcupado with
        | Some turno =>
            let colorAleatorio :=
              indice colores (Qfloor (azar k * inject_Z (Z.of_nat (length colores)))) in
            match colorAleatorio with
            | Some color =>
                if JS.truthy_str color
                then (Val (celda_ocupada color turno), S k)
                else (Exc "SyntaxError", S k)
            | None => (Val (celda_ocupada "undefined" turno), S k)
            end
        | None =>
            match horarioDisponible with
            | Some horario =>
                if JS.truthy_str horario
                then (Val (celda_disponible horario), k)
                else (Val celda_no_disponible, k)
            | None => (Val celda_no_disponible, k)
            end
        end
  end.

(** The cells of one hour row; stops at the first exception. *)
Fixpoint render_fila (nav : Navegador) (azar : nat → Q) (st : CalendarioState)
    (hora : string) (dias : list Z) (k : nat) : list Nodo * option string * nat :=
  match dias with
  | [] => ([], None, k)
  | dia :: resto =>
      let fechaStr := isoFecha nav dia in
      match crear_celda nav azar st fechaStr hora k with
      | (Exc e, k') => ([], Some e, k')
      | (Val celda, k') =>
          let '(nodos, err, k'') := render_fila nav azar st hora resto k' in
          (NCelda fechaStr hora celda :: nodos, err, k'')
      end
  end.

(** The outer [forEach] over the hours. *)
Fixpoint render_filas (nav : Navegador) (azar : nat → Q) (st : CalendarioState)
    (horas : list string) (dias : list Z) (k : nat)
    : list Nodo * option string * nat :=
  match horas with
  | [] => ([], None, k)
  | hora :: resto =>
      let '(fila, err, k') := render_fila nav azar st hora dias k in
      match err with
      | Some e => (HoraLabel (hora +:+ ":00") :: fila, Some e, k')
      | None =>
          let '(nodos, err', k'') := render_filas nav azar st resto dias k' in
          (HoraLabel (hora +:+ ":00") :: fila ++ nodos, err', k'')
      end
  end.

Definition encabezados (hoy : Z) (dias : list Z) : list Nodo :=
  HeaderCorner
    :: zip_with (λ nombre dia, HeaderDia nombre dia (dia =? hoy)%Z) nombresDias dias.

(** [renderizarCalendarioSemanal()]: the children of the container, the
    exception that interrupted the rendering if any, and the number of
    random draws made so far. *)
Definition renderizarCalendarioSemanal (nav : Navegador) (azar : nat → Q)
    (hoy : Z) (st : CalendarioState) (k : nat) : list Nodo * option string * nat :=
  let dias := diasSemana hoy (semanaActual st) in
  let '(nodos, err, k') := render_filas nav azar st horasDelDia dias k in
  (encabezados hoy dias ++ nodos, err, k').

(** A cell can be picked when it carries the click listener. *)
Definition seleccionable (c : Celda) : bool :=
  match onclick c with
  | Some _ => true
  | None => false
  end.

(** The colour class of an occupied cell removed. *)
Definition sin_color (n : Nodo) : Nodo :=
  match n with
  | NCelda fecha hora c =>
      match contenido c with
      | Some _ =>
          NCelda fecha hora
            (mkCelda (take 2 (clases c)) (title c) (cursor c) (contenido c)
               (dataset_horario c) (onclick c))
      | None => n
      end
  | _ => n
  end.

(** The slots the rendered calendar lets the user pick, in document
    order. *)
Definition horarios_ofrecidos (nodos : list Nodo) : list string :=
  omap (λ n, match n with
             | NCelda _ _ c => onclick c
             | _ => None
             end) nodos.

(** Two renderings agree up to the colours: a rendering that ran to
    completion extends the other one, and in any case one is a prefix of the
    other. *)
Definition compatibles (a b : list Nodo * option string) : Prop :=
  (a.2 = None → map sin_color b.1 `prefix_of` map sin_color a.1)
  ∧ (b.2 = None → map sin_color a.1 `prefix_of` map sin_color b.1)
  ∧ (map sin_color a.1 `prefix_of` map sin_color b.1
     ∨ map sin_color b.1 `prefix_of` map sin_color a.1).

End Calendario.

(* ===================================================================== *)
(** ** The world of a handler and the handler monad *)
(* ===================================================================== *)

(** The buttons a rendered appointment carries in its actions cell. *)
Inductive Boton :=
| BotonConfirmar (turnoId : Z)   (* onclick="confirmarTurnoById(id)" *)
| BotonCancelar (turnoId : Z).   (* onclick="cancelarTurnoById(id)"  *)

Record TurnoVista := mkTurnoVista {
  tv_turno : Z;
  tv_estadoClass : string;
  tv_botones : list Boton
}.

(** Everything a handler can read or change.  The last five fields are the
    environment: [servidor] answers a request given the requests already
    sent, [responde_confirm] is what the user answers to [window.confirm],
    [hoy] is the local day number of [new Date()] and [azar k] the result of
    the [k]-th call of [Math.random()] ([n_azar] counts the calls made). *)
Record World := mkWorld {
  appState : AppState;
  calendarioState : CalendarioState;
  misTurnosState : MisTurnosState;
  horariosState : HorariosState;
  documento : gmap string string;
  turnos_mostrados : list TurnoVista;
  calendario_semanal : list Calendario.Nodo;
  peticiones : list Api.Request;
  toasts : list (string * string);
  loading : bool;
  n_azar : nat;
  servidor : list Api.Request → Api.Request → Api.Response;
  responde_confirm : string → bool;
  nav : Navegador;
  hoy : Z;
  azar : nat → Q
}.

Definition set_appState (f : AppState → AppState) (w : World) : World :=
  mkWorld (f (appState w)) (calendarioState w) (misTurnosState w) (horariosState w)
    (documento w) (turnos_mostrados w) (calendario_semanal w) (peticiones w) (toasts w)
    (loading w) (n_azar w) (servidor w) (responde_confirm w) (nav w) (hoy w) (azar w).

Definition set_calendarioState (f : CalendarioState → CalendarioState) (w : World) : World :=
  mkWorld (appState w) (f (calendarioState w)) (misTurnosState w) (horariosState w)
    (documento w) (turnos_mostrados w) (calendario_semanal w) (peticiones w) (toasts w)
    (loading w) (n_azar w) (servidor w) (responde_confirm w) (nav w) (hoy w) (azar w).

Definition set_misTurnosState (f : MisTurnosState → MisTurnosState) (w : World) : World :=
  mkWorld (appState w) (calendarioState w) (f (misTurnosState w)) (horariosState w)
    (documento w) (turnos_mostrados w) (calendario_semanal w) (peticiones w) (toasts w)
    (loading w) (n_azar w) (servidor w) (responde_confirm w) (nav w) (hoy w) (azar w).

Definition set_horariosState (f : HorariosState → HorariosState) (w : World) : World :=
  mkWorld (appState w) (calendarioState w) (misTurnosState w) (f (horariosState w))
    (documento w) (turnos_mostrados w) (calendario_semanal w) (peticiones w) (toasts w)
    (loading w) (n_azar w) (servidor w) (responde_confirm w) (nav w) (hoy w) (azar w).

Definition set_documento (f : gmap string string → gmap string string) (w : World) : World :=
  mkWorld (appState w) (calendarioState w) (misTurnosState w) (horariosState w)
    (f (documento w)) (turnos_mostrados w) (calendario_semanal w) (peticiones w) (toasts w)
    (loading w) (n_azar w) (servidor w) (responde_confirm w) (nav w) (hoy w) (azar w).

Definition set_turnos_mostrados (v : list TurnoVista) (w : World) : World :=
  mkWorld (appState w) (calendarioState w) (misTurnosState w) (horariosState w) (documento w)
    v (calendario_semanal w) (peticiones w) (toasts w) (loading w) (n_azar w)
    (servidor w) (responde_confirm w) (nav w) (hoy w) (azar w).

Definition set_calendario_semanal (v : list Calendario.Nodo) (w : World) : World :=
  mkWorld (appState w) (calendarioState w) (misTurnosState w) (horariosState w) (documento w)
    (turnos_mostrados w) v (peticiones w) (toasts w) (loading w) (n_azar w) (servidor w)
    (responde_confirm w) (nav w) (hoy w) (azar w).

Definition set_peticiones (v : list Api.Request) (w : World) : World :=
  mkWorld (appState w) (calendarioState w) (misTurnosState w) (horariosState w) (documento w)
    (turnos_mostrados w) (calendario_semanal w) v (toasts w) (loading w) (n_azar w)
    (servidor w) (responde_confirm w) (nav w) (hoy w) (azar w).

Definition set_toasts (v : list (string * string)) (w : World) : World :=
  mkWorld (appState w) (calendarioState w) (misTurnosState w) (horariosState w) (documento w)
    (turnos_mostrados w) (calendario_semanal w) (peticiones w) v (loading w) (n_azar w)
    (servidor w) (responde_confirm w) (nav w) (hoy w) (azar w).

Definition set_loading (v : bool) (w : World) : World :=
  mkWorld (appState w) (calendarioState w) (misTurnosState w) (horariosState w) (documento w)
    (turnos_mostrados w) (calendario_semanal w) (peticiones w) (toasts w) v (n_azar w)
    (servidor w) (responde_confirm w) (nav w) (hoy w) (azar w).

Definition set_n_azar (v : nat) (w : World) : World :=
  mkWorld (appState w) (calendarioState w) (misTurnosState w) (horariosState w) (documento w)
    (turnos_mostrados w) (calendario_semanal w) (peticiones w) (toasts w) (loading w) v
    (servidor w) (responde_confirm w) (nav w) (hoy w) (azar w).

Definition M (A : Type) : Type := World → Res A * World.

#[export] Instance M_ret : MRet M := λ A a w, (Val a, w).

#[export] Instance M_bind : MBind M := λ A B f m w,
  match m w with
  | (Val a, w') => f a w'
  | (Exc e, w') => (Exc e, w')
  end.

Definition throw {A} (e : string) : M A := λ w, (Exc e, w).

Definition get_world : M World := λ w, (Val w, w).

Definition modify (f : World → World) : M unit := λ w, (Val tt, f w).

(** [try { body } catch (e) { handler e }]. *)
Definition try_catch {A} (body : M A) (handler : string → M A) : M A := λ w,
  match body w with
  | (Val a, w') => (Val a, w')
  | (Exc e, w') => handler e w'
  end.

(** [try { body } finally { fin }]: [fin] runs on every exit, also after a
    [return] inside [body]. *)
Definition finally {A} (body : M A) (fin : M unit) : M A := λ w,
  match body w with
  | (r, w') =>
      match fin w' with
      | (Val _, w'') => (r, w'')
      | (Exc e, w'') => (Exc e, w'')
      end
  end.

(** A call of an [async] function that is not awaited: an error inside it
    rejects the promise it returns and does not reach the caller. *)
Definition no_esperado (m : M unit) : M unit :=
  try_catch m (λ _, mret tt).

(** The world a handler leaves behind. *)
Definition run {A} (m : M A) (w : World) : World := snd (m w).

Definition resultado {A} (m : M A) (w : World) : Res A := fst (m w).

(** [APIClient.request]: the request goes out, and the server's answer is
    returned or thrown. *)
Definition request (r : Api.Request) : M Api.Data := λ w,
  let w' := set_peticiones (peticiones w ++ [r]) w in
  match servidor w (peticiones w) r with
  | Api.RespOk d => (Val d, w')
  | Api.RespError e => (Exc e, w')
  end.

Definition showLoading : M unit := modify (set_loading true).
Definition hideLoading : M unit := modify (set_loading false).

Definition showToast (message type : string) : M unit :=
  modify (λ w, set_toasts (toasts w ++ [(message, type)]) w).

(** [document.getElementById(id).value]; a missing element is a TypeError. *)
Definition dom_value (id : string) : M string := λ w,
  match documento w !! id with
  | Some v => (Val v, w)
  | None => (Exc "TypeError", w)
  end.

(** Assignment to [.value] or [.textContent] of an element. *)
Definition dom_set (id v : string) : M unit :=
  modify (set_documento (λ d, <[id := v]> d)).

(** Property access on a reference that may be [null]. *)
Definition deref {A} (o : option A) : M A :=
  match o with
  | Some a => mret a
  | None => throw "TypeError"
  end.

(** [await Promise.all([...])] over requests: every request is sent; the
    first failure, if any, is thrown once all are out. *)
Fixpoint request_all (rs : list Api.Request) : M (list Api.Data) :=
  match rs with
  | [] => mret []
  | r :: rest =>
      λ w,
        match request r w with
        | (Val d, w') =>
            match request_all rest w' with
            | (Val ds, w'') => (Val (d :: ds), w'')
            | (Exc e, w'') => (Exc e, w'')
            end
        | (Exc e, w') => (Exc e, snd (request_all rest w'))
        end
  end.

(** Replies are read at the shape their endpoint documents; a reply of
    another shape counts as a failed call. *)
Definition como_paciente (d : Api.Data) : M Paciente :=
  match d with
  | Api.DPaciente p => mret p
  | _ => throw "TypeError"
  end.

Definition como_turnos (d : Api.Data) : M (list Turno) :=
  match d with
  | Api.DTurnos l => mret l
  | _ => throw "TypeError"
  end.

Definition como_calendario (d : Api.Data) : M (gmap string DiaInfo) :=
  match d with
  | Api.DCalendario c => mret c
  | _ => throw "TypeError"
  end.

(* ===================================================================== *)
(** ** Sorting an array with a comparator *)
(* ===================================================================== *)

Module Orden.

Section Generico.

Context {A : Type} (cmp : A → A → Z).

Fixpoint insertar (x : A) (l : list A) : list A :=
  match l with
  | [] => [x]
  | y :: r => if cmp x y <=? 0 then x :: l else y :: insertar x r
  end.

(** [l.sort(cmp)], a stable sort. *)
Definition ordenar (l : list A) : list A := foldr insertar [] l.

End Generico.

End Orden.

(* ===================================================================== *)
(** ** The application script *)
(* ===================================================================== *)

Module App.

Definition set_currentStep (step : Z) (a : AppState) : AppState :=
  mkAppState (pacienteSeleccionado a) (especialidadSeleccionada a)
    (medicoSeleccionado a) (horarioSeleccionado a) step.

Definition set_paciente (p : option Paciente) (a : AppState) : AppState :=
  mkAppState p (especialidadSeleccionada a) (medicoSeleccionado a)
    (horarioSeleccionado a) (currentStep a).

Definition set_especialidad (e : option Especialidad) (a : AppState) : AppState :=
  mkAppState (pacienteSeleccionado a) e (medicoSeleccionado a)
    (horarioSeleccionado a) (currentStep a).

Definition set_medico (m : option Medico) (a : AppState) : AppState :=
  mkAppState (pacienteSeleccionado a) (especialidadSeleccionada a) m
    (horarioSeleccionado a) (currentStep a).

Definition set_horario (h : option string) (a : AppState) : AppState :=
  mkAppState (pacienteSeleccionado a) (especialidadSeleccionada a)
    (medicoSeleccionado a) h (currentStep a).

Definition set_horariosTodos (c : gmap string DiaInfo) (st : CalendarioState)
    : CalendarioState :=
  mkCalendarioState (semanaActual st) c (turnosOcupados st).

Definition set_turnosOcupados (l : list Turno) (st : CalendarioState)
    : CalendarioState :=
  mkCalendarioState (semanaActual st) (horariosTodos st) l.

Definition set_currentPage (p : Z) (m : MisTurnosState) : MisTurnosState :=
  mkMisTurnosState p (pageSize m) (totalPages m) (currentDNI m).

Definition set_totalPages (t : Z) (m : MisTurnosState) : MisTurnosState :=
  mkMisTurnosState (currentPage m) (pageSize m) t (currentDNI m).

(** *** Home page *)

Definition loadHomeStats : M unit :=
  finally
    (try_catch
       (showLoading;;
        _ ← request_all
              [Api.getMedicos; Api.getEspecialidades; Api.getPacientes;
               Api.getTurnosLimit 1000];
        mret tt)
       (λ _, mret tt))
    hideLoading.

(** [navigateTo('home')]; the page switch itself only touches CSS
    classes. *)
Definition navigateTo_home : M unit := no_esperado loadHomeStats.

(** *** Stepper *)

Definition updateStepper (step : Z) : M unit :=
  modify (set_appState (set_currentStep step)).

Definition validateStep (step : Z) : M bool :=
  w ← get_world;
  let a := appState w in
  match step with
  | 1 =>
      match pacienteSeleccionado a with
      | None =>
          showToast "Debe seleccionar o registrar un paciente" "warning";;
          mret false
      | Some _ => mret true
      end
  | 2 =>
      match especialidadSeleccionada a with
      | None => showToast "Debe seleccionar una especialidad" "warning";; mret false
      | Some _ => mret true
      end
  | 3 =>
      match medicoSeleccionado a with
      | None => showToast "Debe seleccionar un médico" "warning";; mret false
      | Some _ => mret true
      end
  | 4 =>
      match horarioSeleccionado a with
      | Some h =>
          if JS.truthy_str h then mret true
          else showToast "Debe seleccionar un horario" "warning";; mret false
      | None => showToast "Debe seleccionar un horario" "warning";; mret false
      end
  | _ => mret true
  end.

Definition loadEspecialidades : M unit :=
  finally
    (try_catch
       (showLoading;;
        _ ← request Api.getEspecialidades;
        mret tt)
       (λ _, showToast "Error al cargar especialidades" "error"))
    hideLoading.

Definition loadMedicosPorEspecialidad : M unit :=
  finally
    (try_catch
       (showLoading;;
        w ← get_world;
        esp ← deref (especialidadSeleccionada (appState w));
        _ ← request (Api.getMedicosByEspecialidad (esp_id esp));
        mret tt)
       (λ _, showToast "Error al cargar médicos" "error"))
    hideLoading.

(** [renderizarCalendarioSemanal()] run on the page: the container gets the
    nodes built before an exception, if any, stopped the rendering. *)
Definition renderizarCalendarioSemanal : M unit := λ w,
  let '(nodos, err, k) :=
    Calendario.renderizarCalendarioSemanal (nav w) (azar w) (hoy w)
      (calendarioState w) (n_azar w) in
  let w' := set_n_azar k (set_calendario_semanal nodos w) in
  match err with
  | None => (Val tt, w')
  | Some e => (Exc e, w')
  end.

Definition cargarHorariosDisponibles : M unit :=
  finally
    (try_catch
       (showLoading;;
        w ← get_world;
        med ← deref (medicoSeleccionado (appState w));
        d ← request (Api.getCalendarioDisponibilidad (med_id med) 30 30);
        calendario ← como_calendario d;
        modify (set_calendarioState (set_horariosTodos calendario));;
        modify (set_calendarioState (set_turnosOcupados []));;
        try_catch
          (t ← request (Api.getTurnosByMedico (med_id med));
           match t with
           | Api.DTurnos l => modify (set_calendarioState (set_turnosOcupados l))
           | _ => mret tt
           end)
          (λ _, mret tt);;
        renderizarCalendarioSemanal)
       (λ _,
          showToast "Error al cargar horarios disponibles" "error";;
          modify (set_calendario_semanal [])))
    hideLoading.

Definition mostrarResumenTurno : M unit :=
  w ← get_world;
  let a := appState w in
  pac ← deref (pacienteSeleccionado a);
  dom_set "resumen-paciente"
    (pac_nombre pac +:+ " " +:+ pac_apellido pac +:+ " (DNI: " +:+ pac_dni pac +:+ ")");;
  esp ← deref (especialidadSeleccionada a);
  dom_set "resumen-especialidad" (esp_nombre esp);;
  med ← deref (medicoSeleccionado a);
  dom_set "resumen-medico" ("Dr. " +:+ med_nombre med +:+ " " +:+ med_apellido med);;
  dom_set "resumen-fecha-hora" (formatDateTime (nav w) (horarioSeleccionado a)).

(** The [switch (step)] of [nextStep]: load the data of the step entered. *)
Definition cargar_paso (step : Z) : M unit :=
  match step with
  | 2 => no_esperado loadEspecialidades
  | 3 => no_esperado loadMedicosPorEspecialidad
  | 4 => no_esperado cargarHorariosDisponibles
  | 5 => mostrarResumenTurno
  | _ => mret tt
  end.

Definition nextStep (step : Z) : M unit :=
  w ← get_world;
  valido ← validateStep (currentStep (appState w));
  if negb valido then mret tt
  else
    updateStepper step;;
    cargar_paso step.

Definition prevStep (step : Z) : M unit := updateStepper step.

Definition resetReservaTurno : M unit :=
  modify (set_appState (set_paciente None));;
  modify (set_appState (set_especialidad None));;
  modify (set_appState (set_medico None));;
  modify (set_appState (set_horario None));;
  updateStepper 1;;
  modify (set_calendarioState (λ _, mkCalendarioState 0 ∅ []));;
  dom_set "buscar-dni" "".

(** *** What the selection listeners store *)

(** [buscarPaciente] and the new-patient form, once the API answered. *)
Definition seleccionarPaciente (p : Paciente) : M unit :=
  modify (set_appState (set_paciente (Some p))).

(** Click on a specialty card. *)
Definition seleccionarEspecialidad (e : Especialidad) : M unit :=
  modify (set_appState (set_especialidad (Some e))).

(** Click on a physician card. *)
Definition seleccionarMedico (m : Medico) : M unit :=
  modify (set_appState (set_medico (Some m))).

(** Click on an available cell of the calendar (the toast also shows the
    slot in the locale's format). *)
Definition seleccionarHorario (h : string) : M unit :=
  modify (set_appState (set_horario (Some h)));;
  showToast "Horario seleccionado" "success".

(** *** Step 5: booking *)

(** The [alert] that repeats the summary after a successful booking is a
    browser dialog and leaves no trace in the world. *)
Definition confirmarTurno : M unit :=
  texto ← dom_value "turno-motivo";
  let motivo :=
    let m := JS.trim texto in
    if JS.truthy_str m then Some m else None in
  w ← get_world;
  let a := appState w in
  pac ← deref (pacienteSeleccionado a);
  med ← deref (medicoSeleccionado a);
  esp ← deref (especialidadSeleccionada a);
  let turnoData :=
    mkTurnoData (pac_id pac) (med_id med) (esp_id esp) (horarioSeleccionado a) 30 motivo in
  try_catch
    (showLoading;;
     _ ← request (Api.createTurno turnoData);
     hideLoading;;
     showToast "¡Turno reservado exitosamente!" "success";;
     navigateTo_home)
    (λ e,
       hideLoading;;
       showToast ("Error al reservar turno: " +:+ e) "error").

(** *** Mis turnos *)

(** The two ternaries of the actions cell, the same in the card list and in
    the table: a confirm button, then a cancel button. *)
Definition botones_turno (turno : Turno) : list Boton :=
  (if String.eqb (codigo (estado turno)) "PEND"
   then [BotonConfirmar (turno_id turno)] else [])
  ++ (if negb (String.eqb (codigo (estado turno)) "CANC")
         && negb (String.eqb (codigo (estado turno)) "INAS")
      then [BotonCancelar (turno_id turno)] else []).

(** [estadoClass] of [renderizarTablaMisTurnos]. *)
Definition estadoClass_tabla (c : string) : string :=
  if String.eqb c "PEND" then "pendiente"
  else if String.eqb c "CONF" then "confirmado"
  else if String.eqb c "CANC" then "cancelado"
  else "realizado".

(** [estadoClass] of [mostrarTurnosList]. *)
Definition estadoClass_lista (c : string) : string :=
  if String.eqb c "PEND" then "pendiente"
  else if String.eqb c "CONF" then "confirmado"
  else "cancelado".

Definition fila_turno (turno : Turno) : TurnoVista :=
  mkTurnoVista (turno_id turno) (estadoClass_tabla (codigo (estado turno)))
    (botones_turno turno).

Definition tarjeta_turno (turno : Turno) : TurnoVista :=
  mkTurnoVista (turno_id turno) (estadoClass_lista (codigo (estado turno)))
    (botones_turno turno).

Definition renderizarTablaMisTurnos (turnos : list Turno) : M unit :=
  modify (set_turnos_mostrados (map fila_turno turnos)).

(** Comparator of the sort in [mostrarTurnosList], most recent first; a
    [NaN] difference orders nothing. *)
Definition mas_reciente (nav : Navegador) (a b : Turno) : Z :=
  match Date_parse nav (fecha_hora b), Date_parse nav (fecha_hora a) with
  | Some tb, Some ta => tb - ta
  | _, _ => 0
  end.

Fixpoint insertar (cmp : Turno → Turno → Z) (x : Turno) (l : list Turno) : list Turno :=
  match l with
  | [] => [x]
  | y :: r => if cmp x y <=? 0 then x :: l else y :: insertar cmp x r
  end.

(** [turnos.sort(cmp)], a stable sort. *)
Definition ordenar (cmp : Turno → Turno → Z) (l : list Turno) : list Turno :=
  foldr (insertar cmp) [] l.

Definition mostrarTurnosList (turnos : list Turno) : M unit :=
  w ← get_world;
  modify (set_turnos_mostrados (map tarjeta_turno (ordenar (mas_reciente (nav w)) turnos))).

Definition cargarMisTurnos (page : option Z) : M unit :=
  match page with
  | Some p => modify (set_misTurnosState (set_currentPage p))
  | None => mret tt
  end;;
  finally
    (try_catch
       (showLoading;;
        w ← get_world;
        let m := misTurnosState w in
        d ← request (Api.listarMisTurnos (currentPage m) (pageSize m) (currentDNI m));
        match d with
        | Api.DPagina turnos total =>
            modify (set_misTurnosState (set_totalPages total));;
            renderizarTablaMisTurnos turnos
        | _ => throw "TypeError"
        end)
       (λ _,
          showToast "Error al cargar turnos" "error";;
          modify (set_turnos_mostrados [])))
    hideLoading.

Definition buscarTurnosPaciente : M unit :=
  texto ← dom_value "buscar-turnos-dni";
  let dni := JS.trim texto in
  if negb (JS.truthy_str dni) then showToast "Ingrese un DNI" "warning"
  else
    finally
      (try_catch
         (showLoading;;
          d ← request (Api.getPacienteByDNI dni);
          paciente ← como_paciente d;
          t ← request (Api.getTurnosPaciente (pac_id paciente) false);
          turnos ← como_turnos t;
          mostrarTurnosList turnos)
         (λ _,
            showToast "Error al buscar turnos" "error";;
            modify (set_turnos_mostrados [])))
      hideLoading.

(** "Recargar lista según contexto". *)
Definition recargar_lista : M unit :=
  w ← get_world;
  if JS.truthy_num (Some (currentPage (misTurnosState w)))
  then cargarMisTurnos None
  else buscarTurnosPaciente.

Definition confirmarTurnoById (turnoId : Z) : M unit :=
  w ← get_world;
  if negb (responde_confirm w "¿Confirmar este turno?") then mret tt
  else
    finally
      (try_catch
         (showLoading;;
          _ ← request (Api.confirmarTurno turnoId);
          showToast "Turno confirmado" "success";;
          recargar_lista)
         (λ e, showToast ("Error: " +:+ e) "error"))
      hideLoading.

Definition cancelarTurnoById (turnoId : Z) : M unit :=
  w ← get_world;
  if negb (responde_confirm w "¿Está seguro de cancelar este turno?") then mret tt
  else
    finally
      (try_catch
         (showLoading;;
          _ ← request (Api.cancelarTurno turnoId);
          showToast "Turno cancelado" "success";;
          recargar_lista)
         (λ e, showToast ("Error: " +:+ e) "error"))
      hideLoading.

(** A click on a rendered button runs the handler named in its [onclick]. *)
Definition click (b : Boton) : M unit :=
  match b with
  | BotonConfirmar turnoId => confirmarTurnoById turnoId
  | BotonCancelar turnoId => cancelarTurnoById turnoId
  end.

(** *** Step 1: looking the patient up *)


(** *** Step 4: moving between weeks *)



(** *** Mis turnos: the paged list and its filter *)





(** *** Pagination of the list *)

(** The [data] of a page of the list, as far as the pagination reads it. *)
Record PaginaInfo := mkPaginaInfo {
  pg_page : Z;
  pg_total_pages : Z;
  pg_total : Z
}.

(** The children of [#mis-turnos-pagination].  The two arrows and the
    numbered buttons call [cargarMisTurnos] with the page they carry. *)
Inductive ElementoPag :=
| PagAnterior (disabled : bool) (pagina : Z)
| PagNumero (pagina : Z) (active : bool)
| PagElipsis
| PagSiguiente (disabled : bool) (pagina : Z)
| PagInfo (page total_pages total : Z).

(** [startPage] and [endPage] of the window of numbered buttons. *)
Definition ventana_paginas (page total_pages : Z) : Z * Z :=
  let maxVisible := 5 in
  let startPage := Z.max 1 (page - maxVisible / 2) in
  let endPage := Z.min total_pages (startPage + maxVisible - 1) in
  let startPage :=
    if endPage - startPage <? maxVisible - 1
    then Z.max 1 (endPage - maxVisible + 1)
    else startPage in
  (startPage, endPage).

Definition renderizarPaginacion (data : PaginaInfo) : list ElementoPag :=
  if pg_total_pages data <=? 1 then []
  else
    let '(startPage, endPage) := ventana_paginas (pg_page data) (pg_total_pages data) in
    [PagAnterior (pg_page data =? 1) (pg_page data - 1)]
    ++ (if 1 <? startPage
        then PagNumero 1 false :: (if 2 <? startPage then [PagElipsis] else [])
        else [])
    ++ map (λ i, PagNumero i (i =? pg_page data)) (seqZ startPage (endPage - startPage + 1))
    ++ (if endPage <? pg_total_pages data
        then (if endPage <? pg_total_pages data - 1 then [PagElipsis] else [])
             ++ [PagNumero (pg_total_pages data) false]
        else [])
    ++ [PagSiguiente (pg_page data =? pg_total_pages data) (pg_page data + 1);
        PagInfo (pg_page data) (pg_total_pages data) (pg_total data)].


(** The numbered buttons, in document order, each with its [active] mark. *)
Definition numerados (l : list ElementoPag) : list (Z * bool) :=
  omap (λ e, match e with
             | PagNumero pagina active => Some (pagina, active)
             | _ => None
             end) l.

End App.

(** The earlier revision of the application script, where it differs: the
    list is always reloaded through the patient search. *)
Module AppV1.

Definition confirmarTurno : M unit := App.confirmarTurno.

Definition confirmarTurnoById (turnoId : Z) : M unit :=
  w ← get_world;
  if negb (responde_confirm w "¿Confirmar este turno?") then mret tt
  else
    finally
      (try_catch
         (showLoading;;
          _ ← request (Api.confirmarTurno turnoId);
          showToast "Turno confirmado" "success";;
          App.buscarTurnosPaciente)
         (λ e, showToast ("Error: " +:+ e) "error"))
      hideLoading.

Definition cancelarTurnoById (turnoId : Z) : M unit :=
  w ← get_world;
  if negb (responde_confirm w "¿Está seguro de cancelar este turno?") then mret tt
  else
    finally
      (try_catch
         (showLoading;;
          _ ← request (Api.cancelarTurno turnoId);
          showToast "Turno cancelado" "success";;
          App.buscarTurnosPaciente)
         (λ e, showToast ("Error: " +:+ e) "error"))
      hideLoading.

(** *** Step 4 of the earlier revision: the slots as a list of cards *)

(** The comparison [Object.keys(calendario).sort()] sorts by: the keys as
    strings. *)
Definition cmp_cadenas (a b : string) : Z :=
  match String.compare a b with
  | Lt => -1
  | Eq => 0
  | Gt => 1
  end.

(** One [div.fecha-card]: the date of its header, the count of its badge
    and one button for each slot; a click on a button stores the slot of the
    button in [appState.horarioSeleccionado]. *)
Record FechaCard := mkFechaCard {
  fc_fecha : string;
  fc_cantidad : nat;
  fc_botones : list string
}.

Inductive VistaCalendario :=
| SinHorariosDisponibles
| Tarjetas (cards : list FechaCard).

(** What [cargarHorariosDisponibles] paints for the calendar received, an
    object that maps each date to the array of its slots. *)
Definition renderizar_calendario (calendario : gmap string (list string))
    : VistaCalendario :=
  let claves := (map_to_list calendario).*1 in
  if (length claves =? 0)%nat then SinHorariosDisponibles
  else
    let fechas := Orden.ordenar cmp_cadenas claves in
    Tarjetas
      (map (λ fecha,
              let horarios := default [] (calendario !! fecha) in
              mkFechaCard fecha (length horarios) horarios)
           fechas).

End AppV1.

(* ===================================================================== *)
(** ** The schedule and blocks module *)
(* ===================================================================== *)

Module Horarios.

Definition set_disponibilidades (l : list Disponibilidad) (h : HorariosState)
    : HorariosState :=
  mkHorariosState (hs_medicoSeleccionado h) l (bloqueos h) (modoEdicion h) (itemEditando h).

Definition set_bloqueos (l : list Bloqueo) (h : HorariosState) : HorariosState :=
  mkHorariosState (hs_medicoSeleccionado h) (disponibilidades h) l (modoEdicion h)
    (itemEditando h).

Definition set_edicion (modo : bool) (item : option Z) (h : HorariosState)
    : HorariosState :=
  mkHorariosState (hs_medicoSeleccionado h) (disponibilidades h) (bloqueos h) modo item.

Definition cargarDatosMedico : M unit :=
  w ← get_world;
  match hs_medicoSeleccionado (horariosState w) with
  | None => mret tt
  | Some medico =>
      if negb (JS.truthy_num (Some medico)) then mret tt
      else
        finally
          (try_catch
             (showLoading;;
              ds ← request_all
                     [Api.getDisponibilidades (Some medico); Api.getBloqueos (Some medico)];
              match ds with
              | [Api.DDisponibilidades disponibilidades; Api.DBloqueos bloqueos] =>
                  modify (set_horariosState (set_disponibilidades disponibilidades));;
                  modify (set_horariosState (set_bloqueos bloqueos))
              | _ => throw "TypeError"
              end)
             (λ _, showToast "Error al cargar los horarios del médico" "error"))
          hideLoading
  end.

Definition cancelarFormularioDisponibilidad : M unit :=
  modify (set_horariosState (set_edicion false None)).

Definition cancelarFormularioBloqueo : M unit :=
  modify (set_horariosState (set_edicion false None)).

(** Submit handler of the availability form; [formData] is the object the
    handler builds from the four inputs. *)
Definition guardarDisponibilidad (formData : DisponibilidadData) : M unit :=
  if JS.str_ge (hora_desde formData) (hora_hasta formData)
  then showToast "La hora de fin debe ser posterior a la hora de inicio" "error"
  else
    finally
      (try_catch
         (showLoading;;
          w ← get_world;
          let h := horariosState w in
          (if modoEdicion h
           then
             _ ← request (Api.updateDisponibilidad (hs_medicoSeleccionado h)
                            (itemEditando h) formData);
             showToast "Horario actualizado correctamente" "success"
           else
             _ ← request (Api.createDisponibilidad (hs_medicoSeleccionado h) formData);
             showToast "Horario agregado correctamente" "success");;
          cargarDatosMedico;;
          cancelarFormularioDisponibilidad)
         (λ _, showToast "Error al guardar el horario" "error"))
      hideLoading.

(** Submit handler of the block form. *)
Definition guardarBloqueo (formData : BloqueoData) : M unit :=
  w0 ← get_world;
  if JS.num_ge (Date_parse (nav w0) (inicio formData)) (Date_parse (nav w0) (fin formData))
  then showToast "La fecha de fin debe ser posterior a la fecha de inicio" "error"
  else
    finally
      (try_catch
         (showLoading;;
          w ← get_world;
          let h := horariosState w in
          (if modoEdicion h
           then
             _ ← request (Api.updateBloqueo (hs_medicoSeleccionado h)
                            (itemEditando h) formData);
             showToast "Bloqueo actualizado correctamente" "success"
           else
             _ ← request (Api.createBloqueo (hs_medicoSeleccionado h) formData);
             showToast "Bloqueo agregado correctamente" "success");;
          cargarDatosMedico;;
          cancelarFormularioBloqueo)
         (λ e,
            showToast
              ("Error al generar el bloqueo: " +:+ JS.or_str (Some e) "Error desconocido")
              "error"))
      hideLoading.

Definition DIAS_SEMANA : list string :=
  ["Domingo"; "Lunes"; "Martes"; "Miércoles"; "Jueves"; "Viernes"; "Sábado"].

(** [horariosState.disponibilidades.find(d => d.id === id)]. *)
Definition buscar_disponibilidad (id : Z) (h : HorariosState) : option Disponibilidad :=
  List.find (λ d, disp_id d =? id) (disponibilidades h).

(** The edit button of a row: the form is put in edit mode for that row.
    The copy of the row's values into the form fields is not modelled. *)
Definition editarDisponibilidad (id : Z) : M unit :=
  w ← get_world;
  match buscar_disponibilidad id (horariosState w) with
  | None => mret tt
  | Some _ => modify (set_horariosState (set_edicion true (Some id)))
  end.

(** The question [eliminarDisponibilidad] asks before deleting. *)
Definition pregunta_eliminar (disponibilidad : Disponibilidad) : string :=
  let dia :=
    default "undefined"
      (dia_semana (disp_data disponibilidad) ≫= Calendario.indice DIAS_SEMANA) in
  "¿Está seguro de eliminar el horario del " +:+ dia +:+ " de "
    +:+ hora_desde (disp_data disponibilidad) +:+ " a "
    +:+ hora_hasta (disp_data disponibilidad) +:+ "?".

Definition eliminarDisponibilidad (id : Z) : M unit :=
  w ← get_world;
  match buscar_disponibilidad id (horariosState w) with
  | None => mret tt
  | Some disponibilidad =>
      if negb (responde_confirm w (pregunta_eliminar disponibilidad)) then mret tt
      else
        finally
          (try_catch
             (showLoading;;
              w' ← get_world;
              _ ← request (Api.deleteDisponibilidad
                             (hs_medicoSeleccionado (horariosState w')) id);
              showToast "Horario eliminado correctamente" "success";;
              cargarDatosMedico)
             (λ _, showToast "Error al eliminar el horario" "error"))
          hideLoading
  end.

(** *** The weekly grid of availability rows *)

(** One [div.dia-horario]: the day, its ["activo"]/["inactivo"] class, its
    name and one item for each row listed under it; an item shows the
    times and duration of the row and carries its edit and delete
    buttons. *)
Record DiaHorario := mkDiaHorario {
  dh_dia : Z;
  dh_clase : string;
  dh_nombre : string;
  dh_items : list Disponibilidad
}.

Inductive VistaDisponibilidades :=
| SinHorarios
| HorariosSemanales (dias : list DiaHorario).

(** The object [porDia]: the rows pushed under the key of their
    [dia_semana]. *)
Definition agrupar_por_dia (l : list Disponibilidad)
    : gmap (option Z) (list Disponibilidad) :=
  foldl (λ porDia disp,
           let k := dia_semana (disp_data disp) in
           <[k := default [] (porDia !! k) ++ [disp]]> porDia)
        ∅ l.

Definition renderDisponibilidades (h : HorariosState) : VistaDisponibilidades :=
  if (length (disponibilidades h) =? 0)%nat then SinHorarios
  else
    let porDia := agrupar_por_dia (disponibilidades h) in
    HorariosSemanales
      (map (λ dia,
              let disponibilidades := default [] (porDia !! Some dia) in
              let claseActivo :=
                if (0 <? length disponibilidades)%nat then "activo" else "inactivo" in
              mkDiaHorario dia claseActivo
                (default "undefined" (Calendario.indice DIAS_SEMANA dia))
                disponibilidades)
           (seqZ 0 7)).

(** *** The list of blocks *)

(** One [div.bloqueo-item]; [bi_acciones] tells whether it carries the
    edit and delete buttons. *)
Record BloqueoItem := mkBloqueoItem {
  bi_id : Z;
  bi_estadoClase : string;
  bi_estadoTexto : string;
  bi_acciones : bool
}.

Inductive VistaBloqueos :=
| SinBloqueos
| ListaBloqueos (items : list BloqueoItem).

(** Comparator of the sort in [renderBloqueos], earliest start first. *)
Definition por_inicio (nav : Navegador) (a b : Bloqueo) : Z :=
  match Date_parse nav (bloqueo_inicio a), Date_parse nav (bloqueo_inicio b) with
  | Some ta, Some tb => ta - tb
  | _, _ => 0
  end.

(** Body of the [forEach]; [ahora] is the time value of the [new Date()]
    taken for this block. *)
Definition item_bloqueo (nav : Navegador) (ahora : Z) (bloqueo : Bloqueo) : BloqueoItem :=
  let inicio := Date_parse nav (bloqueo_inicio bloqueo) in
  let fin := Date_parse nav (bloqueo_fin bloqueo) in
  let esActivo := JS.num_le inicio (Some ahora) && JS.num_ge fin (Some ahora) in
  let esFuturo := JS.num_gt inicio (Some ahora) in
  let '(estadoClase, estadoTexto) :=
    if esActivo then ("activo", "En curso")
    else if esFuturo then ("futuro", "Programado")
    else ("pasado", "Finalizado") in
  mkBloqueoItem (bloqueo_id bloqueo) estadoClase estadoTexto (esFuturo || esActivo).

(** [reloj k] is the clock read for the [k]-th block of the sorted list. *)
Definition renderBloqueos (nav : Navegador) (reloj : nat → Z) (h : HorariosState)
    : VistaBloqueos :=
  if (length (bloqueos h) =? 0)%nat then SinBloqueos
  else
    let bloqueosOrdenados := Orden.ordenar (por_inicio nav) (bloqueos h) in
    ListaBloqueos (imap (λ k bloqueo, item_bloqueo nav (reloj k) bloqueo) bloqueosOrdenados).

End Horarios.

(* ===================================================================== *)
(** ** The booking wizard as an event-driven machine *)
(* ===================================================================== *)

Module Wizard.

(** [appState] as the script initialises it. *)
Definition appState_inicial : AppState := mkAppState None None None None 1.

(** What the user can do on the booking page. *)
Inductive Evento :=
| EvSiguiente (step : Z)            (* a button calling nextStep(step) *)
| EvAnterior (step : Z)             (* a button calling prevStep(step) *)
| EvPaciente (p : Paciente)
| EvEspecialidad (e : Especialidad)
| EvMedico (m : Medico)
| EvHorario (h : string)
| EvReiniciar.                      (* navigateTo('turnos') *)

Definition manejar (ev : Evento) : M unit :=
  match ev with
  | EvSiguiente step => App.nextStep step
  | EvAnterior step => App.prevStep step
  | EvPaciente p => App.seleccionarPaciente p
  | EvEspecialidad e => App.seleccionarEspecialidad e
  | EvMedico m => App.seleccionarMedico m
  | EvHorario h => App.seleccionarHorario h
  | EvReiniciar => App.resetReservaTurno
  end.

(** An uncaught exception ends the handler; what it had written stays. *)
Definition despachar (ev : Evento) (w : World) : World := run (manejar ev) w.

Fixpoint ejecutar (evs : list Evento) (w : World) : World :=
  match evs with
  | [] => w
  | ev :: resto => ejecutar resto (despachar ev w)
  end.

(** The event moves through the steps one at a time: "next" targets the
    step after the current one, "previous" never a later step. *)
Definition guiado (ev : Evento) (w : World) : bool :=
  match ev with
  | EvSiguiente step => step =? currentStep (appState w) + 1
  | EvAnterior step => step <=? currentStep (appState w)
  | _ => true
  end.

Fixpoint guiada (evs : list Evento) (w : World) : bool :=
  match evs with
  | [] => true
  | ev :: resto => guiado ev w && guiada resto (despachar ev w)
  end.

(** What [validateStep] has checked when it answers [true] for the step. *)
Definition validado (step : Z) (a : AppState) : Prop :=
  (step = 1 → pacienteSeleccionado a ≠ None)
  ∧ (step = 2 → especialidadSeleccionada a ≠ None)
  ∧ (step = 3 → medicoSeleccionado a ≠ None)
  ∧ (step = 4 → horarioSeleccionado a ≠ None).

(** The selections of all the steps before the current one are present. *)
Definition pasos_cumplidos (a : AppState) : Prop :=
  (2 ≤ currentStep a → pacienteSeleccionado a ≠ None)
  ∧ (3 ≤ currentStep a → especialidadSeleccionada a ≠ None)
  ∧ (4 ≤ currentStep a → medicoSeleccionado a ≠ None)
  ∧ (5 ≤ currentStep a → horarioSeleccionado a ≠ None).

(** Every selection the confirmation step reads is present. *)
Definition seleccion_completa (a : AppState) : Prop :=
  pacienteSeleccionado a ≠ None
  ∧ especialidadSeleccionada a ≠ None
  ∧ medicoSeleccionado a ≠ None
  ∧ horarioSeleccionado a ≠ None.

End Wizard.

(* ===================================================================== *)
(** ** The booking engine of the specification *)
(* ===================================================================== *)

Module Engine.

(** Modelled from the spec: the appointment status enumeration (section 3);
    the back end that stores appointments is not among the sources. *)
Inductive Status := PENDING | CONFIRMED | CANCELLED | COMPLETED | NO_SHOW.

(** Modelled from the spec: the error taxonomy of section 7. *)
Inductive Error :=
| ValidationError
| OverlappingAvailability
| SlotUnavailable
| InvalidTransition
| NotFound.

(** Modelled from the spec: the Appointment record of section 3. *)
Record Appointment := mkAppointment {
  physician : Z;
  patient : Z;
  specialty : Z;
  instant : Z;
  duration : Z;
  status : Status;
  reason : option string;
  created : Z
}.

(** Modelled from the spec: "Terminal states: CANCELLED, COMPLETED,
    NO_SHOW". *)
Definition terminal (s : Status) : bool :=
  match s with
  | CANCELLED | COMPLETED | NO_SHOW => true
  | PENDING | CONFIRMED => false
  end.

Definition with_status (s : Status) (a : Appointment) : Appointment :=
  mkAppointment (physician a) (patient a) (specialty a) (instant a) (duration a) s
    (reason a) (created a).

(** Modelled from the spec: [confirm(appointmentId)] "fails with
    InvalidTransition unless current status is PENDING.  Sets CONFIRMED";
    an unknown id is [NotFound]. *)
Definition confirm (id : Z) (store : gmap Z Appointment)
    : Error + Appointment * gmap Z Appointment :=
  match store !! id with
  | None => inl NotFound
  | Some a =>
      match status a with
      | PENDING =>
          let a' := with_status CONFIRMED a in
          inr (a', <[id := a']> store)
      | _ => inl InvalidTransition
      end
  end.

(** Modelled from the spec: [cancel(appointmentId)] "fails with
    InvalidTransition if status is already CANCELLED, COMPLETED, or NO_SHOW.
    Otherwise sets CANCELLED; does not delete the row". *)
Definition cancel (id : Z) (store : gmap Z Appointment)
    : Error + Appointment * gmap Z Appointment :=
  match store !! id with
  | None => inl NotFound
  | Some a =>
      if terminal (status a) then inl InvalidTransition
      else
        let a' := with_status CANCELLED a in
        inr (a', <[id := a']> store)
  end.

End Engine.

(** The status codes the client compares against ([getClassForEstado] of the
    reports script lists the five): pending, confirmed, attended, cancelled
    and absent. *)
Definition codigo_de (s : Engine.Status) : string :=
  match s with
  | Engine.PENDING => "PEND"
  | Engine.CONFIRMED => "CONF"
  | Engine.COMPLETED => "ASIS"
  | Engine.CANCELLED => "CANC"
  | Engine.NO_SHOW => "INAS"
  end.

(* ===================================================================== *)
(** ** A concrete page: a browser whose local zone is UTC *)
(* ===================================================================== *)

Module Ejemplo.

Definition digito (c : ascii) : option Z :=
  let n := nat_of_ascii c in
  if Nat.leb 48 n && Nat.leb n 57 then Some (Z.of_nat n - 48) else None.

Fixpoint leer_digitos (s : string) (acc : Z) : option Z :=
  match s with
  | EmptyString => Some acc
  | String c r =>
      match digito c with
      | Some d => leer_digitos r (acc * 10 + d)
      | None => None
      end
  end.

Definition numero (s : string) : option Z :=
  match s with
  | EmptyString => None
  | _ => leer_digitos s 0
  end.

(** Days since 1 January 1970 of a date of the proleptic Gregorian
    calendar, and back. *)
Definition days_from_civil (y m d : Z) : Z :=
  let y' := if m <=? 2 then y - 1 else y in
  let era := y' / 400 in
  let yoe := y' - era * 400 in
  let doy := (153 * (if 2 <? m then m - 3 else m + 9) + 2) / 5 + d - 1 in
  let doe := yoe * 365 + yoe / 4 - yoe / 100 + doy in
  era * 146097 + doe - 719468.

Definition civil_from_days (z : Z) : Z * Z * Z :=
  let z' := z + 719468 in
  let era := z' / 146097 in
  let doe := z' - era * 146097 in
  let yoe := (doe - doe / 1460 + doe / 36524 - doe / 146096) / 365 in
  let doy := doe - (365 * yoe + yoe / 4 - yoe / 100) in
  let mp := (5 * doy + 2) / 153 in
  let d := doy - (153 * mp + 2) / 5 + 1 in
  let m := if mp <? 10 then mp + 3 else mp - 9 in
  let y := yoe + era * 400 in
  (if m <=? 2 then y + 1 else y, m, d).

Definition pad (n : nat) (z : Z) : string := JS.padStart n "0" (JS.num_to_string z).

Definition isoFecha_utc (dia : Z) : string :=
  let '(y, m, d) := civil_from_days dia in
  pad 4 y +:+ "-" +:+ pad 2 m +:+ "-" +:+ pad 2 d.

(** The day number of a string that starts with [YYYY-MM-DD]. *)
Definition dia_de (s : string) : option Z :=
  match numero (JS.substring 0 4 s), numero (JS.substring 5 7 s),
        numero (JS.substring 8 10 s) with
  | Some y, Some m, Some d =>
      if String.eqb (JS.substring 4 5 s) "-" && String.eqb (JS.substring 7 8 s) "-"
         && (1 <=? m) && (m <=? 12) && (1 <=? d) && (d <=? 31)
      then Some (days_from_civil y m d) else None
  | _, _, _ => None
  end.

Definition fechaUTC_utc (s : string) : option string :=
  match dia_de s with
  | Some d => Some (isoFecha_utc d)
  | None => None
  end.

Definition horaLocal_utc (s : string) : Z :=
  default 0 (numero (JS.substring 11 13 s)).

Definition Date_parse_utc (s : string) : option Z :=
  match dia_de s with
  | Some d =>
      Some (d * 86400000 + horaLocal_utc s * 3600000
            + default 0 (numero (JS.substring 14 16 s)) * 60000)
  | None => None
  end.

Definition navegador_utc : Navegador :=
  mkNavegador isoFecha_utc fechaUTC_utc horaLocal_utc Date_parse_utc (default "").

(** Monday 24 November 2025. *)
Definition lunes : Z := days_from_civil 2025 11 24.

Definition turno_reservado : Turno :=
  mkTurno 41 "2025-11-24T09:00:00" 30 (mkEstado "PEND" "Pendiente") None (Some "Ana").

(** Tuesday 25 November 2025: blocked, although the reply still lists a
    slot for it. *)
Definition martes_bloqueado : DiaInfo :=
  mkDiaInfo true (Some "Vacaciones") (Some ["2025-11-25T08:00:00"]).

(** Monday has three free slots and one booked appointment; Tuesday is
    blocked. *)
Definition calendario_ej : CalendarioState :=
  mkCalendarioState 0
    (<["2025-11-24" :=
         mkDiaInfo false None
           (Some ["2025-11-24T08:00:00"; "2025-11-24T08:30:00"; "2025-11-24T10:00:00"])]>
       (<["2025-11-25" := martes_bloqueado]> ∅))
    [turno_reservado].

(** The first draw picks "amarillo", the later ones "verde". *)
Definition azar_ej (k : nat) : Q :=
  match k with
  | O => 3 # 10
  | S _ => 6 # 10
  end.

Definition servidor_ej (enviadas : list Api.Request) (r : Api.Request) : Api.Response :=
  if String.prefix "/turnos/calendario/" (Api.endpoint r)
  then Api.RespOk (Api.DCalendario (horariosTodos calendario_ej))
  else if String.prefix "/turnos/medico/" (Api.endpoint r)
  then Api.RespOk (Api.DTurnos [turno_reservado])
  else if String.prefix "/turnos/mis-turnos/listar" (Api.endpoint r)
  then Api.RespOk (Api.DPagina [turno_reservado] 1)
  else Api.RespOk Api.DNada.

Definition bloqueo_existente : Bloqueo := mkBloqueo 9 "2025-12-01" "2025-12-10".

Definition mundo_ej : World :=
  mkWorld Wizard.appState_inicial calendario_ej
    (mkMisTurnosState 1 15 0 None)
    (mkHorariosState (Some 3) [] [bloqueo_existente] false None)
    (<["turno-motivo" := "Control"]> (<["buscar-turnos-dni" := "30111222"]> ∅))
    [] [] [] [] false 0
    servidor_ej (λ _, true) navegador_utc lunes azar_ej.

Definition paciente_ej : Paciente := mkPaciente 5 "Ana" "Paz" "30111222".
Definition especialidad_ej : Especialidad := mkEspecialidad 2 "Cardiología".
Definition medico_ej : Medico := mkMedico 3 "Luis" "Sosa" "M-100".

(** An attended appointment, as the back end lists it. *)
Definition turno_asistido : Turno :=
  mkTurno 7 "2025-11-20T09:00:00" 30 (mkEstado "ASIS" "Asistido") None (Some "Ana").

Definition cita_asistida : Engine.Appointment :=
  Engine.mkAppointment 3 5 2 1763629200000 30 Engine.COMPLETED None 1763000000000.

Definition cita_pendiente : Engine.Appointment :=
  Engine.mkAppointment 3 5 2 1763974800000 30 Engine.PENDING None 1763000000000.

(** A store with the pending appointment 41 and the attended one 7. *)
Definition almacen_ej : gmap Z Engine.Appointment :=
  <[41 := cita_pendiente]> (<[7 := cita_asistida]> ∅).

Definition horario_valido : DisponibilidadData :=
  mkDisponibilidadData (Some 1) "09:00" "11:00" (Some 30).

Definition horario_invertido : DisponibilidadData :=
  mkDisponibilidadData (Some 1) "11:00" "09:00" (Some 30).

Definition horario_duracion_cero : DisponibilidadData :=
  mkDisponibilidadData (Some 1) "09:00" "11:00" (Some 0).

Definition horario_dia_desconocido : DisponibilidadData :=
  mkDisponibilidadData (Some 9) "09:00" "11:00" (Some 30).

(** A block inside the one the physician already has. *)
Definition bloqueo_solapado : BloqueoData :=
  mkBloqueoData "2025-12-05" "2025-12-08" "Congreso".

Definition bloqueo_invertido : BloqueoData :=
  mkBloqueoData "2025-12-08" "2025-12-05" "Congreso".

(** The wizard walked in order, one step at a time. *)
Definition recorrido_guiado : list Wizard.Evento :=
  [Wizard.EvPaciente paciente_ej; Wizard.EvSiguiente 2;
   Wizard.EvEspecialidad especialidad_ej; Wizard.EvSiguiente 3;
   Wizard.EvMedico medico_ej; Wizard.EvSiguiente 4;
   Wizard.EvHorario "2025-11-24T08:00:00"; Wizard.EvSiguiente 5].

(** [nextStep(5)] called on the first step, with only a patient chosen. *)
Definition salto_directo : list Wizard.Evento :=
  [Wizard.EvPaciente paciente_ej; Wizard.EvSiguiente 5].

(** A page of the paged list: page 7 of 20, 300 appointments in all. *)
Definition pagina_ej : App.PaginaInfo := App.mkPaginaInfo 7 20 300.

(** Two appointments as the back end may list them, the older one first. *)
Definition turnos_desordenados : list Turno := [turno_asistido; turno_reservado].



(** A server whose listing of a physician's appointments fails. *)
Definition servidor_sin_turnos (enviadas : list Api.Request) (r : Api.Request)
    : Api.Response :=
  if String.prefix "/turnos/medico/" (Api.endpoint r)
  then Api.RespError "Internal Server Error"
  else servidor_ej enviadas r.

(** The wizard about to enter step 4, the physician chosen. *)
Definition mundo_paso4 : World :=
  mkWorld (mkAppState (Some paciente_ej) (Some especialidad_ej) (Some medico_ej) None 3)
    (mkCalendarioState 0 ∅ [])
    (mkMisTurnosState 1 15 0 None)
    (mkHorariosState None [] [] false None)
    ∅ [] [] [] [] false 0
    servidor_sin_turnos (λ _, true) navegador_utc lunes azar_ej.

(** A server that refuses every request. *)
Definition servidor_caido (enviadas : list Api.Request) (r : Api.Request) : Api.Response :=
  Api.RespError "Service Unavailable".

Definition mundo_sin_servidor : World :=
  mkWorld (mkAppState (Some paciente_ej) (Some especialidad_ej) (Some medico_ej) None 3)
    calendario_ej
    (mkMisTurnosState 1 15 0 None)
    (mkHorariosState (Some 3) [] [] true (Some 12))
    ∅ [] [] [] [] false 0
    servidor_caido (λ _, true) navegador_utc lunes azar_ej.

(** Two availability rows of physician 3: Monday 09:00 to 11:00, and one
    whose day of the week is 9. *)
Definition disponibilidad_ej : Disponibilidad := mkDisponibilidad 12 horario_valido.

Definition disponibilidad_rara : Disponibilidad :=
  mkDisponibilidad 13 horario_dia_desconocido.

(** A block that ended in October. *)
Definition bloqueo_pasado : Bloqueo := mkBloqueo 8 "2025-10-01" "2025-10-05".

Definition horarios_ej : HorariosState :=
  mkHorariosState (Some 3) [disponibilidad_ej; disponibilidad_rara]
    [bloqueo_existente; bloqueo_pasado] false None.

(** The schedule page of physician 3 with its rows and blocks loaded. *)
Definition mundo_horarios : World := set_horariosState (λ _, horarios_ej) mundo_ej.

(** Noon of Monday 24 November 2025, as a time value. *)
Definition mediodia : Z := lunes * 86400000 + 43200000.

(** A calendar in the shape the earlier revision reads: two dates, the
    later one first, with two slots in the same hour. *)
Definition calendario_v1 : gmap string (list string) :=
  <["2025-11-25" := ["2025-11-25T10:00:00"]]>
    (<["2025-11-24" := ["2025-11-24T08:00:00"; "2025-11-24T08:30:00"]]> ∅).

End Ejemplo.

(* ===================================================================== *)
(** ** Reasoning about handlers *)
(* ===================================================================== *)

(** [estable R m]: whatever [m] does, the world it leaves is related by [R]
    to the world it found.  With [R] a preorder the property passes through
    sequencing, [try]/[catch] and [finally]. *)
Definition estable (R : relation World) {A} (m : M A) : Prop :=
  ∀ w, R w (snd (m w)).

(** The projection [proj] of the world is left as it was. *)
Definition conserva {X} (proj : World → X) : relation World :=
  λ w w', proj w' = proj w.

(** Requests are only added, and each added request satisfies [P]. *)
Definition emite (P : Api.Request → Prop) : relation World :=
  λ w w', ∃ l, peticiones w' = peticiones w ++ l ∧ Forall P l.

(** The request does not create an appointment, or creates it with a
    duration of 30 minutes. *)
Definition duracion_30 (r : Api.Request) : Prop :=
  ∀ d, Api.body r = Some (Api.BodyTurno d) → td_duracion_minutos d = 30.

(** The request only reads. *)
Definition es_lectura (r : Api.Request) : Prop := Api.metodo r = Api.GET.

Section Estable.

Context (R : relation World) `{!PreOrder R}.

Lemma estable_ret {A} (a : A) : estable R (mret a).
Proof. intros w. simpl. reflexivity. Qed.

Lemma estable_throw {A} (e : string) : estable R (@throw A e).
Proof. intros w. simpl. reflexivity. Qed.

Lemma estable_get_world : estable R get_world.
Proof. intros w. simpl. reflexivity. Qed.

Lemma estable_deref {A} (o : option A) : estable R (deref o).
Proof. destruct o; [apply estable_ret | apply estable_throw]. Qed.

Lemma estable_dom_value (id : string) : estable R (dom_value id).
Proof. intros w. unfold dom_value. destruct (documento w !! id); simpl; reflexivity. Qed.

Lemma estable_modify (f : World → World) :
  (∀ w, R w (f w)) → estable R (modify f).
Proof. intros H w. apply H. Qed.

Lemma estable_bind {A B} (m : M A) (f : A → M B) :
  estable R m → (∀ a, estable R (f a)) → estable R (m ≫= f).
Proof.
  intros Hm Hf w. unfold mbind, M_bind.
  specialize (Hm w). destruct (m w) as [[a | e] w']; simpl in *.
  - etransitivity; [exact Hm | apply Hf].
  - exact Hm.
Qed.

Lemma estable_try_catch {A} (body : M A) (handler : string → M A) :
  estable R body → (∀ e, estable R (handler e)) → estable R (try_catch body handler).
Proof.
  intros Hb Hh w. unfold try_catch.
  specialize (Hb w). destruct (body w) as [[a | e] w']; simpl in *.
  - exact Hb.
  - etransitivity; [exact Hb | apply Hh].
Qed.

Lemma estable_finally {A} (body : M A) (fin : M unit) :
  estable R body → estable R fin → estable R (finally body fin).
Proof.
  intros Hb Hf w. unfold finally.
  specialize (Hb w). destruct (body w) as [r w']. simpl in Hb.
  specialize (Hf w'). destruct (fin w') as [[u | e] w'']; simpl in *;
    (etransitivity; [exact Hb | exact Hf]).
Qed.

Lemma estable_no_esperado (m : M unit) : estable R m → estable R (no_esperado m).
Proof. intros H. apply estable_try_catch; [exact H | intros e; apply estable_ret]. Qed.

Lemma estable_request_all (rs : list Api.Request) :
  (∀ r, r ∈ rs → estable R (request r)) → estable R (request_all rs).
Proof.
  induction rs as [| r rest IH]; intros H.
  - apply estable_ret.
  - intros w. simpl.
    assert (Hr : estable R (request r)) by (apply H; left).
    assert (Hrest : estable R (request_all rest)) by (apply IH; intros r' Hr'; apply H; right; exact Hr').
    specialize (Hr w). destruct (request r w) as [[d | e] w']; simpl in *.
    + specialize (Hrest w'). destruct (request_all rest w') as [[ds | e] w'']; simpl in *;
        (etransitivity; [exact Hr | exact Hrest]).
    + etransitivity; [exact Hr | apply Hrest].
Qed.

End Estable.

#[export] Instance conserva_preorder {X} (proj : World → X) : PreOrder (conserva proj).
Proof.
  split.
  - intros w. reflexivity.
  - intros w1 w2 w3 H12 H23. unfold conserva in *. congruence.
Qed.

#[export] Instance emite_preorder (P : Api.Request → Prop) : PreOrder (emite P).
Proof.
  split.
  - intros w. exists []. split; [by rewrite app_nil_r | constructor].
  - intros w1 w2 w3 (l1 & H1 & F1) (l2 & H2 & F2). exists (l1 ++ l2). split.
    + rewrite H2, H1. by rewrite app_assoc.
    + apply Forall_app. by split.
Qed.

(** One step of a proof that a handler is [estable]: follow the structure
    of the handler. *)
Ltac estable_paso :=
  lazymatch goal with
  | |- PreOrder _ => apply _
  | |- estable _ (mret _) => apply estable_ret
  | |- estable _ (throw _) => apply estable_throw
  | |- estable _ get_world => apply estable_get_world
  | |- estable _ (deref _) => apply estable_deref
  | |- estable _ (dom_value _) => apply estable_dom_value
  | |- estable _ (mbind _ _) => apply estable_bind; [apply _ | | intros ?]
  | |- estable _ (try_catch _ _) => apply estable_try_catch; [apply _ | | intros ?]
  | |- estable _ (finally _ _) => apply estable_finally; [apply _ | |]
  | |- estable _ (no_esperado _) => apply estable_no_esperado
  | |- estable _ (if ?b then _ else _) => destruct b
  | |- estable _ (match ?x with _ => _ end) => destruct x
  end.

(** A primitive that does not write the projection at hand. *)
Ltac no_toca :=
  intros ?w;
  unfold conserva, showLoading, hideLoading, showToast, dom_set, modify, request,
    App.updateStepper, App.renderizarCalendarioSemanal, App.renderizarTablaMisTurnos;
  simpl; repeat case_match; reflexivity.

Create HintDb estable.

Ltac conserva_tac := repeat (first [estable_paso | solve [eauto with estable] | no_toca]).

(* ===================================================================== *)
(** ** The booking wizard *)
(* ===================================================================== *)

Lemma loadEspecialidades_appState : estable (conserva appState) App.loadEspecialidades.
Proof. unfold App.loadEspecialidades. conserva_tac. Qed.

Lemma loadMedicosPorEspecialidad_appState :
  estable (conserva appState) App.loadMedicosPorEspecialidad.
Proof. unfold App.loadMedicosPorEspecialidad. conserva_tac. Qed.

Lemma cargarHorariosDisponibles_appState :
  estable (conserva appState) App.cargarHorariosDisponibles.
Proof. unfold App.cargarHorariosDisponibles, como_calendario. conserva_tac. Qed.

Lemma mostrarResumenTurno_appState : estable (conserva appState) App.mostrarResumenTurno.
Proof. unfold App.mostrarResumenTurno. conserva_tac. Qed.

(** [validateStep] only reads the selections (and may show a toast); a
    [true] answer means the selection of that step is there. *)
Lemma validateStep_spec (step : Z) (w : World) :
  ∃ b w', App.validateStep step w = (Val b, w')
          ∧ appState w' = appState w
          ∧ (b = true → Wizard.validado step (appState w)).
Proof.
  unfold App.validateStep, Wizard.validado.
  destruct step as [| p | p]; [| do 3 (try destruct p as [p | p |]) |];
    cbv [mbind M_bind mret M_ret get_world showToast modify]; cbn;
    repeat case_match; cbn;
    (eexists _, _; split; [reflexivity |]; split; [reflexivity |]);
    intros Hb; repeat split; intros Hs; try discriminate; congruence.
Qed.

#[local] Hint Resolve loadEspecialidades_appState loadMedicosPorEspecialidad_appState
  cargarHorariosDisponibles_appState mostrarResumenTurno_appState : estable.

Lemma cargar_paso_appState (step : Z) : estable (conserva appState) (App.cargar_paso step).
Proof. unfold App.cargar_paso. conserva_tac. Qed.

(** [nextStep] either leaves [appState] alone (validation failed) or, the
    current step having been validated, only moves [currentStep]. *)
Lemma nextStep_appState (step : Z) (w : World) :
  appState (run (App.nextStep step) w) = appState w
  ∨ (Wizard.validado (currentStep (appState w)) (appState w)
     ∧ appState (run (App.nextStep step) w) = App.set_currentStep step (appState w)).
Proof.
  unfold run, App.nextStep, mbind, M_bind, get_world.
  destruct (validateStep_spec (currentStep (appState w)) w) as (b & w' & Hv & Ha & Hb).
  rewrite Hv. destruct b; cbn.
  - right. split; [auto |].
    pose proof (cargar_paso_appState step
                  (set_appState (App.set_currentStep step) w')) as H.
    unfold conserva in H. rewrite H. cbn. by rewrite Ha.
  - left. exact Ha.
Qed.

(** The invariant of the guided wizard survives every guided event. *)
Lemma despachar_pasos_cumplidos (ev : Wizard.Evento) (w : World) :
  Wizard.guiado ev w = true →
  Wizard.pasos_cumplidos (appState w) →
  Wizard.pasos_cumplidos (appState (Wizard.despachar ev w)).
Proof.
  intros Hg (Hp & He & Hm & Hh). unfold Wizard.despachar.
  destruct ev as [step | step | p | e | m | h |]; cbn in Hg; cbn [Wizard.manejar].
  - apply Z.eqb_eq in Hg.
    destruct (nextStep_appState step w) as [-> | [(V1 & V2 & V3 & V4) ->]];
      [by repeat split |].
    unfold Wizard.pasos_cumplidos. cbn. repeat split; intros Hs; [
      destruct (decide (currentStep (appState w) = 1)); [auto | apply Hp; lia] |
      destruct (decide (currentStep (appState w) = 2)); [auto | apply He; lia] |
      destruct (decide (currentStep (appState w) = 3)); [auto | apply Hm; lia] |
      destruct (decide (currentStep (appState w) = 4)); [auto | apply Hh; lia] ].
  - apply Z.leb_le in Hg. unfold Wizard.pasos_cumplidos. cbn.
    repeat split; intros Hs; [apply Hp | apply He | apply Hm | apply Hh]; lia.
  - unfold Wizard.pasos_cumplidos. cbn. repeat split; auto; intros; discriminate.
  - unfold Wizard.pasos_cumplidos. cbn. repeat split; auto; intros; discriminate.
  - unfold Wizard.pasos_cumplidos. cbn. repeat split; auto; intros; discriminate.
  - unfold Wizard.pasos_cumplidos. cbn. repeat split; auto; intros; discriminate.
  - change (appState (run App.resetReservaTurno w)) with Wizard.appState_inicial.
    unfold Wizard.pasos_cumplidos. cbn. repeat split; intros Hs; exfalso; lia.
Qed.

Lemma ejecutar_pasos_cumplidos (evs : list Wizard.Evento) (w : World) :
  Wizard.guiada evs w = true →
  Wizard.pasos_cumplidos (appState w) →
  Wizard.pasos_cumplidos (appState (Wizard.ejecutar evs w)).
Proof.
  revert w. induction evs as [| ev resto IH]; intros w Hg Hinv; cbn in *.
  - exact Hinv.
  - apply andb_true_iff in Hg as [Hev Hresto].
    apply IH; [exact Hresto |]. by apply despachar_pasos_cumplidos.
Qed.

(** With the four selections present the summary of step 5 is written
    without an exception. *)
Lemma mostrarResumenTurno_ok (w : World) :
  Wizard.seleccion_completa (appState w) →
  resultado App.mostrarResumenTurno w = Val tt.
Proof.
  intros (Hp & He & Hm & Hh). unfold resultado, App.mostrarResumenTurno.
  cbv [mbind M_bind get_world].
  destruct (pacienteSeleccionado (appState w)) as [pac |]; [| done].
  destruct (especialidadSeleccionada (appState w)) as [esp |]; [| done].
  destruct (medicoSeleccionado (appState w)) as [med |]; [| done].
  reflexivity.
Qed.

(** C10 (as amended).  [nextStep] changes [appState] only after
    [validateStep] accepted the current step, and then only moves
    [currentStep].  When the wizard is driven one step at a time (every
    [nextStep] call targets the step after the current one and [prevStep]
    never a later one), any run from the initial state that ends on step 5
    has the patient, specialty, physician and slot all selected, and the
    summary of step 5 is rendered without an exception. *)
Theorem wizard_guided_step5_has_all_selections :
  (∀ step w,
     appState (run (App.nextStep step) w) = appState w
     ∨ (Wizard.validado (currentStep (appState w)) (appState w)
        ∧ appState (run (App.nextStep step) w)
          = App.set_currentStep step (appState w)))
  ∧ (∀ evs w0,
       appState w0 = Wizard.appState_inicial →
       Wizard.guiada evs w0 = true →
       currentStep (appState (Wizard.ejecutar evs w0)) = 5 →
       Wizard.seleccion_completa (appState (Wizard.ejecutar evs w0))
       ∧ resultado App.mostrarResumenTurno (Wizard.ejecutar evs w0) = Val tt).
Proof.
  split; [exact nextStep_appState |].
  intros evs w0 H0 Hg H5.
  assert (Hsel : Wizard.seleccion_completa (appState (Wizard.ejecutar evs w0))).
  { destruct (ejecutar_pasos_cumplidos evs w0 Hg) as (Hp & He & Hm & Hh).
    - rewrite H0. unfold Wizard.pasos_cumplidos. cbn. repeat split; intros Hs; exfalso; lia.
    - unfold Wizard.seleccion_completa.
      repeat split; [apply Hp | apply He | apply Hm | apply Hh]; lia. }
  split; [exact Hsel | by apply mostrarResumenTurno_ok].
Qed.

(** The guided walk of the example page ends on step 5 with everything
    selected. *)
Lemma wizard_guided_step5_witness :
  Wizard.seleccion_completa
    (appState (Wizard.ejecutar Ejemplo.recorrido_guiado Ejemplo.mundo_ej))
  ∧ resultado App.mostrarResumenTurno
      (Wizard.ejecutar Ejemplo.recorrido_guiado Ejemplo.mundo_ej) = Val tt.
Proof.
  apply (proj2 wizard_guided_step5_has_all_selections
           Ejemplo.recorrido_guiado Ejemplo.mundo_ej).
  - reflexivity.
  - vm_compute. reflexivity.
  - vm_compute. reflexivity.
Defined.

(** C10 (as stated) fails: [nextStep(5)] called while on step 1 only
    validates step 1, so with just a patient chosen the wizard lands on
    step 5 without specialty, physician or slot, and the summary throws. *)
Lemma wizard_jump_reaches_step5_incomplete :
  let w := Wizard.ejecutar Ejemplo.salto_directo Ejemplo.mundo_ej in
  currentStep (appState w) = 5
  ∧ especialidadSeleccionada (appState w) = None
  ∧ medicoSeleccionado (appState w) = None
  ∧ horarioSeleccionado (appState w) = None
  ∧ ¬ Wizard.seleccion_completa (appState w)
  ∧ resultado App.mostrarResumenTurno w = Exc "TypeError".
Proof.
  vm_compute. repeat split; try reflexivity.
  intros (_ & He & _). by apply He.
Qed.

(* ===================================================================== *)
(** ** Requests sent by the handlers *)
(* ===================================================================== *)

Lemma emite_request (P : Api.Request → Prop) (r : Api.Request) :
  P r → estable (emite P) (request r).
Proof.
  intros HP w. exists [r]. unfold request.
  destruct (servidor w (peticiones w) r); simpl; (split; [reflexivity | by repeat constructor]).
Qed.

(** A primitive that sends nothing. *)
Ltac no_pide :=
  intros ?w; exists [];
  unfold showLoading, hideLoading, showToast, dom_set, modify,
    App.updateStepper, App.renderizarCalendarioSemanal, App.renderizarTablaMisTurnos,
    App.mostrarTurnosList, Horarios.cancelarFormularioDisponibilidad,
    Horarios.cancelarFormularioBloqueo, mbind, M_bind, get_world;
  simpl; repeat case_match; simpl; (split; [by rewrite app_nil_r | constructor]).

(** Follow the handler; at each request prove the property with [tac]. *)
Ltac emite_tac tac :=
  repeat (first
    [ estable_paso
    | solve [eauto with estable]
    | apply emite_request; solve [tac]
    | apply estable_request_all; [apply _ | intros ?r ?Hr; apply emite_request;
        repeat (apply elem_of_cons in Hr as [-> | Hr]); [.. | by apply elem_of_nil in Hr];
        solve [tac]]
    | no_pide ]).

Ltac es_duracion_30 :=
  intros ?d ?Hd; cbn in *; first [discriminate | congruence | (injection Hd as <-; reflexivity)].

Lemma loadHomeStats_duracion_30 : estable (emite duracion_30) App.loadHomeStats.
Proof. unfold App.loadHomeStats. emite_tac es_duracion_30. Qed.

Lemma navigateTo_home_duracion_30 : estable (emite duracion_30) App.navigateTo_home.
Proof. unfold App.navigateTo_home. emite_tac es_duracion_30. apply loadHomeStats_duracion_30. Qed.

Lemma confirmarTurno_duracion_30 : estable (emite duracion_30) App.confirmarTurno.
Proof.
  pose proof navigateTo_home_duracion_30.
  unfold App.confirmarTurno. emite_tac es_duracion_30.
Qed.

Lemma emite_snd (P : Api.Request → Prop) {A} (m : M A) (w : World) (r : Res A) (w' : World) :
  estable (emite P) m → m w = (r, w') →
  ∃ l, peticiones w' = peticiones w ++ l ∧ Forall P l.
Proof. intros H E. specialize (H w). rewrite E in H. exact H. Qed.

(** With the form field present and patient, physician and specialty
    selected, the first request [confirmarTurno] sends is the creation of
    the appointment, with the literal 30 as its duration. *)
Lemma confirmarTurno_envia (w : World) texto pac med esp :
  documento w !! "turno-motivo" = Some texto →
  pacienteSeleccionado (appState w) = Some pac →
  medicoSeleccionado (appState w) = Some med →
  especialidadSeleccionada (appState w) = Some esp →
  ∃ rest,
    peticiones (run App.confirmarTurno w)
    = peticiones w
      ++ Api.createTurno
           (mkTurnoData (pac_id pac) (med_id med) (esp_id esp)
              (horarioSeleccionado (appState w)) 30
              (if JS.truthy_str (JS.trim texto) then Some (JS.trim texto) else None))
         :: rest.
Proof.
  intros Hd Hp Hm He.
  unfold run, App.confirmarTurno, try_catch.
  unfold mbind, M_bind, dom_value, get_world. rewrite Hd, Hp, Hm, He. cbn [deref mret M_ret].
  unfold request at 1. cbn [showLoading modify set_loading peticiones servidor].
  destruct (servidor w _ _) as [d | e]; cbn [hideLoading showToast modify].
  - match goal with |- context [App.navigateTo_home ?W] =>
      destruct (App.navigateTo_home W) as [[[] | e] w4] eqn:E;
      destruct (emite_snd _ _ _ _ _ navigateTo_home_duracion_30 E) as (l & Hl & _)
    end; cbn in *; rewrite Hl; exists l; by rewrite <- app_assoc.
  - cbn. by exists [].
Qed.

(** C9.  Whatever the page state, every request that [confirmarTurno]
    sends and that creates an appointment carries [duracion_minutos = 30]
    (both revisions of the script); and when the booking can be built at all
    (motive field present, patient, physician and specialty selected) the
    creation request is sent with the selected ids and slot and the duration
    30.  No other state, the physician's availability templates included, is
    read to build it. *)
Theorem booking_duration_is_30 :
  (∀ w, ∃ l, peticiones (run App.confirmarTurno w) = peticiones w ++ l
             ∧ Forall duracion_30 l)
  ∧ (∀ w, ∃ l, peticiones (run AppV1.confirmarTurno w) = peticiones w ++ l
               ∧ Forall duracion_30 l)
  ∧ (∀ w texto pac med esp,
       documento w !! "turno-motivo" = Some texto →
       pacienteSeleccionado (appState w) = Some pac →
       medicoSeleccionado (appState w) = Some med →
       especialidadSeleccionada (appState w) = Some esp →
       ∃ rest,
         peticiones (run App.confirmarTurno w)
         = peticiones w
           ++ Api.createTurno
                (mkTurnoData (pac_id pac) (med_id med) (esp_id esp)
                   (horarioSeleccionado (appState w)) 30
                   (if JS.truthy_str (JS.trim texto) then Some (JS.trim texto) else None))
              :: rest).
Proof.
  split; [| split].
  - exact confirmarTurno_duracion_30.
  - exact confirmarTurno_duracion_30.
  - exact confirmarTurno_envia.
Qed.

(** After the guided walk of the example page, confirming sends the booking
    of patient 5 with physician 3 for 30 minutes. *)
Lemma booking_duration_witness :
  ∃ rest,
    peticiones
      (run App.confirmarTurno (Wizard.ejecutar Ejemplo.recorrido_guiado Ejemplo.mundo_ej))
    = peticiones (Wizard.ejecutar Ejemplo.recorrido_guiado Ejemplo.mundo_ej)
      ++ Api.createTurno
           (mkTurnoData 5 3 2 (Some "2025-11-24T08:00:00") 30 (Some "Control"))
         :: rest.
Proof.
  apply (proj2 (proj2 booking_duration_is_30)
           (Wizard.ejecutar Ejemplo.recorrido_guiado Ejemplo.mundo_ej)
           "Control" Ejemplo.paciente_ej Ejemplo.medico_ej Ejemplo.especialidad_ej);
    vm_compute; reflexivity.
Defined.

(* ===================================================================== *)
(** ** Saving availability rows and blocks *)
(* ===================================================================== *)

Lemma cargarDatosMedico_lectura : estable (emite es_lectura) Horarios.cargarDatosMedico.
Proof. unfold Horarios.cargarDatosMedico. emite_tac ltac:(reflexivity). Qed.

(** The reload that follows a successful save, absorbed as "some further
    requests". *)
Ltac tras_recarga :=
  match goal with
  | |- context [Horarios.cargarDatosMedico ?W] =>
      let E := fresh "E" in
      let l := fresh "l" in
      let Hl := fresh "Hl" in
      destruct (Horarios.cargarDatosMedico W) as [[[] | ?e] ?w4] eqn:E;
      destruct (emite_snd _ _ _ _ _ cargarDatosMedico_lectura E) as (l & Hl & _);
      cbn in *; rewrite Hl; exists l; by rewrite <- app_assoc
  end.

Lemma guardarDisponibilidad_rechaza (w : World) (d : DisponibilidadData) :
  JS.str_ge (hora_desde d) (hora_hasta d) = true →
  run (Horarios.guardarDisponibilidad d) w
  = run (showToast "La hora de fin debe ser posterior a la hora de inicio" "error") w.
Proof. intros H. unfold run, Horarios.guardarDisponibilidad. by rewrite H. Qed.

Lemma guardarDisponibilidad_envia (w : World) (d : DisponibilidadData) :
  JS.str_ge (hora_desde d) (hora_hasta d) = false →
  ∃ rest,
    peticiones (run (Horarios.guardarDisponibilidad d) w)
    = peticiones w
      ++ (if modoEdicion (horariosState w)
          then Api.updateDisponibilidad (hs_medicoSeleccionado (horariosState w))
                 (itemEditando (horariosState w)) d
          else Api.createDisponibilidad (hs_medicoSeleccionado (horariosState w)) d)
         :: rest.
Proof.
  intros H. unfold run, Horarios.guardarDisponibilidad. rewrite H.
  unfold finally, try_catch, mbind, M_bind, get_world.
  cbn [showLoading modify set_loading horariosState].
  destruct (modoEdicion (horariosState w)); unfold request at 1;
    cbn [peticiones servidor set_loading];
    destruct (servidor w _ _) as [r | e];
    cbn [showToast modify Horarios.cancelarFormularioDisponibilidad hideLoading];
    first [tras_recarga | (cbn; by exists [])].
Qed.

Lemma guardarBloqueo_rechaza (w : World) (d : BloqueoData) :
  JS.num_ge (Date_parse (nav w) (inicio d)) (Date_parse (nav w) (fin d)) = true →
  run (Horarios.guardarBloqueo d) w
  = run (showToast "La fecha de fin debe ser posterior a la fecha de inicio" "error") w.
Proof.
  intros H. unfold run, Horarios.guardarBloqueo, mbind, M_bind, get_world. by rewrite H.
Qed.

Lemma guardarBloqueo_envia (w : World) (d : BloqueoData) :
  JS.num_ge (Date_parse (nav w) (inicio d)) (Date_parse (nav w) (fin d)) = false →
  ∃ rest,
    peticiones (run (Horarios.guardarBloqueo d) w)
    = peticiones w
      ++ (if modoEdicion (horariosState w)
          then Api.updateBloqueo (hs_medicoSeleccionado (horariosState w))
                 (itemEditando (horariosState w)) d
          else Api.createBloqueo (hs_medicoSeleccionado (horariosState w)) d)
         :: rest.
Proof.
  intros H. unfold run, Horarios.guardarBloqueo.
  unfold finally, try_catch, mbind, M_bind, get_world. rewrite H.
  cbn [showLoading modify set_loading horariosState].
  destruct (modoEdicion (horariosState w)); unfold request at 1;
    cbn [peticiones servidor set_loading];
    destruct (servidor w _ _) as [r | e];
    cbn [showToast modify Horarios.cancelarFormularioBloqueo hideLoading];
    first [tras_recarga | (cbn; by exists [])].
Qed.

(** C6 (as amended).  The availability form is refused before any request
    is sent exactly on one ground: [hora_desde >= hora_hasta], compared as
    strings.  Then nothing is sent, the schedule state is untouched and the
    error toast is shown.  Otherwise the create request (or, in edit mode,
    the update request) is sent carrying the form values as they are: the
    client checks neither the slot duration nor the day of the week. *)
Theorem availability_save_checks_time_range_only (w : World) (d : DisponibilidadData) :
  (JS.str_ge (hora_desde d) (hora_hasta d) = true →
     peticiones (run (Horarios.guardarDisponibilidad d) w) = peticiones w
     ∧ horariosState (run (Horarios.guardarDisponibilidad d) w) = horariosState w
     ∧ toasts (run (Horarios.guardarDisponibilidad d) w)
       = toasts w ++ [("La hora de fin debe ser posterior a la hora de inicio", "error")])
  ∧ (JS.str_ge (hora_desde d) (hora_hasta d) = false →
     ∃ rest,
       peticiones (run (Horarios.guardarDisponibilidad d) w)
       = peticiones w
         ++ (if modoEdicion (horariosState w)
             then Api.updateDisponibilidad (hs_medicoSeleccionado (horariosState w))
                    (itemEditando (horariosState w)) d
             else Api.createDisponibilidad (hs_medicoSeleccionado (horariosState w)) d)
            :: rest).
Proof.
  split; intros H.
  - rewrite (guardarDisponibilidad_rechaza w d H). by cbn.
  - by apply guardarDisponibilidad_envia.
Qed.

(** On the example page: 11:00-09:00 is refused, 09:00-11:00 is sent. *)
Lemma availability_save_witness :
  (peticiones (run (Horarios.guardarDisponibilidad Ejemplo.horario_invertido) Ejemplo.mundo_ej)
   = peticiones Ejemplo.mundo_ej
   ∧ horariosState
       (run (Horarios.guardarDisponibilidad Ejemplo.horario_invertido) Ejemplo.mundo_ej)
     = horariosState Ejemplo.mundo_ej
   ∧ toasts (run (Horarios.guardarDisponibilidad Ejemplo.horario_invertido) Ejemplo.mundo_ej)
     = toasts Ejemplo.mundo_ej
       ++ [("La hora de fin debe ser posterior a la hora de inicio", "error")])
  ∧ ∃ rest,
      peticiones (run (Horarios.guardarDisponibilidad Ejemplo.horario_valido) Ejemplo.mundo_ej)
      = peticiones Ejemplo.mundo_ej
        ++ Api.createDisponibilidad (Some 3) Ejemplo.horario_valido :: rest.
Proof.
  split.
  - apply (proj1 (availability_save_checks_time_range_only
                    Ejemplo.mundo_ej Ejemplo.horario_invertido)).
    reflexivity.
  - apply (proj2 (availability_save_checks_time_range_only
                    Ejemplo.mundo_ej Ejemplo.horario_valido)).
    reflexivity.
Defined.

(** C6 (as stated) fails: a row with slot duration 0, and a row for day 9
    of the week, pass the only check there is and are posted to the
    server. *)
Lemma availability_bad_duration_and_day_are_sent :
  (duracion_slot Ejemplo.horario_duracion_cero = Some 0
   ∧ peticiones
       (run (Horarios.guardarDisponibilidad Ejemplo.horario_duracion_cero) Ejemplo.mundo_ej)
     = [Api.createDisponibilidad (Some 3) Ejemplo.horario_duracion_cero;
        Api.getDisponibilidades (Some 3); Api.getBloqueos (Some 3)])
  ∧ (dia_semana Ejemplo.horario_dia_desconocido = Some 9
     ∧ peticiones
         (run (Horarios.guardarDisponibilidad Ejemplo.horario_dia_desconocido)
            Ejemplo.mundo_ej)
       = [Api.createDisponibilidad (Some 3) Ejemplo.horario_dia_desconocido;
          Api.getDisponibilidades (Some 3); Api.getBloqueos (Some 3)]).
Proof. repeat split; vm_compute; reflexivity. Qed.

(** C7.  The block form is refused without any request whenever both dates
    parse and the start is not before the end.  When the start is before
    the end the create request (or, in edit mode, the update request) is
    sent with the form values, whatever blocks the physician already has:
    the handler never looks at them. *)
Theorem block_save_checks_range_not_overlap (w : World) (d : BloqueoData) (ti tf : Z) :
  Date_parse (nav w) (inicio d) = Some ti →
  Date_parse (nav w) (fin d) = Some tf →
  (tf ≤ ti →
     peticiones (run (Horarios.guardarBloqueo d) w) = peticiones w
     ∧ horariosState (run (Horarios.guardarBloqueo d) w) = horariosState w)
  ∧ (ti < tf →
     ∀ existentes,
     ∃ rest,
       peticiones
         (run (Horarios.guardarBloqueo d)
            (set_horariosState (Horarios.set_bloqueos existentes) w))
       = peticiones w
         ++ (if modoEdicion (horariosState w)
             then Api.updateBloqueo (hs_medicoSeleccionado (horariosState w))
                    (itemEditando (horariosState w)) d
             else Api.createBloqueo (hs_medicoSeleccionado (horariosState w)) d)
            :: rest).
Proof.
  intros Hi Hf. split; intros Hlt.
  - rewrite (guardarBloqueo_rechaza w d); [by cbn |].
    rewrite Hi, Hf. cbn. by apply Z.leb_le.
  - intros existentes.
    apply (guardarBloqueo_envia (set_horariosState (Horarios.set_bloqueos existentes) w) d).
    cbn [nav set_horariosState]. rewrite Hi, Hf. cbn. apply Z.leb_gt. lia.
Qed.

(** On the example page the physician is blocked from 1 to 10 December: a
    block from 8 to 5 December is refused, and a block from 5 to 8 December,
    inside the existing one, is posted. *)
Lemma block_save_witness :
  (peticiones (run (Horarios.guardarBloqueo Ejemplo.bloqueo_invertido) Ejemplo.mundo_ej)
   = peticiones Ejemplo.mundo_ej
   ∧ horariosState (run (Horarios.guardarBloqueo Ejemplo.bloqueo_invertido) Ejemplo.mundo_ej)
     = horariosState Ejemplo.mundo_ej)
  ∧ ∃ rest,
      peticiones
        (run (Horarios.guardarBloqueo Ejemplo.bloqueo_solapado)
           (set_horariosState (Horarios.set_bloqueos [Ejemplo.bloqueo_existente])
              Ejemplo.mundo_ej))
      = peticiones Ejemplo.mundo_ej
        ++ Api.createBloqueo (Some 3) Ejemplo.bloqueo_solapado :: rest.
Proof.
  split.
  - apply (proj1 (block_save_checks_range_not_overlap Ejemplo.mundo_ej
                    Ejemplo.bloqueo_invertido 1765152000000 1764892800000
                    eq_refl eq_refl)).
    lia.
  - apply (proj2 (block_save_checks_range_not_overlap Ejemplo.mundo_ej
                    Ejemplo.bloqueo_solapado 1764892800000 1765152000000
                    eq_refl eq_refl)).
    lia.
Defined.

(* ===================================================================== *)
(** ** Confirming and cancelling from the appointment lists *)
(* ===================================================================== *)

Lemma cargarMisTurnos_lectura (page : option Z) :
  estable (emite es_lectura) (App.cargarMisTurnos page).
Proof. unfold App.cargarMisTurnos. emite_tac ltac:(reflexivity). Qed.

Lemma buscarTurnosPaciente_lectura : estable (emite es_lectura) App.buscarTurnosPaciente.
Proof.
  unfold App.buscarTurnosPaciente, como_paciente, como_turnos.
  emite_tac ltac:(reflexivity).
Qed.

Lemma recargar_lista_lectura : estable (emite es_lectura) App.recargar_lista.
Proof.
  pose proof buscarTurnosPaciente_lectura. pose proof (cargarMisTurnos_lectura None).
  unfold App.recargar_lista. emite_tac ltac:(reflexivity).
Qed.

(** A handler of the shape
    [if (!confirm(q)) return; try { showLoading(); await api.X(id); toast;
    reload } catch { toast } finally { hideLoading() }]
    sends [X] first and then only what the reload sends. *)
Lemma accion_y_recarga (q : string) (r : Api.Request) (ok : string) (recarga : M unit)
    (w : World) :
  estable (emite es_lectura) recarga →
  responde_confirm w q = true →
  ∃ rest,
    peticiones
      (run
         (w ← get_world;
          if negb (responde_confirm w q) then mret tt
          else
            finally
              (try_catch
                 (showLoading;;
                  _ ← request r;
                  showToast ok "success";;
                  recarga)
                 (λ e, showToast ("Error: " +:+ e) "error"))
              hideLoading)
         w)
    = peticiones w ++ r :: rest
    ∧ Forall es_lectura rest.
Proof.
  intros Hrec Hq. unfold run.
  unfold finally, try_catch, mbind, M_bind, get_world. rewrite Hq. cbn [negb].
  cbn [showLoading modify set_loading]. unfold request at 1.
  cbn [peticiones servidor set_loading].
  destruct (servidor w _ _) as [d | e]; cbn [showToast modify hideLoading].
  - match goal with |- context [recarga ?W] =>
      destruct (recarga W) as [[[] | e] w4] eqn:E;
      destruct (emite_snd _ _ _ _ _ Hrec E) as (l & Hl & HF)
    end; cbn in *; rewrite Hl; exists l; (split; [by rewrite <- app_assoc | exact HF]).
  - cbn. exists []. split; [reflexivity | constructor].
Qed.

Lemma cancelarTurnoById_envia (w : World) (turnoId : Z) :
  responde_confirm w "¿Está seguro de cancelar este turno?" = true →
  ∃ rest,
    peticiones (run (App.cancelarTurnoById turnoId) w)
    = peticiones w ++ Api.cancelarTurno turnoId :: rest
    ∧ Forall es_lectura rest.
Proof. apply accion_y_recarga, recargar_lista_lectura. Qed.

Lemma cancelarTurnoById_v1_envia (w : World) (turnoId : Z) :
  responde_confirm w "¿Está seguro de cancelar este turno?" = true →
  ∃ rest,
    peticiones (run (AppV1.cancelarTurnoById turnoId) w)
    = peticiones w ++ Api.cancelarTurno turnoId :: rest
    ∧ Forall es_lectura rest.
Proof. apply accion_y_recarga, buscarTurnosPaciente_lectura. Qed.

Lemma confirmarTurnoById_envia (w : World) (turnoId : Z) :
  responde_confirm w "¿Confirmar este turno?" = true →
  ∃ rest,
    peticiones (run (App.confirmarTurnoById turnoId) w)
    = peticiones w ++ Api.confirmarTurno turnoId :: rest
    ∧ Forall es_lectura rest.
Proof. apply accion_y_recarga, recargar_lista_lectura. Qed.

Lemma confirmarTurnoById_v1_envia (w : World) (turnoId : Z) :
  responde_confirm w "¿Confirmar este turno?" = true →
  ∃ rest,
    peticiones (run (AppV1.confirmarTurnoById turnoId) w)
    = peticiones w ++ Api.confirmarTurno turnoId :: rest
    ∧ Forall es_lectura rest.
Proof. apply accion_y_recarga, buscarTurnosPaciente_lectura. Qed.

Lemma cancelarTurnoById_declinado (w : World) (turnoId : Z) :
  responde_confirm w "¿Está seguro de cancelar este turno?" = false →
  run (App.cancelarTurnoById turnoId) w = w
  ∧ run (AppV1.cancelarTurnoById turnoId) w = w.
Proof.
  intros H.
  unfold run, App.cancelarTurnoById, AppV1.cancelarTurnoById, mbind, M_bind, get_world.
  by rewrite H.
Qed.

(** Which buttons the actions cell holds, in terms of the status code. *)
Lemma boton_confirmar_iff (turno : Turno) (j : Z) :
  BotonConfirmar j ∈ App.botones_turno turno
  ↔ j = turno_id turno ∧ codigo (estado turno) = "PEND".
Proof.
  unfold App.botones_turno.
  destruct (String.eqb_spec (codigo (estado turno)) "PEND") as [E | E];
    destruct (negb (String.eqb (codigo (estado turno)) "CANC")
              && negb (String.eqb (codigo (estado turno)) "INAS"));
    cbn; split.
  all: try (intros [-> _]; set_solver).
  all: try (intros [_ H]; congruence).
  all: rewrite ?elem_of_cons, ?elem_of_nil; intros H;
    repeat match goal with
    | H : _ ∨ _ |- _ => destruct H as [H | H]
    | H : BotonConfirmar _ = BotonConfirmar _ |- _ => injection H as ->
    end; try done.
Qed.

Lemma boton_cancelar_iff (turno : Turno) (j : Z) :
  BotonCancelar j ∈ App.botones_turno turno
  ↔ j = turno_id turno
    ∧ codigo (estado turno) ≠ "CANC" ∧ codigo (estado turno) ≠ "INAS".
Proof.
  unfold App.botones_turno.
  destruct (String.eqb (codigo (estado turno)) "PEND");
    destruct (String.eqb_spec (codigo (estado turno)) "CANC") as [E1 | E1];
    destruct (String.eqb_spec (codigo (estado turno)) "INAS") as [E2 | E2];
    cbn; split.
  all: try (intros (-> & _ & _); set_solver).
  all: try (intros (_ & H1 & H2); congruence).
  all: rewrite ?elem_of_cons, ?elem_of_nil; intros H;
    repeat match goal with
    | H : _ ∨ _ |- _ => destruct H as [H | H]
    | H : BotonCancelar _ = BotonCancelar _ |- _ => injection H as ->
    end; try done.
Qed.

Lemma codigo_de_pend (s : Engine.Status) : codigo_de s = "PEND" ↔ s = Engine.PENDING.
Proof. destruct s; cbn; split; intros H; try reflexivity; discriminate. Qed.

Lemma engine_confirm_spec (store : gmap Z Engine.Appointment) (id : Z)
    (a : Engine.Appointment) :
  store !! id = Some a →
  (Engine.status a = Engine.PENDING →
     Engine.confirm id store
     = inr (Engine.with_status Engine.CONFIRMED a,
            <[id := Engine.with_status Engine.CONFIRMED a]> store))
  ∧ (Engine.status a ≠ Engine.PENDING →
     Engine.confirm id store = inl Engine.InvalidTransition).
Proof.
  intros Hs. unfold Engine.confirm. rewrite Hs.
  split; intros H; destruct (Engine.status a); try reflexivity; congruence.
Qed.

(** C2.  In the engine, [confirm] succeeds exactly from PENDING and then
    stores the appointment as CONFIRMED; from any other status it fails with
    [InvalidTransition].  In the client, the table row and the card of an
    appointment carry the confirm button exactly when its status code is
    "PEND", the code of PENDING, and a click on that button, once the
    user accepts the dialog, sends [POST /turnos/{id}/confirmar] followed
    only by the reads that reload the list. *)
Theorem confirm_only_from_pending :
  (∀ (store : gmap Z Engine.Appointment) (id : Z) (a : Engine.Appointment),
     store !! id = Some a →
     (Engine.status a = Engine.PENDING →
        Engine.confirm id store
        = inr (Engine.with_status Engine.CONFIRMED a,
               <[id := Engine.with_status Engine.CONFIRMED a]> store))
     ∧ (Engine.status a ≠ Engine.PENDING →
        Engine.confirm id store = inl Engine.InvalidTransition))
  ∧ (∀ (turno : Turno) (j : Z),
       (BotonConfirmar j ∈ tv_botones (App.fila_turno turno)
        ↔ j = turno_id turno ∧ codigo (estado turno) = "PEND")
       ∧ (BotonConfirmar j ∈ tv_botones (App.tarjeta_turno turno)
          ↔ j = turno_id turno ∧ codigo (estado turno) = "PEND"))
  ∧ (∀ s, codigo_de s = "PEND" ↔ s = Engine.PENDING)
  ∧ (∀ (w : World) (id : Z),
       responde_confirm w "¿Confirmar este turno?" = true →
       (∃ rest,
          peticiones (run (App.click (BotonConfirmar id)) w)
          = peticiones w ++ Api.confirmarTurno id :: rest
          ∧ Forall es_lectura rest)
       ∧ (∃ rest,
            peticiones (run (AppV1.confirmarTurnoById id) w)
            = peticiones w ++ Api.confirmarTurno id :: rest
            ∧ Forall es_lectura rest)).
Proof.
  split; [exact engine_confirm_spec |].
  split; [intros turno j; split; apply boton_confirmar_iff |].
  split; [exact codigo_de_pend |].
  intros w id H. split.
  - by apply confirmarTurnoById_envia.
  - by apply confirmarTurnoById_v1_envia.
Qed.

(** Appointment 41 of the example store is pending: confirming it succeeds,
    and on the example page the click sends the confirm request. *)
Lemma confirm_only_from_pending_witness :
  Engine.confirm 41 Ejemplo.almacen_ej
  = inr (Engine.with_status Engine.CONFIRMED Ejemplo.cita_pendiente,
         <[41 := Engine.with_status Engine.CONFIRMED Ejemplo.cita_pendiente]>
           Ejemplo.almacen_ej)
  ∧ ∃ rest,
      peticiones (run (App.click (BotonConfirmar 41)) Ejemplo.mundo_ej)
      = peticiones Ejemplo.mundo_ej ++ Api.confirmarTurno 41 :: rest
      ∧ Forall es_lectura rest.
Proof.
  split.
  - apply (proj1 confirm_only_from_pending Ejemplo.almacen_ej 41 Ejemplo.cita_pendiente);
      reflexivity.
  - destruct (proj2 (proj2 (proj2 confirm_only_from_pending)) Ejemplo.mundo_ej 41)
      as [H _]; [reflexivity | exact H].
Defined.

Lemma engine_cancel_spec (store : gmap Z Engine.Appointment) (id : Z)
    (a : Engine.Appointment) :
  store !! id = Some a →
  (Engine.terminal (Engine.status a) = false →
     Engine.cancel id store
     = inr (Engine.with_status Engine.CANCELLED a,
            <[id := Engine.with_status Engine.CANCELLED a]> store))
  ∧ (Engine.terminal (Engine.status a) = true →
     Engine.cancel id store = inl Engine.InvalidTransition).
Proof.
  intros Hs. unfold Engine.cancel. rewrite Hs.
  split; intros H; by rewrite H.
Qed.

(** C8.  Once the user accepts the dialog, [cancelarTurnoById] (in both
    revisions of the script) sends [POST /turnos/{id}/cancelar] and after it
    only reads; declined, it does nothing.  [deleteTurno] is another request,
    a [DELETE], which therefore never occurs on the cancel path.  In the
    engine a successful [cancel] keeps the row under its id with status
    CANCELLED and every other field as it was, and touches no other row. *)
Theorem cancel_keeps_the_record :
  (∀ (w : World) (id : Z),
     responde_confirm w "¿Está seguro de cancelar este turno?" = true →
     (∃ rest,
        peticiones (run (App.cancelarTurnoById id) w)
        = peticiones w ++ Api.cancelarTurno id :: rest
        ∧ Forall es_lectura rest)
     ∧ (∃ rest,
          peticiones (run (AppV1.cancelarTurnoById id) w)
          = peticiones w ++ Api.cancelarTurno id :: rest
          ∧ Forall es_lectura rest))
  ∧ (∀ (w : World) (id : Z),
       responde_confirm w "¿Está seguro de cancelar este turno?" = false →
       run (App.cancelarTurnoById id) w = w
       ∧ run (AppV1.cancelarTurnoById id) w = w)
  ∧ (∀ id id' : Z,
       Api.cancelarTurno id ≠ Api.deleteTurno id'
       ∧ Api.metodo (Api.cancelarTurno id) = Api.POST
       ∧ Api.metodo (Api.deleteTurno id') = Api.DELETE
       ∧ ¬ es_lectura (Api.deleteTurno id'))
  ∧ (∀ (store : gmap Z Engine.Appointment) (id : Z) (a : Engine.Appointment),
       store !! id = Some a →
       Engine.terminal (Engine.status a) = false →
       ∃ a' store',
         Engine.cancel id store = inr (a', store')
         ∧ store' !! id = Some a'
         ∧ Engine.status a' = Engine.CANCELLED
         ∧ Engine.physician a' = Engine.physician a
         ∧ Engine.patient a' = Engine.patient a
         ∧ Engine.specialty a' = Engine.specialty a
         ∧ Engine.instant a' = Engine.instant a
         ∧ Engine.duration a' = Engine.duration a
         ∧ Engine.reason a' = Engine.reason a
         ∧ Engine.created a' = Engine.created a
         ∧ dom store' = dom store
         ∧ ∀ j, j ≠ id → store' !! j = store !! j).
Proof.
  split; [| split; [| split]].
  - intros w id H. split.
    + by apply cancelarTurnoById_envia.
    + by apply cancelarTurnoById_v1_envia.
  - exact cancelarTurnoById_declinado.
  - intros id id'. repeat split; discriminate.
  - intros store id a Hs Ht.
    destruct (engine_cancel_spec store id a Hs) as [Hok _].
    eexists _, _. split; [by apply Hok |].
    split; [apply lookup_insert_eq |].
    repeat (split; [reflexivity |]).
    split.
    + apply dom_insert_lookup_L. by exists a.
    + intros j Hj. by rewrite lookup_insert_ne.
Qed.

(** On the example page cancelling appointment 41 sends the cancel request
    and then only reads; in the example store the row stays, cancelled. *)
Lemma cancel_keeps_the_record_witness :
  (∃ rest,
     peticiones (run (App.cancelarTurnoById 41) Ejemplo.mundo_ej)
     = peticiones Ejemplo.mundo_ej ++ Api.cancelarTurno 41 :: rest
     ∧ Forall es_lectura rest)
  ∧ ∃ a' store',
      Engine.cancel 41 Ejemplo.almacen_ej = inr (a', store')
      ∧ store' !! 41 = Some a'
      ∧ Engine.status a' = Engine.CANCELLED.
Proof.
  split.
  - destruct (proj1 cancel_keeps_the_record Ejemplo.mundo_ej 41) as [H _];
      [reflexivity | exact H].
  - destruct (proj2 (proj2 (proj2 cancel_keeps_the_record))
                Ejemplo.almacen_ej 41 Ejemplo.cita_pendiente eq_refl eq_refl)
      as (a' & store' & H1 & H2 & H3 & _).
    exists a', store'. repeat split; assumption.
Defined.

(** C1 (the defect).  An attended appointment, code "ASIS", is in the
    terminal status COMPLETED, from which the engine rejects [cancel] with
    [InvalidTransition]; yet its row and its card both carry the cancel
    button, and a click on it sends the cancel request. *)
Lemma cancel_offered_for_attended_appointment :
  codigo (estado Ejemplo.turno_asistido) = codigo_de Engine.COMPLETED
  ∧ Engine.terminal Engine.COMPLETED = true
  ∧ Engine.cancel 7 Ejemplo.almacen_ej = inl Engine.InvalidTransition
  ∧ tv_botones (App.fila_turno Ejemplo.turno_asistido) = [BotonCancelar 7]
  ∧ tv_botones (App.tarjeta_turno Ejemplo.turno_asistido) = [BotonCancelar 7]
  ∧ peticiones (run (App.click (BotonCancelar 7)) Ejemplo.mundo_ej)
    = [Api.cancelarTurno 7; Api.listarMisTurnos 1 15 None].
Proof. repeat split; vm_compute; reflexivity. Qed.

(* ===================================================================== *)
(** ** The weekly calendar *)
(* ===================================================================== *)

Section CalendarioFacts.

Import Calendario.

Context (nav : Navegador) (st : CalendarioState).

Lemma buscarHorarioDisponible_bloqueado (fecha : string) (info : DiaInfo) :
  horariosTodos st !! fecha = Some info →
  bloqueado info = true →
  ∀ hora, buscarHorarioDisponible st fecha hora = None.
Proof. intros Hi Hb hora. unfold buscarHorarioDisponible. by rewrite Hi, Hb. Qed.

Lemma crear_celda_bloqueado (azar : nat → Q) (fecha hora : string) (info : DiaInfo)
    (k k' : nat) (c : Celda) :
  horariosTodos st !! fecha = Some info →
  bloqueado info = true →
  crear_celda nav azar st fecha hora k = (Val c, k') →
  c = celda_bloqueada (Some info).
Proof.
  intros Hi Hb. unfold crear_celda. rewrite Hi, Hb.
  destruct (buscarTurnoOcupado nav st fecha hora); intros [= <- _]; reflexivity.
Qed.

(** Every cell of a row was built by [crear_celda] for a day of the week
    shown and the hour of the row. *)
Lemma render_fila_celdas (azar : nat → Q) (hora : string) (dias : list Z) :
  ∀ k nodos err k',
    render_fila nav azar st hora dias k = (nodos, err, k') →
    ∀ n, n ∈ nodos →
      ∃ dia c k0 k1,
        n = NCelda (isoFecha nav dia) hora c
        ∧ dia ∈ dias
        ∧ crear_celda nav azar st (isoFecha nav dia) hora k0 = (Val c, k1).
Proof.
  induction dias as [| dia resto IH]; intros k nodos err k' H n Hn; cbn [render_fila] in H.
  - injection H as <- <- <-. by apply elem_of_nil in Hn.
  - destruct (crear_celda nav azar st (isoFecha nav dia) hora k) as [[c | e] k1] eqn:E.
    + destruct (render_fila nav azar st hora resto k1) as [[ns er] k2] eqn:E2.
      injection H as <- <- <-.
      apply elem_of_cons in Hn as [-> | Hn].
      * exists dia, c, k, k1. repeat split; [left | exact E].
      * destruct (IH _ _ _ _ E2 n Hn) as (d' & c' & k0 & k3 & -> & Hd & Hc).
        exists d', c', k0, k3. repeat split; [by right | exact Hc].
    + injection H as <- <- <-. by apply elem_of_nil in Hn.
Qed.

Lemma render_filas_celdas (azar : nat → Q) (horas : list string) (dias : list Z) :
  ∀ k nodos err k',
    render_filas nav azar st horas dias k = (nodos, err, k') →
    ∀ fecha hora c, NCelda fecha hora c ∈ nodos →
      ∃ dia k0 k1,
        fecha = isoFecha nav dia
        ∧ dia ∈ dias
        ∧ hora ∈ horas
        ∧ crear_celda nav azar st fecha hora k0 = (Val c, k1).
Proof.
  induction horas as [| h resto IH]; intros k nodos err k' H fecha hora c Hn; cbn [render_filas] in H.
  - injection H as <- <- <-. by apply elem_of_nil in Hn.
  - destruct (render_fila nav azar st h dias k) as [[fila er] k1] eqn:E.
    assert (Hfila : NCelda fecha hora c ∈ fila →
                    ∃ dia k0 k2, fecha = isoFecha nav dia ∧ dia ∈ dias ∧ hora ∈ h :: resto
                                 ∧ crear_celda nav azar st fecha hora k0 = (Val c, k2)).
    { intros Hin.
      destruct (render_fila_celdas _ _ _ _ _ _ _ E _ Hin) as (d & c' & k0 & k2 & Heq & Hd & Hc).
      injection Heq as -> -> ->. exists d, k0, k2. repeat split; [exact Hd | left | exact Hc]. }
    destruct er as [e |].
    + injection H as <- <- <-.
      apply elem_of_cons in Hn as [Hn | Hn]; [discriminate | by apply Hfila].
    + destruct (render_filas nav azar st resto dias k1) as [[ns er] k2] eqn:E2.
      injection H as <- <- <-.
      apply elem_of_cons in Hn as [Hn | Hn]; [discriminate |].
      apply elem_of_app in Hn as [Hn | Hn]; [by apply Hfila |].
      destruct (IH _ _ _ _ E2 _ _ _ Hn) as (d & k0 & k3 & -> & Hd & Hh & Hc).
      exists d, k0, k3. repeat split; [exact Hd | by right | exact Hc].
Qed.

Lemma encabezados_sin_celdas (hoy : Z) (dias : list Z) (fecha hora : string) (c : Celda) :
  NCelda fecha hora c ∉ encabezados hoy dias.
Proof.
  unfold encabezados. intros H. apply elem_of_cons in H as [H | H]; [discriminate |].
  apply elem_of_lookup_zip_with in H as (i & nombre & dia & H & _).
  discriminate.
Qed.

(** A rendering that ran to completion has a cell for every day shown and
    every hour of the grid. *)
Lemma render_fila_completa (azar : nat → Q) (hora : string) (dias : list Z) :
  ∀ k nodos k',
    render_fila nav azar st hora dias k = (nodos, None, k') →
    ∀ dia, dia ∈ dias → ∃ c, NCelda (isoFecha nav dia) hora c ∈ nodos.
Proof.
  induction dias as [| d resto IH]; intros k nodos k' H dia Hd; cbn [render_fila] in H.
  - by apply elem_of_nil in Hd.
  - destruct (crear_celda nav azar st (isoFecha nav d) hora k) as [[c | e] k1] eqn:E;
      [| discriminate].
    destruct (render_fila nav azar st hora resto k1) as [[ns er] k2] eqn:E2.
    injection H as <- -> <-.
    apply elem_of_cons in Hd as [-> | Hd].
    + exists c. left.
    + destruct (IH _ _ _ E2 dia Hd) as [c' Hc']. exists c'. by right.
Qed.

Lemma render_filas_completa (azar : nat → Q) (horas : list string) (dias : list Z) :
  ∀ k nodos k',
    render_filas nav azar st horas dias k = (nodos, None, k') →
    ∀ dia hora, dia ∈ dias → hora ∈ horas →
      ∃ c, NCelda (isoFecha nav dia) hora c ∈ nodos.
Proof.
  induction horas as [| h resto IH]; intros k nodos k' H dia hora Hd Hh; cbn [render_filas] in H.
  - by apply elem_of_nil in Hh.
  - destruct (render_fila nav azar st h dias k) as [[fila er] k1] eqn:E.
    destruct er as [e |]; [discriminate |].
    destruct (render_filas nav azar st resto dias k1) as [[ns er] k2] eqn:E2.
    injection H as <- -> <-.
    apply elem_of_cons in Hh as [-> | Hh].
    + destruct (render_fila_completa _ _ _ _ _ _ E dia Hd) as [c Hc].
      exists c. right. apply elem_of_app. by left.
    + destruct (IH _ _ _ E2 dia hora Hd Hh) as [c Hc].
      exists c. right. apply elem_of_app. by right.
Qed.

End CalendarioFacts.

(** C4.  For a date whose calendar entry is marked [bloqueado], the slot
    lookup answers no slot for any hour, whatever slots the entry lists; and
    in the rendered week every cell of that date is the blocked cell, which
    has no click listener, so no slot of that date can be selected.  When the
    rendering runs to completion the blocked cell is there for every hour of
    the grid on each day of the week that has this date. *)
Theorem blocked_date_offers_no_slot (nav : Navegador) (azar : nat → Q) (hoy : Z)
    (st : CalendarioState) (k : nat) (fecha : string) (info : DiaInfo) :
  horariosTodos st !! fecha = Some info →
  bloqueado info = true →
  (∀ hora, Calendario.buscarHorarioDisponible st fecha hora = None)
  ∧ (∀ nodos err k',
       Calendario.renderizarCalendarioSemanal nav azar hoy st k = (nodos, err, k') →
       (∀ hora c,
          Calendario.NCelda fecha hora c ∈ nodos →
          c = Calendario.celda_bloqueada (Some info)
          ∧ Calendario.seleccionable c = false)
       ∧ (err = None →
          ∀ dia hora,
            dia ∈ Calendario.diasSemana hoy (semanaActual st) →
            isoFecha nav dia = fecha →
            hora ∈ Calendario.horasDelDia →
            Calendario.NCelda fecha hora (Calendario.celda_bloqueada (Some info)) ∈ nodos)).
Proof.
  intros Hi Hb. split; [by apply buscarHorarioDisponible_bloqueado with info |].
  intros nodos err k' H. unfold Calendario.renderizarCalendarioSemanal in H.
  cbv zeta in H.
  remember (Calendario.diasSemana hoy (semanaActual st)) as dias eqn:Hdias.
  remember (Calendario.encabezados hoy dias) as enc eqn:Henc.
  destruct (Calendario.render_filas nav azar st Calendario.horasDelDia dias k)
    as [[ns er] k1] eqn:E.
  injection H as <- <- <-.
  assert (Hcel : ∀ hora c, Calendario.NCelda fecha hora c ∈ ns →
                           c = Calendario.celda_bloqueada (Some info)).
  { intros hora c Hn.
    destruct (render_filas_celdas _ _ _ _ _ _ _ _ _ E _ _ _ Hn) as (d & k0 & k2 & _ & _ & _ & Hc).
    by apply (crear_celda_bloqueado nav st azar fecha hora info k0 k2). }
  split.
  - intros hora c Hn. apply elem_of_app in Hn as [Hn | Hn].
    + rewrite Henc in Hn. by apply encabezados_sin_celdas in Hn.
    + rewrite (Hcel hora c Hn). by split.
  - intros -> dia hora Hd Hf Hh.
    destruct (render_filas_completa _ _ _ _ _ _ _ _ E dia hora Hd Hh) as [c Hc].
    rewrite Hf in Hc. rewrite <- (Hcel hora c Hc).
    apply elem_of_app. by right.
Qed.

(** Tuesday 25 November of the example calendar is blocked: no hour of it
    resolves to a slot although the reply lists 08:00, and its cells in the
    rendered week are blocked cells. *)
Lemma blocked_date_witness :
  (∀ hora, Calendario.buscarHorarioDisponible Ejemplo.calendario_ej "2025-11-25" hora = None)
  ∧ (∀ nodos err k',
       Calendario.renderizarCalendarioSemanal Ejemplo.navegador_utc Ejemplo.azar_ej
         Ejemplo.lunes Ejemplo.calendario_ej 0 = (nodos, err, k') →
       (∀ hora c,
          Calendario.NCelda "2025-11-25" hora c ∈ nodos →
          c = Calendario.celda_bloqueada (Some Ejemplo.martes_bloqueado)
          ∧ Calendario.seleccionable c = false)
       ∧ (err = None →
          ∀ dia hora,
            dia ∈ Calendario.diasSemana Ejemplo.lunes (semanaActual Ejemplo.calendario_ej) →
            isoFecha Ejemplo.navegador_utc dia = "2025-11-25" →
            hora ∈ Calendario.horasDelDia →
            Calendario.NCelda "2025-11-25" hora
              (Calendario.celda_bloqueada (Some Ejemplo.martes_bloqueado)) ∈ nodos)).
Proof.
  apply (blocked_date_offers_no_slot Ejemplo.navegador_utc Ejemplo.azar_ej Ejemplo.lunes
           Ejemplo.calendario_ej 0 "2025-11-25" Ejemplo.martes_bloqueado).
  - vm_compute. reflexivity.
  - reflexivity.
Defined.

Section Colores.

Import Calendario.

Context (nav : Navegador) (st : CalendarioState) (azar1 azar2 : nat → Q).

(** Two cells built for the same date and hour under different random
    draws differ at most in the colour class. *)
Lemma crear_celda_sin_color (fecha hora : string) (k1 k2 k1' k2' : nat) (c1 c2 : Celda) :
  crear_celda nav azar1 st fecha hora k1 = (Val c1, k1') →
  crear_celda nav azar2 st fecha hora k2 = (Val c2, k2') →
  sin_color (NCelda fecha hora c1) = sin_color (NCelda fecha hora c2).
Proof.
  unfold crear_celda.
  destruct (buscarTurnoOcupado nav st fecha hora) as [[turno |] | e];
    destruct (horariosTodos st !! fecha) as [info |]; [destruct (bloqueado info) | ..];
    repeat case_match; intros [= <- _] [= <- _]; reflexivity.
Qed.

Lemma compatibles_nil_l (b : list Nodo * option string) (e : string) :
  compatibles ([], Some e) b.
Proof. repeat split; [discriminate | intros _; apply prefix_nil | left; apply prefix_nil]. Qed.

Lemma compatibles_nil_r (a : list Nodo * option string) (e : string) :
  compatibles a ([], Some e).
Proof. repeat split; [intros _; apply prefix_nil | discriminate | right; apply prefix_nil]. Qed.

Lemma compatibles_cons (x y : Nodo) (a b : list Nodo * option string) :
  sin_color x = sin_color y →
  compatibles a b →
  compatibles (x :: a.1, a.2) (y :: b.1, b.2).
Proof.
  intros Hxy (H1 & H2 & H3). unfold compatibles. cbn. rewrite Hxy.
  repeat split.
  - intros E. by apply prefix_cons, H1.
  - intros E. by apply prefix_cons, H2.
  - destruct H3; [left | right]; by apply prefix_cons.
Qed.

Lemma render_fila_compatibles (hora : string) (dias : list Z) :
  ∀ k1 k2,
    compatibles (render_fila nav azar1 st hora dias k1).1
                (render_fila nav azar2 st hora dias k2).1.
Proof.
  induction dias as [| dia resto IH]; intros k1 k2; cbn [render_fila].
  - repeat split; cbn; try done; by left.
  - destruct (crear_celda nav azar1 st (isoFecha nav dia) hora k1) as [[c1 | e1] k1'] eqn:E1;
      destruct (crear_celda nav azar2 st (isoFecha nav dia) hora k2) as [[c2 | e2] k2'] eqn:E2.
    + specialize (IH k1' k2').
      destruct (render_fila nav azar1 st hora resto k1') as [[ns1 er1] k1''].
      destruct (render_fila nav azar2 st hora resto k2') as [[ns2 er2] k2''].
      apply (compatibles_cons _ _ (ns1, er1) (ns2, er2)); [| exact IH].
      by apply crear_celda_sin_color with k1 k2 k1' k2'.
    + destruct (render_fila nav azar1 st hora resto k1') as [[ns1 er1] k1''].
      apply compatibles_nil_r.
    + destruct (render_fila nav azar2 st hora resto k2') as [[ns2 er2] k2''].
      apply compatibles_nil_l.
    + apply compatibles_nil_l.
Qed.

Lemma render_filas_compatibles (horas : list string) (dias : list Z) :
  ∀ k1 k2,
    compatibles (render_filas nav azar1 st horas dias k1).1
                (render_filas nav azar2 st horas dias k2).1.
Proof.
  induction horas as [| hora resto IH]; intros k1 k2; cbn [render_filas].
  - repeat split; cbn; try done; by left.
  - pose proof (render_fila_compatibles hora dias k1 k2) as Hfila.
    destruct (render_fila nav azar1 st hora dias k1) as [[f1 e1] k1'].
    destruct (render_fila nav azar2 st hora dias k2) as [[f2 e2] k2'].
    destruct Hfila as (H1 & H2 & H3). cbn in H1, H2, H3.
    destruct e1 as [e1 |], e2 as [e2 |].
    + apply (compatibles_cons _ _ (f1, Some e1) (f2, Some e2)); [reflexivity |].
      repeat split; cbn; try discriminate. exact H3.
    + destruct (render_filas nav azar2 st resto dias k2') as [[ns2 er2] k2''].
      apply (compatibles_cons _ _ (f1, Some e1) (f2 ++ ns2, er2)); [reflexivity |].
      repeat split; cbn; try discriminate.
      * intros _. rewrite map_app. by apply prefix_app_r, H2.
      * left. rewrite map_app. by apply prefix_app_r, H2.
    + destruct (render_filas nav azar1 st resto dias k1') as [[ns1 er1] k1''].
      apply (compatibles_cons _ _ (f1 ++ ns1, er1) (f2, Some e2)); [reflexivity |].
      repeat split; cbn; try discriminate.
      * intros _. rewrite map_app. by apply prefix_app_r, H1.
      * right. rewrite map_app. by apply prefix_app_r, H1.
    + assert (Heq : map sin_color f1 = map sin_color f2).
      { apply (anti_symm prefix); [by apply H2 | by apply H1]. }
      specialize (IH k1' k2').
      destruct (render_filas nav azar1 st resto dias k1') as [[ns1 er1] k1''].
      destruct (render_filas nav azar2 st resto dias k2') as [[ns2 er2] k2''].
      destruct IH as (I1 & I2 & I3). cbn in I1, I2, I3.
      apply (compatibles_cons _ _ (f1 ++ ns1, er1) (f2 ++ ns2, er2)); [reflexivity |].
      unfold compatibles. cbn. rewrite !map_app, Heq.
      repeat split.
      * intros E. by apply prefix_app, I1.
      * intros E. by apply prefix_app, I2.
      * destruct I3; [left | right]; by apply prefix_app.
Qed.

Lemma renderizar_compatibles (hoy : Z) (k1 k2 : nat) :
  compatibles (renderizarCalendarioSemanal nav azar1 hoy st k1).1
              (renderizarCalendarioSemanal nav azar2 hoy st k2).1.
Proof.
  unfold renderizarCalendarioSemanal. cbv zeta.
  remember (diasSemana hoy (semanaActual st)) as dias eqn:Hdias.
  remember (encabezados hoy dias) as enc eqn:Henc.
  pose proof (render_filas_compatibles horasDelDia dias k1 k2) as H.
  destruct (render_filas nav azar1 st horasDelDia dias k1) as [[ns1 er1] k1'].
  destruct (render_filas nav azar2 st horasDelDia dias k2) as [[ns2 er2] k2'].
  destruct H as (H1 & H2 & H3). cbn in H1, H2, H3.
  unfold compatibles. cbn. rewrite !map_app.
  repeat split.
  - intros E. by apply prefix_app, H1.
  - intros E. by apply prefix_app, H2.
  - destruct H3; [left | right]; by apply prefix_app.
Qed.

End Colores.

(** Removing the colours does not change which slots can be picked. *)
Lemma horarios_ofrecidos_sin_color (nodos : list Calendario.Nodo) :
  Calendario.horarios_ofrecidos (map Calendario.sin_color nodos)
  = Calendario.horarios_ofrecidos nodos.
Proof.
  unfold Calendario.horarios_ofrecidos.
  induction nodos as [| n resto IH]; [reflexivity |].
  change (n :: resto) with ([n] ++ resto).
  rewrite map_app, !omap_app, IH. f_equal.
  destruct n as [| | | fecha hora c]; try reflexivity.
  cbn. destruct (Calendario.contenido c); reflexivity.
Qed.

(** C5 (as amended).  The slot lookup reads nothing but the calendar state,
    and rendering the week leaves that state as it was.  Two renderings of
    the same state on the same day, under any two sequences of random draws,
    agree up to the colour class of the occupied cells: one is a prefix of
    the other, and when both run to completion they are equal up to those
    colours and offer the same slots, in the same order. *)
Theorem calendar_render_deterministic_up_to_colour (nv : Navegador)
    (st : CalendarioState) (dia_hoy : Z) (azar1 azar2 : nat → Q) (k1 k2 : nat)
    (n1 n2 : list Calendario.Nodo) (e1 e2 : option string) (k1' k2' : nat) :
  Calendario.renderizarCalendarioSemanal nv azar1 dia_hoy st k1 = (n1, e1, k1') →
  Calendario.renderizarCalendarioSemanal nv azar2 dia_hoy st k2 = (n2, e2, k2') →
  (map Calendario.sin_color n1 `prefix_of` map Calendario.sin_color n2
   ∨ map Calendario.sin_color n2 `prefix_of` map Calendario.sin_color n1)
  ∧ (e1 = None → e2 = None →
     map Calendario.sin_color n1 = map Calendario.sin_color n2
     ∧ Calendario.horarios_ofrecidos n1 = Calendario.horarios_ofrecidos n2)
  ∧ (∀ w, calendarioState (run App.renderizarCalendarioSemanal w) = calendarioState w).
Proof.
  intros E1 E2.
  pose proof (renderizar_compatibles nv st azar1 azar2 dia_hoy k1 k2) as (H1 & H2 & H3).
  rewrite E1, E2 in H1, H2, H3. cbn in H1, H2, H3.
  split; [exact H3 |]. split.
  - intros -> ->.
    assert (Heq : map Calendario.sin_color n1 = map Calendario.sin_color n2).
    { apply (anti_symm prefix); [by apply H2 | by apply H1]. }
    split; [exact Heq |].
    rewrite <- (horarios_ofrecidos_sin_color n1), <- (horarios_ofrecidos_sin_color n2).
    by rewrite Heq.
  - intros w. unfold run, App.renderizarCalendarioSemanal.
    destruct (Calendario.renderizarCalendarioSemanal (nav w) (azar w) (hoy w)
                (calendarioState w) (n_azar w)) as [[nodos [e |]] k]; reflexivity.
Qed.

(** The example week rendered with the first draw and again with the second:
    both renderings complete, and they agree up to the colours. *)
Lemma calendar_render_witness :
  map Calendario.sin_color
    (Calendario.renderizarCalendarioSemanal Ejemplo.navegador_utc Ejemplo.azar_ej
       Ejemplo.lunes Ejemplo.calendario_ej 0).1.1
  = map Calendario.sin_color
      (Calendario.renderizarCalendarioSemanal Ejemplo.navegador_utc Ejemplo.azar_ej
         Ejemplo.lunes Ejemplo.calendario_ej 1).1.1
  ∧ Calendario.horarios_ofrecidos
      (Calendario.renderizarCalendarioSemanal Ejemplo.navegador_utc Ejemplo.azar_ej
         Ejemplo.lunes Ejemplo.calendario_ej 0).1.1
    = Calendario.horarios_ofrecidos
        (Calendario.renderizarCalendarioSemanal Ejemplo.navegador_utc Ejemplo.azar_ej
           Ejemplo.lunes Ejemplo.calendario_ej 1).1.1.
Proof.
  set (r1 := Calendario.renderizarCalendarioSemanal Ejemplo.navegador_utc Ejemplo.azar_ej
               Ejemplo.lunes Ejemplo.calendario_ej 0).
  set (r2 := Calendario.renderizarCalendarioSemanal Ejemplo.navegador_utc Ejemplo.azar_ej
               Ejemplo.lunes Ejemplo.calendario_ej 1).
  assert (E1 : r1 = (r1.1.1, None, 1%nat)) by (vm_compute; reflexivity).
  assert (E2 : r2 = (r2.1.1, None, 2%nat)) by (vm_compute; reflexivity).
  destruct (calendar_render_deterministic_up_to_colour Ejemplo.navegador_utc
              Ejemplo.calendario_ej Ejemplo.lunes Ejemplo.azar_ej Ejemplo.azar_ej 0 1
              r1.1.1 r2.1.1 None None 1 2 E1 E2)
    as (_ & H & _).
  exact (H eq_refl eq_refl).
Defined.

(** C5 (as stated) fails: rendering the example page twice in a row, its
    calendar state untouched in between, paints the booked cell of Monday
    09:00 with a different colour class each time, so the two outputs are
    not identical. *)
Lemma calendar_rendered_twice_differs :
  let w1 := run App.renderizarCalendarioSemanal Ejemplo.mundo_ej in
  let w2 := run App.renderizarCalendarioSemanal w1 in
  calendarioState w1 = calendarioState Ejemplo.mundo_ej
  ∧ calendarioState w2 = calendarioState Ejemplo.mundo_ej
  ∧ calendario_semanal w1 !! 17%nat
    = Some (Calendario.NCelda "2025-11-24" "09"
              (Calendario.celda_ocupada "amarillo" Ejemplo.turno_reservado))
  ∧ calendario_semanal w2 !! 17%nat
    = Some (Calendario.NCelda "2025-11-24" "09"
              (Calendario.celda_ocupada "verde" Ejemplo.turno_reservado))
  ∧ calendario_semanal w1 ≠ calendario_semanal w2.
Proof.
  cbv zeta. split; [reflexivity |]. split; [reflexivity |].
  split; [vm_compute; reflexivity |]. split; [vm_compute; reflexivity |].
  intros H. apply (f_equal (λ l, l !! 17%nat)) in H. vm_compute in H. discriminate.
Qed.

(* ===================================================================== *)
(** ** Further properties of the client *)
(* ===================================================================== *)

Lemma orden_horas_ok_true : JS.orden_horas_ok = true.
Proof. vm_compute. reflexivity. Qed.

Lemma valor_time_orden (a b : Z) :
  0 ≤ a < 1440 → 0 ≤ b < 1440 →
  JS.str_ge (JS.valor_time a) (JS.valor_time b) = (b <=? a).
Proof.
  intros Ha Hb. pose proof orden_horas_ok_true as H. unfold JS.orden_horas_ok in H.
  cbv zeta in H. rewrite forallb_forall in H.
  assert (Hin : ∀ t, 0 ≤ t < 1440 →
                     In (t, JS.valor_time t)
                        (map (λ t, (t, JS.valor_time t)) (seqZ 0 1440))).
  { intros t Ht. apply in_map_iff. exists t. split; [reflexivity |].
    apply list_elem_of_In, elem_of_seqZ. lia. }
  specialize (H _ (Hin a Ha)). rewrite forallb_forall in H.
  specialize (H _ (Hin b Hb)). cbn in H. by apply eqb_prop.
Qed.

(** X1.  With the two time fields holding [HH:MM] values, the availability
    form is refused, nothing being sent, exactly when the start time is not
    before the end time; otherwise the row is sent. *)
Theorem availability_times_compare_as_minutes (w : World) (dia dur : option Z) (a b : Z) :
  0 ≤ a < 1440 → 0 ≤ b < 1440 →
  (b ≤ a →
     peticiones
       (run (Horarios.guardarDisponibilidad
               (mkDisponibilidadData dia (JS.valor_time a) (JS.valor_time b) dur)) w)
     = peticiones w)
  ∧ (a < b →
     ∃ rest,
       peticiones
         (run (Horarios.guardarDisponibilidad
                 (mkDisponibilidadData dia (JS.valor_time a) (JS.valor_time b) dur)) w)
       = peticiones w
         ++ (if modoEdicion (horariosState w)
             then Api.updateDisponibilidad (hs_medicoSeleccionado (horariosState w))
                    (itemEditando (horariosState w))
                    (mkDisponibilidadData dia (JS.valor_time a) (JS.valor_time b) dur)
             else Api.createDisponibilidad (hs_medicoSeleccionado (horariosState w))
                    (mkDisponibilidadData dia (JS.valor_time a) (JS.valor_time b) dur))
            :: rest).
Proof.
  intros Ha Hb. split; intros Hab.
  - rewrite guardarDisponibilidad_rechaza; [reflexivity |].
    cbn [hora_desde hora_hasta]. rewrite (valor_time_orden a b Ha Hb). by apply Z.leb_le.
  - apply guardarDisponibilidad_envia.
    cbn [hora_desde hora_hasta]. rewrite (valor_time_orden a b Ha Hb). apply Z.leb_gt. lia.
Qed.

(** From 11:00 to 09:00 nothing is sent. *)
Lemma availability_times_witness :
  peticiones
    (run (Horarios.guardarDisponibilidad
            (mkDisponibilidadData (Some 1) (JS.valor_time 660) (JS.valor_time 540) (Some 30)))
       Ejemplo.mundo_ej)
  = peticiones Ejemplo.mundo_ej.
Proof.
  apply (proj1 (availability_times_compare_as_minutes Ejemplo.mundo_ej (Some 1) (Some 30)
                  660 540 ltac:(lia) ltac:(lia))).
  lia.
Defined.

(** X2.  The seven days of the grid are consecutive, start on a Monday and
    include the day that lies [semanaActual] weeks after today. *)
Theorem week_shown_starts_on_monday (dia_hoy semana : Z) :
  ∃ lunes,
    Calendario.diasSemana dia_hoy semana
    = [lunes; lunes + 1; lunes + 2; lunes + 3; lunes + 4; lunes + 5; lunes + 6]
    ∧ Calendario.getDay lunes = 1
    ∧ lunes ≤ dia_hoy + semana * 7 ≤ lunes + 6.
Proof.
  unfold Calendario.diasSemana, Calendario.getDay.
  set (x := dia_hoy + semana * 7).
  exists (x + (if (x + 4) mod 7 =? 0 then -6 else 1 - (x + 4) mod 7)).
  split; [| split].
  - change (seqZ 0 7) with [0; 1; 2; 3; 4; 5; 6]. cbn [map].
    f_equal. lia.
  - destruct (Z.eqb_spec ((x + 4) mod 7) 0); Z.div_mod_to_equations; lia.
  - destruct (Z.eqb_spec ((x + 4) mod 7) 0); Z.div_mod_to_equations; lia.
Qed.

Section SinTurnos.

Import Calendario.

Context (nv : Navegador) (st : CalendarioState).
Hypothesis sin_turnos : turnosOcupados st = [].

Lemma crear_celda_sin_turnos (fecha hora : string) :
  ∃ c, ∀ azar k, crear_celda nv azar st fecha hora k = (Val c, k).
Proof.
  unfold crear_celda, buscarTurnoOcupado. rewrite sin_turnos. cbn [find_turno].
  destruct (horariosTodos st !! fecha) as [info |]; [destruct (bloqueado info) |];
    repeat case_match; eexists; intros; reflexivity.
Qed.

Lemma render_fila_sin_turnos (hora : string) (dias : list Z) :
  ∃ nodos, ∀ azar k, render_fila nv azar st hora dias k = (nodos, None, k).
Proof.
  induction dias as [| dia resto [ns IH]]; cbn [render_fila].
  - by exists [].
  - destruct (crear_celda_sin_turnos (isoFecha nv dia) hora) as [c Hc].
    exists (NCelda (isoFecha nv dia) hora c :: ns). intros azar k.
    by rewrite Hc, IH.
Qed.

Lemma render_filas_sin_turnos (horas : list string) (dias : list Z) :
  ∃ nodos, ∀ azar k, render_filas nv azar st horas dias k = (nodos, None, k).
Proof.
  induction horas as [| hora resto [ns IH]]; cbn [render_filas].
  - by exists [].
  - destruct (render_fila_sin_turnos hora dias) as [fila Hf].
    exists (HoraLabel (hora +:+ ":00") :: fila ++ ns). intros azar k.
    by rewrite Hf, IH.
Qed.

End SinTurnos.

(** X3.  While no booked appointment is loaded into the calendar state, the
    rendering draws no random number, always completes, and its output is
    the same whatever the random source: a function of the calendar state
    and of today's date alone. *)
Theorem calendar_without_bookings_renders_identically (nv : Navegador)
    (st : CalendarioState) (dia_hoy : Z) :
  turnosOcupados st = [] →
  ∃ nodos,
    ∀ azar k,
      Calendario.renderizarCalendarioSemanal nv azar dia_hoy st k = (nodos, None, k).
Proof.
  intros H. unfold Calendario.renderizarCalendarioSemanal. cbv zeta.
  destruct (render_filas_sin_turnos nv st H Calendario.horasDelDia
              (Calendario.diasSemana dia_hoy (semanaActual st))) as [ns Hns].
  eexists. intros azar k. rewrite Hns. reflexivity.
Qed.

(** The example calendar with its booked appointment removed. *)
Lemma calendar_without_bookings_witness :
  ∃ nodos,
    ∀ azar k,
      Calendario.renderizarCalendarioSemanal Ejemplo.navegador_utc azar Ejemplo.lunes
        (App.set_turnosOcupados [] Ejemplo.calendario_ej) k
      = (nodos, None, k).
Proof.
  apply (calendar_without_bookings_renders_identically Ejemplo.navegador_utc
           (App.set_turnosOcupados [] Ejemplo.calendario_ej) Ejemplo.lunes).
  reflexivity.
Defined.

(* ===================================================================== *)
(** ** The pagination bar of the appointment list *)
(* ===================================================================== *)
Lemma ventana_paginas_cotas (page total_pages : Z) :
  1 ≤ page ≤ total_pages →
  1 ≤ (App.ventana_paginas page total_pages).1
  ∧ (App.ventana_paginas page total_pages).1 ≤ page
  ∧ page ≤ (App.ventana_paginas page total_pages).2
  ∧ (App.ventana_paginas page total_pages).2 ≤ total_pages
  ∧ (App.ventana_paginas page total_pages).2 - (App.ventana_paginas page total_pages).1 + 1
    = Z.min 5 total_pages.
Proof.
  intros H. unfold App.ventana_paginas. cbv zeta.
  change (5 / 2) with 2. change (5 - 1) with 4.
  destruct (Z.ltb_spec (Z.min total_pages (Z.max 1 (page - 2) + 5 - 1) - Z.max 1 (page - 2)) 4);
    cbn [fst snd]; lia.
Qed.

Lemma seqZ_creciente (m n : Z) : StronglySorted Z.lt (seqZ m n).
Proof.
  unfold seqZ.
  apply (StronglySorted_fmap _ lt); [intros x y Hxy; lia |].
  generalize (Z.to_nat n) as len. generalize 0%nat as a.
  intros a len. revert a. induction len as [| len IH]; intros a; cbn.
  - constructor.
  - constructor; [apply IH |].
    apply Forall_forall. intros x Hx. apply elem_of_seq in Hx. lia.
Qed.

Lemma last_seqZ (m n : Z) : 0 < n → last (seqZ m n) = Some (m + n - 1).
Proof. intros H. rewrite last_lookup, length_seqZ. apply lookup_seqZ. lia. Qed.

Lemma numerados_numeros (page : Z) (l : list Z) :
  App.numerados (map (λ i, App.PagNumero i (i =? page)) l) = map (λ i, (i, i =? page)) l.
Proof.
  induction l as [| x l IH]; [reflexivity |].
  change (map ?f (x :: l)) with ([f x] ++ map f l).
  unfold App.numerados in *. rewrite omap_app, IH. reflexivity.
Qed.

(** The numbered buttons of a pagination bar: page 1 when the window
    starts after it, the window, and the last page when the window ends
    before it. *)
Lemma numerados_renderizarPaginacion (data : App.PaginaInfo) :
  1 < App.pg_total_pages data →
  App.numerados (App.renderizarPaginacion data)
  = (if 1 <? (App.ventana_paginas (App.pg_page data) (App.pg_total_pages data)).1
     then [(1, false)] else [])
    ++ map (λ i, (i, i =? App.pg_page data))
         (seqZ (App.ventana_paginas (App.pg_page data) (App.pg_total_pages data)).1
            ((App.ventana_paginas (App.pg_page data) (App.pg_total_pages data)).2
             - (App.ventana_paginas (App.pg_page data) (App.pg_total_pages data)).1 + 1))
    ++ (if (App.ventana_paginas (App.pg_page data) (App.pg_total_pages data)).2
           <? App.pg_total_pages data
        then [(App.pg_total_pages data, false)] else []).
Proof.
  intros Ht. unfold App.renderizarPaginacion.
  destruct (Z.leb_spec (App.pg_total_pages data) 1) as [? | _]; [lia |].
  destruct (App.ventana_paginas _ _) as [s e]. cbn [fst snd].
  unfold App.numerados. rewrite !omap_app.
  fold (App.numerados (map (λ i, App.PagNumero i (i =? App.pg_page data))
                         (seqZ s (e - s + 1)))).
  rewrite numerados_numeros.
  destruct (1 <? s), (2 <? s), (e <? App.pg_total_pages data),
    (e <? App.pg_total_pages data - 1); reflexivity.
Qed.


(** X4.  For a current page between 1 and the number of pages, the
    window of numbered buttons of the pagination bar lies within the pages
    that exist, contains the current page, and spans five pages, or all of
    them when there are fewer than five. *)
Theorem pagination_window_contains_current_page (page total_pages : Z) :
  1 ≤ page ≤ total_pages →
  1 ≤ (App.ventana_paginas page total_pages).1
  ∧ (App.ventana_paginas page total_pages).1 ≤ page
  ∧ page ≤ (App.ventana_paginas page total_pages).2
  ∧ (App.ventana_paginas page total_pages).2 ≤ total_pages
  ∧ (App.ventana_paginas page total_pages).2 - (App.ventana_paginas page total_pages).1 + 1
    = Z.min 5 total_pages.
Proof. apply ventana_paginas_cotas. Qed.

(** On page 7 of 20 the window is pages 5 to 9. *)
Lemma pagination_window_witness :
  1 ≤ (App.ventana_paginas 7 20).1
  ∧ (App.ventana_paginas 7 20).1 ≤ 7
  ∧ 7 ≤ (App.ventana_paginas 7 20).2
  ∧ (App.ventana_paginas 7 20).2 ≤ 20
  ∧ (App.ventana_paginas 7 20).2 - (App.ventana_paginas 7 20).1 + 1 = Z.min 5 20.
Proof. apply (pagination_window_contains_current_page 7 20). lia. Defined.

(** X5.  The numbered buttons of the pagination bar carry strictly
    increasing page numbers; a button is marked active exactly when it is
    the current page; and when there is more than one page the first
    button is page 1, the last one the last page, and the current page is
    among them. *)
Theorem pagination_numbers_run_from_first_to_last (data : App.PaginaInfo) :
  1 ≤ App.pg_page data ≤ App.pg_total_pages data →
  StronglySorted Z.lt (App.numerados (App.renderizarPaginacion data)).*1
  ∧ (∀ p a, (p, a) ∈ App.numerados (App.renderizarPaginacion data) →
            a = true ↔ p = App.pg_page data)
  ∧ (1 < App.pg_total_pages data →
     head (App.numerados (App.renderizarPaginacion data)).*1 = Some 1
     ∧ last (App.numerados (App.renderizarPaginacion data)).*1
       = Some (App.pg_total_pages data)
     ∧ (App.pg_page data, true) ∈ App.numerados (App.renderizarPaginacion data)).
Proof.
  intros Hp.
  destruct (ventana_paginas_cotas _ _ Hp) as (H1 & H2 & H3 & H4 & H5).
  destruct (Z.le_gt_cases (App.pg_total_pages data) 1) as [Ht | Ht].
  { unfold App.renderizarPaginacion.
    destruct (Z.leb_spec (App.pg_total_pages data) 1) as [_ | ?]; [| lia].
    cbn. split; [constructor |]. split; [| intros; lia].
    intros p a H. by apply elem_of_nil in H. }
  rewrite (numerados_renderizarPaginacion data Ht).
  destruct (App.ventana_paginas _ _) as [s e]. cbn [fst snd] in *.
  set (page := App.pg_page data) in *. set (total := App.pg_total_pages data) in *.
  split; [| split].
  - rewrite !fmap_app, <- list_fmap_compose.
    rewrite (list_fmap_ext _ id (seqZ s (e - s + 1))) by done. rewrite list_fmap_id.
    assert (Hini : ∀ x, x ∈ (if 1 <? s then [(1, false)] else []).*1 → x = 1 ∧ 1 < s).
    { intros x Hx. destruct (Z.ltb_spec 1 s); cbn in Hx; [| by apply elem_of_nil in Hx].
      apply list_elem_of_singleton in Hx as ->. done. }
    assert (Hfin : ∀ x, x ∈ (if e <? total then [(total, false)] else []).*1
                        → x = total ∧ e < total).
    { intros x Hx. destruct (Z.ltb_spec e total); cbn in Hx; [| by apply elem_of_nil in Hx].
      apply list_elem_of_singleton in Hx as ->. done. }
    apply StronglySorted_app_2; [| | apply StronglySorted_app_2].
    + intros x y [-> Hx]%Hini Hy.
      apply elem_of_app in Hy as [Hy%elem_of_seqZ | [-> Hy]%Hfin]; lia.
    + destruct (1 <? s); cbn; repeat constructor.
    + intros x y Hx%elem_of_seqZ [-> Hy]%Hfin. lia.
    + apply seqZ_creciente.
    + destruct (e <? total); cbn; repeat constructor.
  - intros p a Hin.
    apply elem_of_app in Hin as [Hin | Hin]; [| apply elem_of_app in Hin as [Hin | Hin]].
    + destruct (Z.ltb_spec 1 s); [| by apply elem_of_nil in Hin].
      apply list_elem_of_singleton in Hin as [= -> ->]. split; [discriminate | lia].
    + apply list_elem_of_In, in_map_iff in Hin as (i & [= <- <-] & Hi). apply Z.eqb_eq.
    + destruct (Z.ltb_spec e total); [| by apply elem_of_nil in Hin].
      apply list_elem_of_singleton in Hin as [= -> ->]. split; [discriminate | lia].
  - intros _. split; [| split].
    + destruct (Z.ltb_spec 1 s); [reflexivity |].
      assert (s = 1) as -> by lia.
      rewrite seqZ_cons by lia. reflexivity.
    + rewrite !fmap_app, <- list_fmap_compose.
      rewrite (list_fmap_ext _ id (seqZ s (e - s + 1))) by done. rewrite list_fmap_id.
      rewrite !last_app.
      destruct (Z.ltb_spec e total); [reflexivity |]. cbn [fmap list_fmap last].
      rewrite last_seqZ by lia. f_equal. lia.
    + apply elem_of_app. right. apply elem_of_app. left.
      apply list_elem_of_In, in_map_iff. exists page. split; [by rewrite Z.eqb_refl |].
      apply list_elem_of_In, elem_of_seqZ. lia.
Qed.

(** On page 7 of 20 the numbered buttons are 1, 5 to 9 and 20. *)
Lemma pagination_numbers_witness :
  StronglySorted Z.lt
    (App.numerados (App.renderizarPaginacion Ejemplo.pagina_ej)).*1
  ∧ (∀ p a, (p, a) ∈ App.numerados (App.renderizarPaginacion Ejemplo.pagina_ej) →
            a = true ↔ p = 7)
  ∧ (1 < 20 →
     head (App.numerados (App.renderizarPaginacion Ejemplo.pagina_ej)).*1 = Some 1
     ∧ last (App.numerados (App.renderizarPaginacion Ejemplo.pagina_ej)).*1 = Some 20
     ∧ (7, true) ∈ App.numerados (App.renderizarPaginacion Ejemplo.pagina_ej)).
Proof.
  apply (pagination_numbers_run_from_first_to_last Ejemplo.pagina_ej). cbn. lia.
Defined.

(* ===================================================================== *)
(** ** Sorted lists *)
(* ===================================================================== *)

Section OrdenFacts.

Context {A : Type} (cmp : A → A → Z).

Lemma insertar_perm (x : A) (l : list A) : Orden.insertar cmp x l ≡ₚ x :: l.
Proof.
  induction l as [| y r IH]; cbn; [reflexivity |].
  destruct (cmp x y <=? 0); [reflexivity |].
  rewrite IH. apply Permutation_swap.
Qed.

Lemma ordenar_perm (l : list A) : Orden.ordenar cmp l ≡ₚ l.
Proof.
  induction l as [| x l IH]; cbn; [reflexivity |].
  fold (Orden.ordenar cmp l). by rewrite insertar_perm, IH.
Qed.

(** Where the comparator orders by a key, sorting yields a list ordered
    by that key. *)
Context (clave : A → Z).

Lemma insertar_ordenada (x : A) (l : list A) :
  (∀ y, y ∈ l → cmp x y ≤ 0 ↔ clave x ≤ clave y) →
  StronglySorted (λ a b, clave a ≤ clave b) l →
  StronglySorted (λ a b, clave a ≤ clave b) (Orden.insertar cmp x l).
Proof.
  induction l as [| y r IH]; intros Hc Hs; cbn.
  - repeat constructor.
  - apply StronglySorted_inv in Hs as [Hr Hy].
    assert (Hxy : cmp x y ≤ 0 ↔ clave x ≤ clave y) by (apply Hc; left).
    destruct (Z.leb_spec (cmp x y) 0) as [Hle | Hgt].
    + constructor; [by constructor |].
      constructor; [tauto |].
      eapply Forall_impl; [exact Hy |]. cbn. intros z Hz. lia.
    + constructor.
      * apply IH; [| exact Hr]. intros z Hz. apply Hc. by right.
      * rewrite insertar_perm. constructor; [lia | exact Hy].
Qed.

Lemma ordenar_ordenada (l : list A) :
  (∀ a b, a ∈ l → b ∈ l → cmp a b ≤ 0 ↔ clave a ≤ clave b) →
  StronglySorted (λ a b, clave a ≤ clave b) (Orden.ordenar cmp l).
Proof.
  induction l as [| x l IH]; intros Hc; cbn.
  - constructor.
  - fold (Orden.ordenar cmp l). apply insertar_ordenada.
    + intros y Hy. rewrite ordenar_perm in Hy. apply Hc; [left | by right].
    + apply IH. intros a b Ha Hb. apply Hc; by right.
Qed.

End OrdenFacts.

Lemma StronglySorted_mono {A} (R S : relation A) (l : list A) :
  (∀ a b, a ∈ l → b ∈ l → R a b → S a b) →
  StronglySorted R l → StronglySorted S l.
Proof.
  induction l as [| x l IH]; intros H Hs; [constructor |].
  apply StronglySorted_inv in Hs as [Hl Hx]. constructor.
  - apply IH; [| exact Hl]. intros a b Ha Hb. apply H; by right.
  - rewrite Forall_forall in Hx. apply Forall_forall. intros y Hy.
    apply H; [left | by right | by apply Hx].
Qed.

Lemma App_ordenar_generico (cmp : Turno → Turno → Z) (l : list Turno) :
  App.ordenar cmp l = Orden.ordenar cmp l.
Proof.
  unfold App.ordenar, Orden.ordenar. induction l as [| x l IH]; cbn; [reflexivity |].
  rewrite IH. generalize (foldr (Orden.insertar cmp) [] l) as r.
  induction r as [| y r IHr]; cbn; [reflexivity |]. by rewrite IHr.
Qed.

(** X7.  The cards of [mostrarTurnosList] show each appointment of the
    reply exactly once, whatever its date; and when every [fecha_hora]
    parses as a date, they are ordered from the most recent appointment to
    the oldest. *)
Theorem appointment_cards_most_recent_first (w : World) (turnos : list Turno) :
  ∃ ordenados,
    turnos_mostrados (run (App.mostrarTurnosList turnos) w)
    = map App.tarjeta_turno ordenados
    ∧ ordenados ≡ₚ turnos
    ∧ ((∀ t, t ∈ turnos → is_Some (Date_parse (nav w) (fecha_hora t))) →
       StronglySorted
         (λ a b, ∀ ta tb,
            Date_parse (nav w) (fecha_hora a) = Some ta →
            Date_parse (nav w) (fecha_hora b) = Some tb → tb ≤ ta)
         ordenados).
Proof.
  exists (Orden.ordenar (App.mas_reciente (nav w)) turnos). split; [| split].
  - rewrite <- App_ordenar_generico. reflexivity.
  - apply ordenar_perm.
  - intros Hv.
    apply (StronglySorted_mono
             (λ a b, - default 0 (Date_parse (nav w) (fecha_hora a))
                     ≤ - default 0 (Date_parse (nav w) (fecha_hora b)))).
    + intros a b _ _ H ta tb Ea Eb. rewrite Ea, Eb in H. cbn in H. lia.
    + apply (ordenar_ordenada _ (λ t, - default 0 (Date_parse (nav w) (fecha_hora t)))).
      intros a b [ta Ea]%Hv [tb Eb]%Hv. unfold App.mas_reciente.
      rewrite Ea, Eb. cbn. lia.
Qed.

(** The two appointments of the example, listed oldest first, are shown
    most recent first. *)
Lemma appointment_cards_witness :
  ∃ ordenados,
    turnos_mostrados
      (run (App.mostrarTurnosList Ejemplo.turnos_desordenados) Ejemplo.mundo_ej)
    = map App.tarjeta_turno ordenados
    ∧ ordenados ≡ₚ Ejemplo.turnos_desordenados
    ∧ StronglySorted
        (λ a b, ∀ ta tb,
           Date_parse Ejemplo.navegador_utc (fecha_hora a) = Some ta →
           Date_parse Ejemplo.navegador_utc (fecha_hora b) = Some tb → tb ≤ ta)
        ordenados.
Proof.
  destruct (appointment_cards_most_recent_first Ejemplo.mundo_ej
              Ejemplo.turnos_desordenados) as (ordenados & H1 & H2 & H3).
  exists ordenados. split; [exact H1 |]. split; [exact H2 |].
  apply H3. intros t Ht.
  apply elem_of_cons in Ht as [-> | Ht]; [vm_compute; eauto |].
  apply elem_of_cons in Ht as [-> | Ht]; [vm_compute; eauto |].
  by apply elem_of_nil in Ht.
Defined.

(** X16.  [renderBloqueos] lists every block of the physician exactly
    once, ordered by start date when the start dates parse.  For a block
    that does not end before it starts, the edit and delete buttons are
    offered exactly while the block has not ended at the time it is
    rendered, and the block is shown as finished ("pasado") exactly when it
    has ended. *)
Theorem finished_blocks_carry_no_actions (nv : Navegador) (reloj : nat → Z)
    (h : HorariosState) :
  bloqueos h ≠ [] →
  ∃ ordenados,
    Horarios.renderBloqueos nv reloj h
    = Horarios.ListaBloqueos
        (imap (λ k bloqueo, Horarios.item_bloqueo nv (reloj k) bloqueo) ordenados)
    ∧ ordenados ≡ₚ bloqueos h
    ∧ ((∀ b, b ∈ bloqueos h → is_Some (Date_parse nv (bloqueo_inicio b))) →
       StronglySorted
         (λ a b, ∀ ta tb,
            Date_parse nv (bloqueo_inicio a) = Some ta →
            Date_parse nv (bloqueo_inicio b) = Some tb → ta ≤ tb)
         ordenados)
    ∧ (∀ k b ti tf,
         ordenados !! k = Some b →
         Date_parse nv (bloqueo_inicio b) = Some ti →
         Date_parse nv (bloqueo_fin b) = Some tf →
         ti ≤ tf →
         (Horarios.bi_acciones (Horarios.item_bloqueo nv (reloj k) b) = true
          ↔ reloj k ≤ tf)
         ∧ (Horarios.bi_estadoClase (Horarios.item_bloqueo nv (reloj k) b) = "pasado"
            ↔ tf < reloj k)).
Proof.
  intros Hne. exists (Orden.ordenar (Horarios.por_inicio nv) (bloqueos h)).
  split; [| split; [| split]].
  - unfold Horarios.renderBloqueos. destruct (bloqueos h); [done | reflexivity].
  - apply ordenar_perm.
  - intros Hv.
    apply (StronglySorted_mono
             (λ a b, default 0 (Date_parse nv (bloqueo_inicio a))
                     ≤ default 0 (Date_parse nv (bloqueo_inicio b)))).
    + intros a b _ _ H ta tb Ea Eb. rewrite Ea, Eb in H. cbn in H. lia.
    + apply (ordenar_ordenada _ (λ b, default 0 (Date_parse nv (bloqueo_inicio b)))).
      intros a b [ta Ea]%Hv [tb Eb]%Hv. unfold Horarios.por_inicio.
      rewrite Ea, Eb. cbn. lia.
  - intros k b ti tf _ Ei Ef Hle. unfold Horarios.item_bloqueo.
    rewrite Ei, Ef. cbn [JS.num_le JS.num_ge JS.num_gt].
    destruct (Z.leb_spec ti (reloj k)), (Z.leb_spec (reloj k) tf), (Z.ltb_spec (reloj k) ti);
      cbn; split; split; intros; try done; try lia.
Qed.

(** At noon of 24 November 2025 the block of October is finished and has
    no buttons; the block of December is listed after it with its
    buttons. *)
Lemma finished_blocks_witness :
  Horarios.renderBloqueos Ejemplo.navegador_utc (λ _, Ejemplo.mediodia) Ejemplo.horarios_ej
  = Horarios.ListaBloqueos
      [Horarios.mkBloqueoItem 8 "pasado" "Finalizado" false;
       Horarios.mkBloqueoItem 9 "futuro" "Programado" true]
  ∧ ∃ ordenados,
      Horarios.renderBloqueos Ejemplo.navegador_utc (λ _, Ejemplo.mediodia)
        Ejemplo.horarios_ej
      = Horarios.ListaBloqueos
          (imap (λ k bloqueo,
                   Horarios.item_bloqueo Ejemplo.navegador_utc Ejemplo.mediodia bloqueo)
                ordenados)
      ∧ ordenados ≡ₚ bloqueos Ejemplo.horarios_ej.
Proof.
  split; [vm_compute; reflexivity |].
  destruct (finished_blocks_carry_no_actions Ejemplo.navegador_utc
              (λ _, Ejemplo.mediodia) Ejemplo.horarios_ej)
    as (ordenados & H1 & H2 & _); [discriminate |].
  exists ordenados. split; [exact H1 | exact H2].
Defined.

(* ===================================================================== *)
(** ** The weekly grid of availability rows *)
(* ===================================================================== *)

(** What [porDia] holds under a key once the rows have been pushed: the
    rows of that day, in the order of the list. *)
Lemma agrupar_por_dia_lookup (l : list Disponibilidad) (k : option Z) :
  default [] (Horarios.agrupar_por_dia l !! k)
  = filter (λ d, dia_semana (disp_data d) = k) l.
Proof.
  unfold Horarios.agrupar_por_dia.
  enough (H : ∀ acc : gmap (option Z) (list Disponibilidad),
            default [] (foldl (λ porDia disp,
                                 <[dia_semana (disp_data disp) :=
                                     default [] (porDia !! dia_semana (disp_data disp))
                                     ++ [disp]]> porDia) acc l !! k)
            = default [] (acc !! k) ++ filter (λ d, dia_semana (disp_data d) = k) l).
  { rewrite H. by rewrite lookup_empty. }
  induction l as [| x l IH]; intros acc; cbn [foldl].
  - by rewrite app_nil_r.
  - rewrite IH, filter_cons.
    destruct (decide (dia_semana (disp_data x) = k)) as [<- | Hne].
    + rewrite lookup_insert_eq. cbn. by rewrite <- app_assoc.
    + by rewrite lookup_insert_ne.
Qed.

(** X15.  When the physician has availability rows, the weekly grid has
    the seven days 0 (Sunday) to 6 (Saturday) in order; under each day it
    lists exactly the rows whose [dia_semana] is that day, in the order of
    the reply, and the day is marked active exactly when it lists a row.  A
    row is shown (once) when its [dia_semana] is one of 0 to 6; a row with
    any other [dia_semana] is not shown at all. *)
Theorem weekly_grid_lists_each_row_under_its_day (h : HorariosState) :
  disponibilidades h ≠ [] →
  ∃ dias,
    Horarios.renderDisponibilidades h = Horarios.HorariosSemanales dias
    ∧ map Horarios.dh_dia dias = [0; 1; 2; 3; 4; 5; 6]
    ∧ (∀ dh, dh ∈ dias →
         Horarios.dh_items dh
         = filter (λ d, dia_semana (disp_data d) = Some (Horarios.dh_dia dh))
             (disponibilidades h)
         ∧ (Horarios.dh_clase dh = "activo" ↔ Horarios.dh_items dh ≠ []))
    ∧ (∀ d, d ∈ disponibilidades h →
         (∃ dh, dh ∈ dias ∧ d ∈ Horarios.dh_items dh)
         ↔ ∃ z, dia_semana (disp_data d) = Some z ∧ 0 ≤ z < 7).
Proof.
  intros Hne. unfold Horarios.renderDisponibilidades.
  destruct (disponibilidades h) as [| d0 l0] eqn:El; [done |].
  change (length (d0 :: l0) =? 0)%nat with false. cbv iota.
  set (l := d0 :: l0) in *.
  eexists. split; [reflexivity |].
  assert (Hdia : ∀ dh,
            dh ∈ map (λ dia,
                        Horarios.mkDiaHorario dia
                          (if (0 <? length (default [] (Horarios.agrupar_por_dia l !! Some dia)))%nat
                           then "activo" else "inactivo")
                          (default "undefined" (Calendario.indice Horarios.DIAS_SEMANA dia))
                          (default [] (Horarios.agrupar_por_dia l !! Some dia)))
                   (seqZ 0 7) →
            0 ≤ Horarios.dh_dia dh < 7
            ∧ Horarios.dh_items dh
              = filter (λ d, dia_semana (disp_data d) = Some (Horarios.dh_dia dh)) l
            ∧ (Horarios.dh_clase dh = "activo" ↔ Horarios.dh_items dh ≠ [])).
  { intros dh Hdh.
    apply list_elem_of_In, in_map_iff in Hdh as (dia & <- & Hd%list_elem_of_In%elem_of_seqZ).
    cbn [Horarios.dh_dia Horarios.dh_items Horarios.dh_clase].
    split; [lia |]. split; [apply agrupar_por_dia_lookup |].
    destruct (default [] (Horarios.agrupar_por_dia l !! Some dia)); cbn; split; done. }
  split; [| split].
  - rewrite map_map. cbn [Horarios.dh_dia]. rewrite map_id. reflexivity.
  - intros dh Hdh. destruct (Hdia dh Hdh) as (_ & H1 & H2). by split.
  - intros d Hd. split.
    + intros (dh & Hdh & Hin). destruct (Hdia dh Hdh) as (Hr & H1 & _).
      rewrite H1 in Hin. apply list_elem_of_filter in Hin as [Hk _].
      exists (Horarios.dh_dia dh). by split.
    + intros (z & Hz & Hr).
      eexists. split.
      * apply list_elem_of_In, in_map_iff. exists z. split; [reflexivity |].
        apply list_elem_of_In, elem_of_seqZ. lia.
      * cbn [Horarios.dh_items]. rewrite agrupar_por_dia_lookup.
        apply list_elem_of_filter. by split.
Qed.

(** Of the two rows of the example, the Monday one is listed under day 1
    and the one whose day is 9 is not listed under any day. *)
Lemma weekly_grid_witness :
  ∃ dias,
    Horarios.renderDisponibilidades Ejemplo.horarios_ej = Horarios.HorariosSemanales dias
    ∧ map Horarios.dh_dia dias = [0; 1; 2; 3; 4; 5; 6]
    ∧ ((∃ dh, dh ∈ dias ∧ Ejemplo.disponibilidad_ej ∈ Horarios.dh_items dh)
       ↔ ∃ z, dia_semana (disp_data Ejemplo.disponibilidad_ej) = Some z ∧ 0 ≤ z < 7)
    ∧ ((∃ dh, dh ∈ dias ∧ Ejemplo.disponibilidad_rara ∈ Horarios.dh_items dh)
       ↔ ∃ z, dia_semana (disp_data Ejemplo.disponibilidad_rara) = Some z ∧ 0 ≤ z < 7).
Proof.
  destruct (weekly_grid_lists_each_row_under_its_day Ejemplo.horarios_ej)
    as (dias & H1 & H2 & _ & H4); [discriminate |].
  exists dias. split; [exact H1 |]. split; [exact H2 |]. split.
  - apply H4. left.
  - apply H4. right. left.
Defined.

(** One step of the symbolic run of a handler: the primitives are
    unfolded and the fields of the updated world are read. *)
Ltac mundo_paso :=
  cbn [showLoading hideLoading showToast modify mret M_ret deref throw dom_set
       set_appState set_calendarioState set_misTurnosState set_horariosState
       set_documento set_turnos_mostrados set_calendario_semanal set_peticiones
       set_toasts set_loading set_n_azar
       appState calendarioState misTurnosState horariosState documento
       turnos_mostrados calendario_semanal peticiones toasts loading n_azar
       servidor responde_confirm nav hoy azar fst snd negb].

(* ===================================================================== *)
(** ** Slots offered by the weekly calendar *)
(* ===================================================================== *)

Lemma find_primero {A} (P : A → bool) (l : list A) (x : A) :
  List.find P l = Some x →
  ∃ antes despues, l = antes ++ x :: despues ∧ P x = true ∧ ∀ y, y ∈ antes → P y = false.
Proof.
  induction l as [| a l IH]; cbn; [discriminate |].
  destruct (P a) eqn:Ea.
  - intros [= ->]. exists [], l. repeat split; [exact Ea |].
    intros y Hy. by apply elem_of_nil in Hy.
  - intros (antes & despues & -> & Hx & Hantes)%IH.
    exists (a :: antes), despues. repeat split; [exact Hx |].
    intros y [-> | Hy]%elem_of_cons; [exact Ea | by apply Hantes].
Qed.

Lemma find_ninguno {A} (P : A → bool) (l : list A) :
  List.find P l = None → ∀ y, y ∈ l → P y = false.
Proof.
  intros H y Hy. apply list_elem_of_In in Hy. exact (find_none P l H y Hy).
Qed.

Lemma buscarHorarioDisponible_algun (st : CalendarioState) (fecha hora h : string) :
  Calendario.buscarHorarioDisponible st fecha hora = Some h →
  ∃ info hs antes despues,
    horariosTodos st !! fecha = Some info
    ∧ bloqueado info = false
    ∧ horarios info = Some hs
    ∧ hs = antes ++ h :: despues
    ∧ JS.substring 11 13 h = hora
    ∧ ∀ x, x ∈ antes → JS.substring 11 13 x ≠ hora.
Proof.
  unfold Calendario.buscarHorarioDisponible.
  destruct (horariosTodos st !! fecha) as [info |]; [| discriminate].
  destruct (bloqueado info) eqn:Eb; [discriminate |].
  destruct (horarios info) as [hs |] eqn:Eh; cbn; [| discriminate].
  intros (antes & despues & -> & Hx & Hantes)%find_primero.
  exists info, (antes ++ h :: despues), antes, despues.
  repeat split; try done; [by apply String.eqb_eq |].
  intros x Hx'%Hantes. by apply String.eqb_neq.
Qed.

(** X8.  When [buscarHorarioDisponible] answers a slot for a date and an
    hour, the date has a calendar entry that is not blocked and the slot is
    the first one of its list whose hour (characters 11 to 13) is the hour
    asked.  When it answers none, the date has no entry, or the entry is
    blocked, or no slot of its list falls in that hour. *)
Theorem slot_lookup_answers_first_slot_of_the_hour (st : CalendarioState)
    (fecha hora : string) :
  match Calendario.buscarHorarioDisponible st fecha hora with
  | Some h =>
      ∃ info hs antes despues,
        horariosTodos st !! fecha = Some info
        ∧ bloqueado info = false
        ∧ horarios info = Some hs
        ∧ hs = antes ++ h :: despues
        ∧ JS.substring 11 13 h = hora
        ∧ ∀ x, x ∈ antes → JS.substring 11 13 x ≠ hora
  | None =>
      ∀ info,
        horariosTodos st !! fecha = Some info →
        bloqueado info = true
        ∨ ∀ x, x ∈ default [] (horarios info) → JS.substring 11 13 x ≠ hora
  end.
Proof.
  destruct (Calendario.buscarHorarioDisponible st fecha hora) as [h |] eqn:E.
  - by apply buscarHorarioDisponible_algun.
  - intros info Hi. revert E. unfold Calendario.buscarHorarioDisponible. rewrite Hi.
    destruct (bloqueado info); [by left |]. intros E. right.
    intros x Hx. apply String.eqb_neq. by apply (find_ninguno _ _ E).
Qed.

(** A cell that carries the click listener is the available cell of the
    slot the lookup answered, built while no booked appointment was found
    for its date and hour. *)
Lemma crear_celda_seleccionable (nv : Navegador) (azar : nat → Q) (st : CalendarioState)
    (fecha hora : string) (k k' : nat) (c : Calendario.Celda) (h : string) :
  Calendario.crear_celda nv azar st fecha hora k = (Val c, k') →
  Calendario.onclick c = Some h →
  Calendario.buscarHorarioDisponible st fecha hora = Some h
  ∧ Calendario.buscarTurnoOcupado nv st fecha hora = Val None
  ∧ c = Calendario.celda_disponible h
  ∧ h ≠ "".
Proof.
  unfold Calendario.crear_celda.
  destruct (Calendario.buscarTurnoOcupado nv st fecha hora) as [[t |] | e];
    [| | discriminate].
  - destruct (horariosTodos st !! fecha) as [info |]; [destruct (bloqueado info) |];
      repeat case_match; intros [= <- <-]; discriminate.
  - destruct (horariosTodos st !! fecha) as [info |]; [destruct (bloqueado info) |];
      (destruct (Calendario.buscarHorarioDisponible st fecha hora) as [h' |];
       [destruct h' as [| a r] |]);
      cbn; intros [= <- <-]; try discriminate; intros [= <-]; done.
Qed.

(** X9.  Every cell of the rendered week that can be clicked stands for a
    day of the week shown and an hour of the grid, and the slot its click
    stores is the first slot of that hour which the calendar entry of that
    date lists; the date is not blocked and no booked appointment was found
    for that date and hour.  So a slot the reply does not list is never
    offered, and of several listed slots within one hour only the first
    is. *)
Theorem calendar_offers_only_free_listed_slots (nv : Navegador) (azar : nat → Q)
    (dia_hoy : Z) (st : CalendarioState) (k : nat) (nodos : list Calendario.Nodo)
    (err : option string) (k' : nat) :
  Calendario.renderizarCalendarioSemanal nv azar dia_hoy st k = (nodos, err, k') →
  ∀ fecha hora c h,
    Calendario.NCelda fecha hora c ∈ nodos →
    Calendario.onclick c = Some h →
    (∃ dia, dia ∈ Calendario.diasSemana dia_hoy (semanaActual st) ∧ fecha = isoFecha nv dia)
    ∧ hora ∈ Calendario.horasDelDia
    ∧ c = Calendario.celda_disponible h
    ∧ Calendario.buscarTurnoOcupado nv st fecha hora = Val None
    ∧ ∃ info hs antes despues,
        horariosTodos st !! fecha = Some info
        ∧ bloqueado info = false
        ∧ horarios info = Some hs
        ∧ hs = antes ++ h :: despues
        ∧ JS.substring 11 13 h = hora
        ∧ ∀ x, x ∈ antes → JS.substring 11 13 x ≠ hora.
Proof.
  unfold Calendario.renderizarCalendarioSemanal. cbv zeta.
  remember (Calendario.diasSemana dia_hoy (semanaActual st)) as dias eqn:Ed.
  remember (Calendario.encabezados dia_hoy dias) as enc eqn:Ee.
  destruct (Calendario.render_filas nv azar st Calendario.horasDelDia dias k)
    as [[ns er] k1] eqn:E.
  intros [= <- <- <-] fecha hora c h Hin Hc.
  apply elem_of_app in Hin as [Hin | Hin].
  { subst enc. by apply encabezados_sin_celdas in Hin. }
  destruct (render_filas_celdas nv st azar _ _ _ _ _ _ E _ _ _ Hin)
    as (dia & k0 & k2 & -> & Hd & Hh & Hcel).
  destruct (crear_celda_seleccionable _ _ _ _ _ _ _ _ _ Hcel Hc) as (Hb & Ht & -> & _).
  split; [by exists dia |]. split; [exact Hh |]. split; [reflexivity |].
  split; [exact Ht |]. by apply buscarHorarioDisponible_algun.
Qed.

(** On the example page the cell of Monday 24 November at 08 offers the
    slot 08:00, the first of the two slots listed for that hour. *)
Lemma calendar_offers_witness :
  (∃ dia,
     dia ∈ Calendario.diasSemana Ejemplo.lunes (semanaActual Ejemplo.calendario_ej)
     ∧ "2025-11-24" = isoFecha Ejemplo.navegador_utc dia)
  ∧ "08" ∈ Calendario.horasDelDia
  ∧ Calendario.celda_disponible "2025-11-24T08:00:00"
    = Calendario.celda_disponible "2025-11-24T08:00:00"
  ∧ Calendario.buscarTurnoOcupado Ejemplo.navegador_utc Ejemplo.calendario_ej
      "2025-11-24" "08" = Val None
  ∧ ∃ info hs antes despues,
      horariosTodos Ejemplo.calendario_ej !! "2025-11-24" = Some info
      ∧ bloqueado info = false
      ∧ horarios info = Some hs
      ∧ hs = antes ++ "2025-11-24T08:00:00" :: despues
      ∧ JS.substring 11 13 "2025-11-24T08:00:00" = "08"
      ∧ ∀ x, x ∈ antes → JS.substring 11 13 x ≠ "08".
Proof.
  set (r := Calendario.renderizarCalendarioSemanal Ejemplo.navegador_utc Ejemplo.azar_ej
              Ejemplo.lunes Ejemplo.calendario_ej 0).
  assert (E : r = (r.1.1, None, 1%nat)) by (vm_compute; reflexivity).
  assert (Hin : Calendario.NCelda "2025-11-24" "08"
                  (Calendario.celda_disponible "2025-11-24T08:00:00") ∈ r.1.1).
  { apply (list_elem_of_lookup_2 _ 9%nat). vm_compute. reflexivity. }
  exact (calendar_offers_only_free_listed_slots Ejemplo.navegador_utc Ejemplo.azar_ej
           Ejemplo.lunes Ejemplo.calendario_ej 0 r.1.1 None 1 E
           "2025-11-24" "08" (Calendario.celda_disponible "2025-11-24T08:00:00")
           "2025-11-24T08:00:00" Hin eq_refl).
Defined.

(* ===================================================================== *)
(** ** Moving between weeks and loading the calendar *)
(* ===================================================================== *)



(** X18.  When the calendar of the selected physician is received but the
    request for the physician's booked appointments fails,
    [cargarHorariosDisponibles] still ends normally: the calendar received
    is stored, the list of booked appointments is empty, both requests have
    been sent, no toast is shown, the spinner is hidden, and the week is
    rendered to completion without drawing a random number. *)
Theorem calendar_loads_without_the_booked_appointments (w : World) (med : Medico)
    (c : gmap string DiaInfo) :
  medicoSeleccionado (appState w) = Some med →
  servidor w (peticiones w) (Api.getCalendarioDisponibilidad (med_id med) 30 30)
  = Api.RespOk (Api.DCalendario c) →
  (∃ e,
     servidor w
       (peticiones w ++ [Api.getCalendarioDisponibilidad (med_id med) 30 30])
       (Api.getTurnosByMedico (med_id med))
     = Api.RespError e) →
  let w' := run App.cargarHorariosDisponibles w in
  let st := mkCalendarioState (semanaActual (calendarioState w)) c [] in
  resultado App.cargarHorariosDisponibles w = Val tt
  ∧ calendarioState w' = st
  ∧ peticiones w'
    = peticiones w
      ++ [Api.getCalendarioDisponibilidad (med_id med) 30 30;
          Api.getTurnosByMedico (med_id med)]
  ∧ toasts w' = toasts w
  ∧ loading w' = false
  ∧ n_azar w' = n_azar w
  ∧ Calendario.renderizarCalendarioSemanal (nav w) (azar w) (hoy w) st (n_azar w)
    = (calendario_semanal w', None, n_azar w).
Proof.
  intros Hm Hc [e He]. cbv zeta.
  destruct (render_filas_sin_turnos (nav w)
              (mkCalendarioState (semanaActual (calendarioState w)) c []) eq_refl
              Calendario.horasDelDia
              (Calendario.diasSemana (hoy w) (semanaActual (calendarioState w))))
    as [ns Hns].
  assert (Hr : ∀ k, Calendario.renderizarCalendarioSemanal (nav w) (azar w) (hoy w)
                 (mkCalendarioState (semanaActual (calendarioState w)) c []) k
               = (Calendario.encabezados (hoy w)
                    (Calendario.diasSemana (hoy w) (semanaActual (calendarioState w)))
                  ++ ns, None, k)).
  { intros k. unfold Calendario.renderizarCalendarioSemanal. cbv zeta.
    cbn [semanaActual]. by rewrite Hns. }
  unfold run, resultado, App.cargarHorariosDisponibles.
  unfold finally, try_catch, mbind, M_bind, get_world, request, como_calendario,
    App.renderizarCalendarioSemanal.
  mundo_paso. rewrite Hm. mundo_paso. rewrite Hc. mundo_paso.
  cbn [App.set_horariosTodos App.set_turnosOcupados semanaActual horariosTodos
       turnosOcupados].
  rewrite He. mundo_paso. rewrite !Hr. mundo_paso. rewrite <- app_assoc. done.
Qed.

(** Entering step 4 on a page whose server fails to list the physician's
    appointments: the calendar is loaded and no toast is shown. *)
Lemma calendar_loads_witness :
  resultado App.cargarHorariosDisponibles Ejemplo.mundo_paso4 = Val tt
  ∧ calendarioState (run App.cargarHorariosDisponibles Ejemplo.mundo_paso4)
    = mkCalendarioState 0 (horariosTodos Ejemplo.calendario_ej) []
  ∧ toasts (run App.cargarHorariosDisponibles Ejemplo.mundo_paso4) = [].
Proof.
  destruct (calendar_loads_without_the_booked_appointments Ejemplo.mundo_paso4
              Ejemplo.medico_ej (horariosTodos Ejemplo.calendario_ej))
    as (H1 & H2 & _ & H4 & _).
  - reflexivity.
  - vm_compute. reflexivity.
  - exists "Internal Server Error". vm_compute. reflexivity.
  - split; [exact H1 |]. split; [exact H2 | exact H4].
Defined.

(** A handler of the shape [try { ... } catch { h } finally { hideLoading() }]
    whose [catch] block does not throw ends normally, the spinner hidden. *)
Lemma try_finally_termina (body : M unit) (h : string → M unit) (w : World) :
  (∀ e w1, (h e w1).1 = Val tt) →
  (finally (try_catch body h) hideLoading w).1 = Val tt
  ∧ loading (finally (try_catch body h) hideLoading w).2 = false.
Proof.
  intros Hh. unfold finally, try_catch.
  destruct (body w) as [[[] | e] w1]; cbn; [done |].
  specialize (Hh e w1). destruct (h e w1) as [r w2]. cbn in *. by subst r.
Qed.

(** X19.  [cargarHorariosDisponibles] always ends normally with the
    spinner hidden.  When no physician is selected it sends nothing, and
    when the calendar request fails it has sent only that request; in both
    cases the error toast is shown, the calendar on the page is emptied,
    and [calendarioState] keeps the data it held before. *)
Theorem calendar_load_failure_keeps_the_previous_calendar (w : World) :
  let w' := run App.cargarHorariosDisponibles w in
  resultado App.cargarHorariosDisponibles w = Val tt
  ∧ loading w' = false
  ∧ (medicoSeleccionado (appState w) = None →
     peticiones w' = peticiones w
     ∧ calendarioState w' = calendarioState w
     ∧ calendario_semanal w' = []
     ∧ toasts w' = toasts w ++ [("Error al cargar horarios disponibles", "error")])
  ∧ (∀ med e,
       medicoSeleccionado (appState w) = Some med →
       servidor w (peticiones w) (Api.getCalendarioDisponibilidad (med_id med) 30 30)
       = Api.RespError e →
       peticiones w'
       = peticiones w ++ [Api.getCalendarioDisponibilidad (med_id med) 30 30]
       ∧ calendarioState w' = calendarioState w
       ∧ calendario_semanal w' = []
       ∧ toasts w' = toasts w ++ [("Error al cargar horarios disponibles", "error")]).
Proof.
  cbv zeta. split; [| split; [| split]].
  - unfold resultado, App.cargarHorariosDisponibles.
    by apply try_finally_termina.
  - unfold run, App.cargarHorariosDisponibles.
    by apply try_finally_termina.
  - intros Hm. unfold run, App.cargarHorariosDisponibles.
    unfold finally, try_catch, mbind, M_bind, get_world.
    mundo_paso. rewrite Hm. mundo_paso. done.
  - intros med e Hm He. unfold run, App.cargarHorariosDisponibles.
    unfold finally, try_catch, mbind, M_bind, get_world, request.
    mundo_paso. rewrite Hm. mundo_paso. rewrite He. mundo_paso. done.
Qed.

(** With the server down the calendar request fails: the previous
    calendar data stay in [calendarioState] while the page shows none. *)
Lemma calendar_load_failure_witness :
  peticiones (run App.cargarHorariosDisponibles Ejemplo.mundo_sin_servidor)
  = peticiones Ejemplo.mundo_sin_servidor ++ [Api.getCalendarioDisponibilidad 3 30 30]
  ∧ calendarioState (run App.cargarHorariosDisponibles Ejemplo.mundo_sin_servidor)
    = Ejemplo.calendario_ej
  ∧ calendario_semanal (run App.cargarHorariosDisponibles Ejemplo.mundo_sin_servidor) = []
  ∧ toasts (run App.cargarHorariosDisponibles Ejemplo.mundo_sin_servidor)
    = toasts Ejemplo.mundo_sin_servidor
      ++ [("Error al cargar horarios disponibles", "error")].
Proof.
  destruct (calendar_load_failure_keeps_the_previous_calendar Ejemplo.mundo_sin_servidor)
    as (_ & _ & _ & H).
  exact (H Ejemplo.medico_ej "Service Unavailable" eq_refl eq_refl).
Defined.

(* ===================================================================== *)
(** ** Leaving a step of the wizard *)
(* ===================================================================== *)

Lemma nextStep_rechazado (w : World) (step : Z) :
  (currentStep (appState w) = 1 ∧ pacienteSeleccionado (appState w) = None)
  ∨ (currentStep (appState w) = 2 ∧ especialidadSeleccionada (appState w) = None)
  ∨ (currentStep (appState w) = 3 ∧ medicoSeleccionado (appState w) = None)
  ∨ (currentStep (appState w) = 4
     ∧ (horarioSeleccionado (appState w) = None
        ∨ horarioSeleccionado (appState w) = Some "")) →
  ∃ msg, run (App.nextStep step) w = set_toasts (toasts w ++ [(msg, "warning")]) w.
Proof.
  unfold run, App.nextStep, App.validateStep, mbind, M_bind, get_world.
  intros [[-> ->] | [[-> ->] | [[-> ->] | [-> [-> | ->]]]]]; cbn; eexists; reflexivity.
Qed.

(** X10.  While the selection of the current step is missing (no patient
    on step 1, no specialty on step 2, no physician on step 3, no slot on
    step 4), calls of [nextStep], whatever step they target, change nothing
    but the toasts: each call adds one warning, no request is sent and the
    wizard stays where it is. *)
Theorem next_step_is_refused_without_the_selection (w : World) (steps : list Z) :
  (currentStep (appState w) = 1 ∧ pacienteSeleccionado (appState w) = None)
  ∨ (currentStep (appState w) = 2 ∧ especialidadSeleccionada (appState w) = None)
  ∨ (currentStep (appState w) = 3 ∧ medicoSeleccionado (appState w) = None)
  ∨ (currentStep (appState w) = 4
     ∧ (horarioSeleccionado (appState w) = None
        ∨ horarioSeleccionado (appState w) = Some "")) →
  ∃ msgs,
    length msgs = length steps
    ∧ Wizard.ejecutar (map Wizard.EvSiguiente steps) w
      = set_toasts (toasts w ++ map (λ msg, (msg, "warning")) msgs) w.
Proof.
  revert w. induction steps as [| step resto IH]; intros w H.
  - exists []. split; [reflexivity |]. cbn. rewrite app_nil_r. by destruct w.
  - cbn [map Wizard.ejecutar]. unfold Wizard.despachar. cbn [Wizard.manejar].
    destruct (nextStep_rechazado w step H) as [msg ->].
    destruct (IH (set_toasts (toasts w ++ [(msg, "warning")]) w) H) as (msgs & Hl & ->).
    exists (msg :: msgs). split; [cbn; by rewrite Hl |].
    cbn. by rewrite <- app_assoc.
Qed.

(** Right after a reset no patient is selected: asking for step 2 and then
    for step 5 leaves the wizard on step 1 with two warnings. *)
Lemma next_step_refused_witness :
  ∃ msgs,
    length msgs = length [2; 5]
    ∧ Wizard.ejecutar (map Wizard.EvSiguiente [2; 5])
        (run App.resetReservaTurno Ejemplo.mundo_ej)
      = set_toasts
          (toasts (run App.resetReservaTurno Ejemplo.mundo_ej)
           ++ map (λ msg, (msg, "warning")) msgs)
          (run App.resetReservaTurno Ejemplo.mundo_ej).
Proof.
  apply (next_step_is_refused_without_the_selection
           (run App.resetReservaTurno Ejemplo.mundo_ej) [2; 5]).
  left. split; reflexivity.
Defined.

(* ===================================================================== *)
(** ** Looking the patient up and the paged list *)
(* ===================================================================== *)











(* ===================================================================== *)
(** ** Editing and deleting availability rows *)
(* ===================================================================== *)

(** Reloading the schedule never throws and leaves the edit mode as it
    was. *)
Lemma cargarDatosMedico_no_lanza (w : World) :
  ∃ w', Horarios.cargarDatosMedico w = (Val tt, w')
        ∧ modoEdicion (horariosState w') = modoEdicion (horariosState w)
        ∧ itemEditando (horariosState w') = itemEditando (horariosState w)
        ∧ hs_medicoSeleccionado (horariosState w')
          = hs_medicoSeleccionado (horariosState w).
Proof.
  unfold Horarios.cargarDatosMedico, mbind, M_bind, get_world.
  destruct (hs_medicoSeleccionado (horariosState w)) as [medico |] eqn:Em;
    [| by exists w].
  destruct (JS.truthy_num (Some medico)); cbn [negb]; [| exists w; by rewrite Em].
  unfold finally, try_catch, mbind, M_bind. cbn [showLoading modify].
  destruct (request_all _ _) as [[ds | e] w1] eqn:E.
  - assert (Hh : horariosState w1 = horariosState w).
    { pose proof (estable_request_all (conserva horariosState)
                    [Api.getDisponibilidades (Some medico); Api.getBloqueos (Some medico)])
        as H.
      specialize (H ltac:(intros r _; no_toca) (set_loading true w)).
      rewrite E in H. exact H. }
    destruct ds as [| [] [| [] []]]; cbn; eexists; (split; [reflexivity |]);
      cbn; rewrite ?Hh, ?Em; done.
  - assert (Hh : horariosState w1 = horariosState w).
    { pose proof (estable_request_all (conserva horariosState)
                    [Api.getDisponibilidades (Some medico); Api.getBloqueos (Some medico)])
        as H.
      specialize (H ltac:(intros r _; no_toca) (set_loading true w)).
      rewrite E in H. exact H. }
    cbn. eexists. split; [reflexivity |]. cbn. rewrite Hh, Em. done.
Qed.

Lemma cargarDatosMedico_peticiones (w : World) :
  ∃ l, peticiones (Horarios.cargarDatosMedico w).2 = peticiones w ++ l
       ∧ Forall es_lectura l.
Proof. apply cargarDatosMedico_lectura. Qed.

(** X12.  A save of the availability form or of the block form that passed
    the client's check leaves the edit mode only when the server accepts
    it: after an accepted create or update the form is back in create mode
    with no row being edited; after a refused one the schedule state,
    edit mode and edited row included, is as before, that one request has
    been sent and an error toast is shown. *)
Theorem save_leaves_edit_mode_only_when_it_succeeds (w : World) :
  (∀ d,
     JS.str_ge (hora_desde d) (hora_hasta d) = false →
     let r :=
       if modoEdicion (horariosState w)
       then Api.updateDisponibilidad (hs_medicoSeleccionado (horariosState w))
              (itemEditando (horariosState w)) d
       else Api.createDisponibilidad (hs_medicoSeleccionado (horariosState w)) d in
     let w' := run (Horarios.guardarDisponibilidad d) w in
     match servidor w (peticiones w) r with
     | Api.RespOk _ =>
         modoEdicion (horariosState w') = false
         ∧ itemEditando (horariosState w') = None
     | Api.RespError _ =>
         horariosState w' = horariosState w
         ∧ peticiones w' = peticiones w ++ [r]
         ∧ toasts w' = toasts w ++ [("Error al guardar el horario", "error")]
     end)
  ∧ (∀ d,
       JS.num_ge (Date_parse (nav w) (inicio d)) (Date_parse (nav w) (fin d)) = false →
       let r :=
         if modoEdicion (horariosState w)
         then Api.updateBloqueo (hs_medicoSeleccionado (horariosState w))
                (itemEditando (horariosState w)) d
         else Api.createBloqueo (hs_medicoSeleccionado (horariosState w)) d in
       let w' := run (Horarios.guardarBloqueo d) w in
       match servidor w (peticiones w) r with
       | Api.RespOk _ =>
           modoEdicion (horariosState w') = false
           ∧ itemEditando (horariosState w') = None
       | Api.RespError e =>
           horariosState w' = horariosState w
           ∧ peticiones w' = peticiones w ++ [r]
           ∧ toasts w'
             = toasts w
               ++ [("Error al generar el bloqueo: " +:+ JS.or_str (Some e) "Error desconocido",
                    "error")]
       end).
Proof.
  split; intros d Hd; cbv zeta.
  - destruct (modoEdicion (horariosState w)) eqn:Em;
      match goal with |- match ?S with _ => _ end => destruct S as [r | e] eqn:Es end;
      unfold run, Horarios.guardarDisponibilidad; rewrite Hd;
      unfold finally, try_catch, mbind, M_bind, get_world, request;
      cbn -[Horarios.cargarDatosMedico]; rewrite Em;
      change (servidor (set_loading true w) (peticiones (set_loading true w)))
        with (servidor w (peticiones w));
      rewrite Es; cbn -[Horarios.cargarDatosMedico]; try done;
      match goal with |- context [Horarios.cargarDatosMedico ?W] =>
        destruct (cargarDatosMedico_no_lanza W) as (w1 & -> & _)
      end; cbn; done.
  - destruct (modoEdicion (horariosState w)) eqn:Em;
      match goal with |- match ?S with _ => _ end => destruct S as [r | e] eqn:Es end;
      unfold run, Horarios.guardarBloqueo;
      unfold finally, try_catch, mbind, M_bind, get_world, request; rewrite Hd;
      cbn -[Horarios.cargarDatosMedico]; rewrite Em;
      change (servidor (set_loading true w) (peticiones (set_loading true w)))
        with (servidor w (peticiones w));
      rewrite Es; cbn -[Horarios.cargarDatosMedico]; try done;
      match goal with |- context [Horarios.cargarDatosMedico ?W] =>
        destruct (cargarDatosMedico_no_lanza W) as (w1 & -> & _)
      end; cbn; done.
Qed.

(** Saving row 12 from the edit form leaves the edit mode when the server
    accepts the update, and stays in it when the server is down. *)
Lemma save_edit_mode_witness :
  (modoEdicion
     (horariosState
        (run (Horarios.guardarDisponibilidad Ejemplo.horario_valido)
           (run (Horarios.editarDisponibilidad 12) Ejemplo.mundo_horarios))) = false
   ∧ itemEditando
       (horariosState
          (run (Horarios.guardarDisponibilidad Ejemplo.horario_valido)
             (run (Horarios.editarDisponibilidad 12) Ejemplo.mundo_horarios))) = None)
  ∧ (horariosState
       (run (Horarios.guardarDisponibilidad Ejemplo.horario_valido)
          Ejemplo.mundo_sin_servidor)
     = horariosState Ejemplo.mundo_sin_servidor
     ∧ peticiones
         (run (Horarios.guardarDisponibilidad Ejemplo.horario_valido)
            Ejemplo.mundo_sin_servidor)
       = [Api.updateDisponibilidad (Some 3) (Some 12) Ejemplo.horario_valido]).
Proof.
  split.
  - pose proof (proj1 (save_leaves_edit_mode_only_when_it_succeeds
                         (run (Horarios.editarDisponibilidad 12) Ejemplo.mundo_horarios))
                  Ejemplo.horario_valido eq_refl) as H.
    vm_compute in H. vm_compute. exact H.
  - pose proof (proj1 (save_leaves_edit_mode_only_when_it_succeeds
                         Ejemplo.mundo_sin_servidor)
                  Ejemplo.horario_valido eq_refl) as H.
    vm_compute in H. vm_compute. split; [exact (proj1 H) | exact (proj1 (proj2 H))].
Defined.

Lemma guardarDisponibilidad_envia_y_lee (w : World) (d : DisponibilidadData) :
  JS.str_ge (hora_desde d) (hora_hasta d) = false →
  ∃ rest,
    peticiones (run (Horarios.guardarDisponibilidad d) w)
    = peticiones w
      ++ (if modoEdicion (horariosState w)
          then Api.updateDisponibilidad (hs_medicoSeleccionado (horariosState w))
                 (itemEditando (horariosState w)) d
          else Api.createDisponibilidad (hs_medicoSeleccionado (horariosState w)) d)
         :: rest
    ∧ Forall es_lectura rest.
Proof.
  intros H. unfold run, Horarios.guardarDisponibilidad. rewrite H.
  unfold finally, try_catch, mbind, M_bind, get_world, request.
  cbn -[Horarios.cargarDatosMedico].
  destruct (modoEdicion (horariosState w));
    cbn -[Horarios.cargarDatosMedico];
    change (servidor (set_loading true w) (peticiones (set_loading true w)))
      with (servidor w (peticiones w));
    change (peticiones (set_loading true w)) with (peticiones w);
    (destruct (servidor w _ _) as [r | e];
     [| cbn; exists []; split; [reflexivity | constructor]]);
    cbn -[Horarios.cargarDatosMedico];
    match goal with |- context [Horarios.cargarDatosMedico ?W] =>
      destruct (cargarDatosMedico_peticiones W) as (l & Hl & HF);
      destruct (Horarios.cargarDatosMedico W) as [[[] | e] w1]
    end; cbn in *; rewrite Hl, <- app_assoc; exists l; done.
Qed.

(** X13.  The edit button of a row that is not among the loaded rows does
    nothing.  For a loaded row it puts the form in edit mode for that row,
    so that the next save that passes the client's check sends the update
    of exactly that row for the selected physician, followed only by
    reads. *)
Theorem edit_then_save_updates_the_row_edited (w : World) (id : Z) :
  (Horarios.buscar_disponibilidad id (horariosState w) = None →
     run (Horarios.editarDisponibilidad id) w = w)
  ∧ (∀ d,
       is_Some (Horarios.buscar_disponibilidad id (horariosState w)) →
       JS.str_ge (hora_desde d) (hora_hasta d) = false →
       ∃ rest,
         peticiones
           (run (Horarios.guardarDisponibilidad d) (run (Horarios.editarDisponibilidad id) w))
         = peticiones w
           ++ Api.updateDisponibilidad (hs_medicoSeleccionado (horariosState w)) (Some id) d
              :: rest
         ∧ Forall es_lectura rest).
Proof.
  split.
  - intros H. unfold run, Horarios.editarDisponibilidad, mbind, M_bind, get_world.
    by rewrite H.
  - intros d [x Hx] Hd.
    assert (E : run (Horarios.editarDisponibilidad id) w
                = set_horariosState (Horarios.set_edicion true (Some id)) w).
    { unfold run, Horarios.editarDisponibilidad, mbind, M_bind, get_world.
      by rewrite Hx. }
    rewrite E.
    exact (guardarDisponibilidad_envia_y_lee
             (set_horariosState (Horarios.set_edicion true (Some id)) w) d Hd).
Qed.

(** Editing row 12 of physician 3 and saving sends the update of row 12. *)
Lemma edit_then_save_witness :
  ∃ rest,
    peticiones
      (run (Horarios.guardarDisponibilidad Ejemplo.horario_valido)
         (run (Horarios.editarDisponibilidad 12) Ejemplo.mundo_horarios))
    = peticiones Ejemplo.mundo_horarios
      ++ Api.updateDisponibilidad
           (hs_medicoSeleccionado (horariosState Ejemplo.mundo_horarios)) (Some 12)
           Ejemplo.horario_valido
         :: rest
    ∧ Forall es_lectura rest.
Proof.
  apply (proj2 (edit_then_save_updates_the_row_edited Ejemplo.mundo_horarios 12)
           Ejemplo.horario_valido).
  - exists Ejemplo.disponibilidad_ej. vm_compute. reflexivity.
  - reflexivity.
Defined.

Lemma buscar_disponibilidad_id (id : Z) (h : HorariosState) (x : Disponibilidad) :
  Horarios.buscar_disponibilidad id h = Some x → x ∈ disponibilidades h ∧ disp_id x = id.
Proof.
  unfold Horarios.buscar_disponibilidad. intros H.
  apply find_some in H as [Hin Heq]. split; [by apply list_elem_of_In | by apply Z.eqb_eq].
Qed.

(** X14.  [eliminarDisponibilidad] does nothing for an id that is not
    among the loaded rows.  For a loaded row it asks the user first, naming
    the row's day and times: when the user declines nothing is sent and
    nothing changes; when the user accepts, the first request sent is the
    deletion of that row for the selected physician, and what follows only
    reads. *)
Theorem availability_delete_asks_first (w : World) (id : Z) :
  (Horarios.buscar_disponibilidad id (horariosState w) = None →
     run (Horarios.eliminarDisponibilidad id) w = w)
  ∧ (∀ x,
       Horarios.buscar_disponibilidad id (horariosState w) = Some x →
       x ∈ disponibilidades (horariosState w)
       ∧ disp_id x = id
       ∧ (responde_confirm w (Horarios.pregunta_eliminar x) = false →
            run (Horarios.eliminarDisponibilidad id) w = w)
       ∧ (responde_confirm w (Horarios.pregunta_eliminar x) = true →
            ∃ rest,
              peticiones (run (Horarios.eliminarDisponibilidad id) w)
              = peticiones w
                ++ Api.deleteDisponibilidad (hs_medicoSeleccionado (horariosState w)) id
                   :: rest
              ∧ Forall es_lectura rest)).
Proof.
  split.
  - intros H. unfold run, Horarios.eliminarDisponibilidad, mbind, M_bind, get_world.
    by rewrite H.
  - intros x Hx. destruct (buscar_disponibilidad_id _ _ _ Hx) as [Hin Hid].
    split; [exact Hin |]. split; [exact Hid |]. split; intros Hq.
    + unfold run, Horarios.eliminarDisponibilidad, mbind, M_bind, get_world.
      by rewrite Hx, Hq.
    + unfold run, Horarios.eliminarDisponibilidad.
      unfold finally, try_catch, mbind, M_bind, get_world, request. rewrite Hx, Hq.
      cbn -[Horarios.cargarDatosMedico].
      change (servidor (set_loading true w) (peticiones (set_loading true w)))
        with (servidor w (peticiones w)).
      change (peticiones (set_loading true w)) with (peticiones w).
      destruct (servidor w _ _) as [r | e];
        [| cbn; exists []; split; [reflexivity | constructor]].
      cbn -[Horarios.cargarDatosMedico].
      match goal with |- context [Horarios.cargarDatosMedico ?W] =>
        destruct (cargarDatosMedico_peticiones W) as (l & Hl & HF);
        destruct (Horarios.cargarDatosMedico W) as [[[] | e] w1]
      end; cbn in *; rewrite Hl, <- app_assoc; exists l; done.
Qed.

(** Deleting row 12 of physician 3, the user accepting. *)
Lemma availability_delete_witness :
  ∃ rest,
    peticiones (run (Horarios.eliminarDisponibilidad 12) Ejemplo.mundo_horarios)
    = peticiones Ejemplo.mundo_horarios
      ++ Api.deleteDisponibilidad
           (hs_medicoSeleccionado (horariosState Ejemplo.mundo_horarios)) 12
         :: rest
    ∧ Forall es_lectura rest.
Proof.
  destruct (proj2 (availability_delete_asks_first Ejemplo.mundo_horarios 12)
              Ejemplo.disponibilidad_ej ltac:(vm_compute; reflexivity))
    as (_ & _ & _ & H).
  apply H. reflexivity.
Defined.

(* ===================================================================== *)
(** ** The slot cards of the earlier revision *)
(* ===================================================================== *)

(** Sorting with a comparator that is total yields a list in which each
    element is followed by one the comparator does not put before it. *)
Lemma insertar_Sorted {A} (cmp : A → A → Z) (x : A) (l : list A) :
  (∀ a b, cmp a b ≤ 0 ∨ cmp b a ≤ 0) →
  Sorted (λ a b, cmp a b ≤ 0) l →
  Sorted (λ a b, cmp a b ≤ 0) (Orden.insertar cmp x l).
Proof.
  intros Htot. induction l as [| y r IH]; intros Hs; cbn.
  - repeat constructor.
  - apply Sorted_inv in Hs as [Hr Hy].
    destruct (Z.leb_spec (cmp x y) 0) as [Hle | Hgt].
    + constructor; [by constructor | by constructor].
    + constructor; [by apply IH |].
      destruct r as [| z r]; cbn.
      * constructor. destruct (Htot x y); lia.
      * destruct (Z.leb_spec (cmp x z) 0).
        -- constructor. destruct (Htot x y); lia.
        -- constructor. by apply HdRel_inv in Hy.
Qed.

Lemma ordenar_Sorted {A} (cmp : A → A → Z) (l : list A) :
  (∀ a b, cmp a b ≤ 0 ∨ cmp b a ≤ 0) →
  Sorted (λ a b, cmp a b ≤ 0) (Orden.ordenar cmp l).
Proof.
  intros Htot. induction l as [| x l IH]; cbn; [constructor |].
  by apply insertar_Sorted.
Qed.

Lemma cmp_cadenas_total (a b : string) :
  AppV1.cmp_cadenas a b ≤ 0 ∨ AppV1.cmp_cadenas b a ≤ 0.
Proof.
  unfold AppV1.cmp_cadenas. rewrite (String.compare_antisym a b).
  destruct (String.compare b a); cbn; lia.
Qed.

Lemma cmp_cadenas_leb (a b : string) :
  AppV1.cmp_cadenas a b ≤ 0 ↔ String.leb a b = true.
Proof.
  unfold AppV1.cmp_cadenas, String.leb.
  destruct (String.compare a b); cbn; split; intros H; try done; lia.
Qed.

(** X21.  In the earlier revision of step 4 the calendar received maps
    each date to its slots.  When it is not empty, one card is painted for
    each date, the dates in increasing order and none twice; the card of a
    date carries one button for each slot listed for that date, in the order
    of the reply, and its badge counts them.  So every slot the reply lists
    can be picked, also several within one hour. *)
Theorem slot_cards_offer_every_listed_slot (calendario : gmap string (list string)) :
  calendario ≠ ∅ →
  ∃ cards,
    AppV1.renderizar_calendario calendario = AppV1.Tarjetas cards
    ∧ Sorted (λ a b, String.leb a b = true) (map AppV1.fc_fecha cards)
    ∧ NoDup (map AppV1.fc_fecha cards)
    ∧ (∀ card, card ∈ cards →
         calendario !! AppV1.fc_fecha card = Some (AppV1.fc_botones card)
         ∧ AppV1.fc_cantidad card = length (AppV1.fc_botones card))
    ∧ (∀ fecha horarios,
         calendario !! fecha = Some horarios →
         AppV1.mkFechaCard fecha (length horarios) horarios ∈ cards).
Proof.
  intros Hne. unfold AppV1.renderizar_calendario. cbv zeta.
  destruct ((map_to_list calendario).*1) as [| k0 ks] eqn:Ek.
  { apply fmap_nil_inv, map_to_list_empty_iff in Ek. done. }
  change (length (k0 :: ks) =? 0)%nat with false. cbv iota. rewrite <- Ek.
  set (fechas := Orden.ordenar AppV1.cmp_cadenas (map_to_list calendario).*1).
  assert (Hperm : fechas ≡ₚ (map_to_list calendario).*1) by apply ordenar_perm.
  assert (Hkey : ∀ fecha, fecha ∈ fechas ↔ is_Some (calendario !! fecha)).
  { intros fecha. rewrite Hperm. split.
    - intros ((k & v) & -> & Hin%elem_of_map_to_list)%list_elem_of_fmap. by exists v.
    - intros [v Hv]. apply list_elem_of_fmap. exists (fecha, v).
      split; [reflexivity | by apply elem_of_map_to_list]. }
  eexists. split; [reflexivity |].
  rewrite map_map. cbn [AppV1.fc_fecha]. rewrite map_id.
  split; [| split; [| split]].
  - pose proof (ordenar_Sorted AppV1.cmp_cadenas (map_to_list calendario).*1
                  cmp_cadenas_total) as Hs.
    fold fechas in Hs. clearbody fechas. clear -Hs.
    induction Hs as [| a l Hl IH Hd]; constructor; [exact IH |].
    destruct Hd; constructor. by apply cmp_cadenas_leb.
  - rewrite Hperm. apply NoDup_fst_map_to_list.
  - intros card Hc.
    apply list_elem_of_In, in_map_iff in Hc as (fecha & <- & Hf%list_elem_of_In).
    cbn [AppV1.fc_fecha AppV1.fc_botones AppV1.fc_cantidad].
    apply Hkey in Hf as [v Hv]. rewrite Hv. done.
  - intros fecha horarios Hf.
    apply list_elem_of_In, in_map_iff. exists fecha. split.
    + by rewrite Hf.
    + apply list_elem_of_In, Hkey. by exists horarios.
Qed.

(** The two slots of 08:00 and 08:30 of the example are both offered, on
    the first card. *)
Lemma slot_cards_witness :
  ∃ cards,
    AppV1.renderizar_calendario Ejemplo.calendario_v1 = AppV1.Tarjetas cards
    ∧ map AppV1.fc_fecha cards = ["2025-11-24"; "2025-11-25"]
    ∧ AppV1.mkFechaCard "2025-11-24" 2 ["2025-11-24T08:00:00"; "2025-11-24T08:30:00"]
      ∈ cards.
Proof.
  destruct (slot_cards_offer_every_listed_slot Ejemplo.calendario_v1)
    as (cards & H1 & _ & _ & _ & H5).
  - intros H. apply (f_equal (λ m, m !! "2025-11-24")) in H. vm_compute in H. discriminate.
  - exists cards. split; [exact H1 |]. split.
    + assert (E : AppV1.Tarjetas cards
                  = AppV1.Tarjetas
                      [AppV1.mkFechaCard "2025-11-24" 2
                         ["2025-11-24T08:00:00"; "2025-11-24T08:30:00"];
                       AppV1.mkFechaCard "2025-11-25" 1 ["2025-11-25T10:00:00"]]).
      { rewrite <- H1. vm_compute. reflexivity. }
      injection E as ->. reflexivity.
    + apply (H5 "2025-11-24" ["2025-11-24T08:00:00"; "2025-11-24T08:30:00"]).
      vm_compute. reflexivity.
Defined.

(* ===================================================================== *)
(** ** Reloading the schedule; the appointments of a patient *)
(* ===================================================================== *)





(* ===================================================================== *)
(** ** The outcome of a booking *)
(* ===================================================================== *)




